(** * pysubs: a shallow embedding of [pysubs.py] and its specification

    The development follows the source file top to bottom: the Python
    values and exceptions the script manipulates, the outside world it
    talks to (file system, [ffprobe], the OpenSubtitles HTTP API), then one
    definition per function of [pysubs.py], and finally the properties of
    the specification, each settled against those definitions. *)

From Stdlib Require Import ZArith Lia List String Ascii.
From Stdlib.Strings Require Import Byte.
From stdpp Require Import base option list strings gmap.

Set Warnings "-register-all".

Local Open Scope Z_scope.

(** ** Python values

    What [response.json()] and [ffmpeg.probe] hand to the script: [None],
    booleans, integers, strings, lists and dictionaries.  A dictionary is an
    association list read front to back (the first binding of a key is the
    one [get] sees).  JSON numbers with a fraction are outside the model. *)

Inductive value : Type :=
| VNone
| VBool (b : bool)
| VInt (n : Z)
| VStr (s : string)
| VList (items : list value)
| VDict (members : list (string * value)).

(** ** Exceptions

    [SystemExit] is the only one here that does not derive from
    [Exception].  [NotModelled] is not a Python exception: it marks the few
    operations on values whose Python behaviour this embedding does not
    reproduce (ordering of two lists). *)

Inductive exn : Type :=
| AttributeError
| TypeError
| KeyError
| IndexError
| ValueError
| StructError
| OSError
| FileNotFoundError
| RequestException
| FfmpegError
| RecursionError
| SystemExit (code : Z)
| NotModelled.

Definition is_Exception (e : exn) : bool :=
  match e with SystemExit _ => false | _ => true end.

Definition is_RequestException (e : exn) : bool :=
  match e with RequestException => true | _ => false end.

Definition is_FfmpegError (e : exn) : bool :=
  match e with FfmpegError => true | _ => false end.

(** A computation either returns or raises. *)

Inductive outcome (A : Type) : Type :=
| Ret (a : A)
| Raise (e : exn).
Arguments Ret {A} a.
Arguments Raise {A} e.

#[global] Instance outcome_ret : MRet outcome := λ A a, Ret a.
#[global] Instance outcome_bind : MBind outcome := λ A B k m,
  match m with
  | Ret a => k a
  | Raise e => Raise e
  end.

(** ** Operations on values, as the script uses them *)

(** [bool(v)]. *)
Definition truthy (v : value) : bool :=
  match v with
  | VNone => false
  | VBool b => b
  | VInt n => negb (n =? 0)
  | VStr s => negb (String.eqb s "")
  | VList items => match items with [] => false | _ => true end
  | VDict members => match members with [] => false | _ => true end
  end.

Fixpoint dict_lookup (k : string) (members : list (string * value)) : option value :=
  match members with
  | [] => None
  | (k', v) :: rest => if String.eqb k k' then Some v else dict_lookup k rest
  end.

(** [o.get(k, dflt)]: only dictionaries have a [get]. *)
Definition py_get (o : value) (k : string) (dflt : value) : outcome value :=
  match o with
  | VDict members => Ret (default dflt (dict_lookup k members))
  | _ => Raise AttributeError
  end.

(** [v1 > v2].  Integers and booleans compare as numbers, strings
    lexicographically; [None] and dictionaries are unorderable, as are
    values of different kinds. *)
Definition as_number (v : value) : option Z :=
  match v with
  | VInt n => Some n
  | VBool b => Some (if b then 1 else 0)
  | _ => None
  end.

Definition py_gt (v1 v2 : value) : outcome bool :=
  match as_number v1, as_number v2 with
  | Some a, Some b => Ret (b <? a)
  | _, _ =>
    match v1, v2 with
    | VStr a, VStr b => Ret (String.ltb b a)
    | VList _, VList _ => Raise NotModelled
    | _, _ => Raise TypeError
    end
  end.

(** [iter(v)]: the items of a list, the keys of a dictionary, the
    characters of a string (one item per octet here; every use below calls
    [get] on the items, which a string item does not have). *)
Definition py_iter (v : value) : outcome (list value) :=
  match v with
  | VList items => Ret items
  | VDict members => Ret (map (λ kv, VStr (fst kv)) members)
  | VStr s => Ret (map (λ c, VStr (String c "")) (list_ascii_of_string s))
  | _ => Raise TypeError
  end.

(** [v == s] for a string literal [s]. *)
Definition py_eq_str (v : value) (s : string) : bool :=
  match v with
  | VStr s' => String.eqb s' s
  | _ => false
  end.

(** [s in v] for a string literal [s]. *)
Definition py_contains_str (v : value) (s : string) : outcome bool :=
  match v with
  | VDict members => Ret (bool_decide (is_Some (dict_lookup s members)))
  | VList items => Ret (existsb (λ x, py_eq_str x s) items)
  | VStr s' => Ret (bool_decide (is_Some (String.index 0 s s')))
  | _ => Raise TypeError
  end.

(** [v[s]] for a string literal [s]: a dictionary lookup; lists and strings
    want integer indices. *)
Definition py_getitem_str (v : value) (s : string) : outcome value :=
  match v with
  | VDict members =>
    match dict_lookup s members with
    | Some x => Ret x
    | None => Raise KeyError
    end
  | _ => Raise TypeError
  end.

(** [v[0]]. *)
Definition py_getitem_0 (v : value) : outcome value :=
  match v with
  | VList (x :: _) => Ret x
  | VList [] => Raise IndexError
  | VStr (String c _) => Ret (VStr (String c ""))
  | VStr EmptyString => Raise IndexError
  | VDict _ => Raise KeyError
  | _ => Raise TypeError
  end.

(** [len(v)], for lists. *)
Definition py_len (v : value) : outcome nat :=
  match v with
  | VList items => Ret (length items)
  | VStr _ | VDict _ => Raise NotModelled
  | _ => Raise TypeError
  end.

Definition py_isinstance_list (v : value) : bool :=
  match v with VList _ => true | _ => false end.

(** ** [struct.unpack('<q', buffer)] and ["%016x" % n] *)

Definition byte_val (b : byte) : Z := Z.of_N (Byte.to_N b).

Definition le_unsigned (bs : list byte) : Z :=
  foldr (λ b acc, byte_val b + 256 * acc) 0 bs.

Definition to_signed64 (u : Z) : Z :=
  if u <? 2 ^ 63 then u else u - 2 ^ 64.

(** [struct.calcsize('<q')]. *)
Definition bytesize : Z := 8.

Definition struct_unpack_q (buffer : list byte) : outcome Z :=
  if (length buffer =? Z.to_nat bytesize)%nat
  then Ret (to_signed64 (le_unsigned buffer))
  else Raise StructError.

Definition hex_digit (d : Z) : ascii :=
  nth (Z.to_nat d) (list_ascii_of_string "0123456789abcdef") "0"%char.

(** Number of hexadecimal digits of [n >= 0] (one digit for zero). *)
Definition hex_ndigits (n : Z) : nat := S (Z.to_nat (Z.log2 n / 4)).

(** Digits of [n >= 0], most significant first. *)
Definition hex_digits (n : Z) : list ascii :=
  map (λ i, hex_digit ((n / 16 ^ Z.of_nat i) mod 16)) (rev (seq 0 (hex_ndigits n))).

Definition zero_pad (width : nat) (ds : list ascii) : list ascii :=
  replicate (width - length ds) "0"%char ++ ds.

(** ["%016x" % n]: sign first, then zeros up to a total width of 16. *)
Definition format_016x (n : Z) : string :=
  if n <? 0
  then String "-" (string_of_list_ascii (zero_pad 15 (hex_digits (- n))))
  else string_of_list_ascii (zero_pad 16 (hex_digits n)).

(** ** Binary file objects *)

Record BinFile : Type := { data : list byte; pos : nat }.

Definition f_read (f : BinFile) (n : nat) : list byte * BinFile :=
  let buffer := take n (drop (pos f) (data f)) in
  (buffer, {| data := data f; pos := (pos f + length buffer)%nat |}).

Definition f_seek (f : BinFile) (offset : Z) : BinFile :=
  {| data := data f; pos := Z.to_nat offset |}.

(** The two loops of [generate_opensubtitles_hash], lines 71-75 and 79-83:
    [count] times, read [bytesize] octets, unpack, add, mask. *)
Fixpoint sum_longlongs (count : nat) (f : BinFile) (hash_value : Z)
  : outcome (BinFile * Z) :=
  match count with
  | O => Ret (f, hash_value)
  | S count' =>
    let '(buffer, f') := f_read f (Z.to_nat bytesize) in
    l_value ← struct_unpack_q buffer;
    let hash_value := hash_value + l_value in
    let hash_value := Z.land hash_value 0xFFFFFFFFFFFFFFFF in
    sum_longlongs count' f' hash_value
  end.

(** Lines 69-86: the body of the [with open(...)] block, on the octets of
    the opened file. *)
Definition hash_of_contents (contents : list byte) (filesize : Z) : outcome string :=
  let f := {| data := contents; pos := 0 |} in
  '(f, hash_value) ← sum_longlongs (Z.to_nat (65536 / bytesize)) f filesize;
  let f := f_seek f (Z.max 0 (filesize - 65536)) in
  '(f, hash_value) ← sum_longlongs (Z.to_nat (65536 / bytesize)) f hash_value;
  Ret (format_016x hash_value).


(** ** [os.path] (POSIX flavour) *)

Fixpoint find_last (c : ascii) (l : list ascii) (i : Z) (found : Z) : Z :=
  match l with
  | [] => found
  | x :: rest => find_last c rest (i + 1) (if Ascii.eqb x c then i else found)
  end.

(** [p.rfind(c)], [-1] when [c] does not occur. *)
Definition rfind (c : ascii) (p : string) : Z :=
  find_last c (list_ascii_of_string p) 0 (-1).

(** [p[i:j]] for [0 <= i]. *)
Definition slice (p : string) (i j : Z) : string :=
  string_of_list_ascii (take (Z.to_nat (j - i)) (drop (Z.to_nat i) (list_ascii_of_string p))).

Definition slice_from (p : string) (i : Z) : string :=
  string_of_list_ascii (drop (Z.to_nat i) (list_ascii_of_string p)).

(** [os.path.basename]. *)
Definition basename (p : string) : string := slice_from p (rfind "/" p + 1).

(** [os.path.splitext]: split at the last dot of the last component,
    unless that component consists of leading dots only up to there. *)
Definition splitext (p : string) : string * string :=
  let sepIndex := rfind "/" p in
  let dotIndex := rfind "." p in
  if (sepIndex <? dotIndex)
     && existsb (λ c, negb (Ascii.eqb c "."))
                (list_ascii_of_string (slice p (sepIndex + 1) dotIndex))
  then (slice p 0 dotIndex, slice_from p dotIndex)
  else (p, ""%string).

(** ** The world outside the script *)

(** Requests sent with [requests.get] and [requests.post]. *)
Inductive net_call : Type :=
| GET_subtitles (params : list (string * string))
| POST_download (file_id : value)
| GET_link (url : value).

(** What a request gives back to the script: [HttpError] is a
    [requests.exceptions.RequestException] raised by the call itself, by
    [raise_for_status] or by [json()] on a body that is not JSON. *)
Inductive http_result (A : Type) : Type :=
| HttpError
| HttpOk (body : A).
Arguments HttpError {A}.
Arguments HttpOk {A} body.

(** [ffmpeg.probe(path)]: the decoded report of [ffprobe], or an exception.
    The wrapper raises [ffmpeg.Error] when [ffprobe] exits with a failure
    status; when the [ffprobe] executable cannot be started at all, the
    [FileNotFoundError] of the process launch comes through unchanged. *)
Inductive probe_result : Type :=
| ProbeOk (report : value)
| ProbeRaises (e : exn).

(** [open(path, "w")] followed by [write] and the close of the [with]
    block.  Opening truncates, so once the file is open its old content is
    gone; a failing write has put [written] octets into the file. *)
Inductive write_behaviour : Type :=
| WriteOk
| OpenFails
| WriteFails (written : nat).

Record Env : Type := {
  API_KEY : option string;            (* os.environ.get("OPENSUBTITLES_API_KEY") *)
  ffprobe : string → probe_result;
  api_search : list (string * string) → http_result value;
  api_download : value → http_result value;
  http_fetch : value → http_result string;
  disk_write : string → write_behaviour;
}.

Inductive level : Type := INFO | WARNING | ERROR.

(** One constructor per logging call of the script. *)
Inductive message : Type :=
| Found_existing_subtitle_file (name : string)
| Found_embedded_streams (n : nat)
| Could_not_probe (e : exn)
| File_too_small
| Error_generating_hash (e : exn)
| API_request_failed (e : exn)
| No_valid_file_id
| Requesting_download_link
| Failed_to_get_download_link
| Downloading_subtitle
| Subtitle_saved (name : string)
| Failed_to_download (e : exn)
| Error_during_download_save (e : exn)
| API_key_not_found
| File_not_found (path : string)
| Processing (filename : string)
| Subtitles_already_exist
| Generated_hash (h : string)
| Found_by_hash (n : nat)
| No_subtitles_by_hash
| Found_by_filename (n : nat)
| Best_match_via (search_method : option string)
| No_English_subtitles
| Script_finished.

(** Regular files by path, the requests sent so far, the log so far. *)
Record World : Type := {
  fs : gmap string (list byte);
  net : list net_call;
  log : list (level * message);
}.

(** ** Stateful computations *)

Definition M (A : Type) : Type := World → outcome A * World.

#[global] Instance M_ret : MRet M := λ A a w, (Ret a, w).
#[global] Instance M_bind : MBind M := λ A B k m w,
  match m w with
  | (Ret a, w') => k a w'
  | (Raise e, w') => (Raise e, w')
  end.

Definition run {A} (m : M A) (w : World) : outcome A * World := m w.

Definition raise {A} (e : exn) : M A := λ w, (Raise e, w).

Definition lift {A} (o : outcome A) : M A := λ w, (o, w).

(** [try: body / except C1: h1 / except C2: h2 ...]: the first handler whose
    class matches takes the exception. *)
Fixpoint pick_handler {A} (handlers : list ((exn → bool) * (exn → M A))) (e : exn)
  : option (M A) :=
  match handlers with
  | [] => None
  | (matches, h) :: rest => if matches e then Some (h e) else pick_handler rest e
  end.

Definition try_except {A} (body : M A) (handlers : list ((exn → bool) * (exn → M A))) : M A :=
  λ w,
  match body w with
  | (Ret a, w') => (Ret a, w')
  | (Raise e, w') =>
    match pick_handler handlers e with
    | Some h => h w'
    | None => (Raise e, w')
    end
  end.

Definition logged (lvl : level) (msg : message) (w : World) : World :=
  {| fs := fs w; net := net w; log := log w ++ [(lvl, msg)] |}.

Definition logging (lvl : level) (msg : message) : M unit :=
  λ w, (Ret tt, logged lvl msg w).

Definition sys_exit {A} (code : Z) : M A := raise (SystemExit code).

Definition os_path_isfile (path : string) : M bool :=
  λ w, (Ret (bool_decide (is_Some (fs w !! path))), w).

Definition os_path_getsize (path : string) : M Z :=
  λ w,
  match fs w !! path with
  | Some contents => (Ret (Z.of_nat (length contents)), w)
  | None => (Raise FileNotFoundError, w)
  end.

(** [open(path, 'rb')]: the octets of the file. *)
Definition open_rb (path : string) : M (list byte) :=
  λ w,
  match fs w !! path with
  | Some contents => (Ret contents, w)
  | None => (Raise FileNotFoundError, w)
  end.

Definition stored (path : string) (octets : list byte) (w : World) : World :=
  {| fs := <[path := octets]> (fs w); net := net w; log := log w |}.

Definition sent (c : net_call) (w : World) : World :=
  {| fs := fs w; net := net w ++ [c]; log := log w |}.

Definition of_http {A} (r : http_result A) : outcome A :=
  match r with
  | HttpOk body => Ret body
  | HttpError => Raise RequestException
  end.

(** ** The functions of [pysubs.py] *)

Section pysubs.
Context (env : Env).

(** *** [has_external_subtitles], lines 30-38 *)

Fixpoint has_external_subtitles_loop (base : string) (exts : list string) : M bool :=
  match exts with
  | [] => mret false
  | ext :: exts' =>
    let sub_path := (base +:+ ext)%string in
    isfile ← os_path_isfile sub_path;
    if isfile : bool then
      logging INFO (Found_existing_subtitle_file (basename sub_path));;
      mret true
    else has_external_subtitles_loop base exts'
  end.

Definition has_external_subtitles (video_path : string) : M bool :=
  let '(base, _) := splitext video_path in
  has_external_subtitles_loop base [".srt"; ".sub"]%string.

(** *** [has_embedded_subtitles], lines 41-51 *)

Definition ffmpeg_probe (video_path : string) : M value :=
  lift (match ffprobe env video_path with
        | ProbeOk report => Ret report
        | ProbeRaises e => Raise e
        end).

(** [[s for s in streams if s.get("codec_type") == "subtitle"]]. *)
Fixpoint subtitle_streams_of (streams : list value) : outcome (list value) :=
  match streams with
  | [] => Ret []
  | s :: rest =>
    codec_type ← py_get s "codec_type" VNone;
    selected ← subtitle_streams_of rest;
    Ret (if py_eq_str codec_type "subtitle" then s :: selected else selected)
  end.

(** The [return True] of line 48 and the [return False] of line 51 are the
    two values of the [try] statement here; only [ffmpeg.Error] is handled. *)
Definition has_embedded_subtitles (video_path : string) : M bool :=
  try_except
    (probe ← ffmpeg_probe video_path;
     streams ← lift (py_get probe "streams" (VList []));
     items ← lift (py_iter streams);
     subtitle_streams ← lift (subtitle_streams_of items);
     if truthy (VList subtitle_streams) then
       logging INFO (Found_embedded_streams (length subtitle_streams));;
       mret true
     else mret false)
    [(is_FfmpegError, λ e, logging WARNING (Could_not_probe e);; mret false)].

(** *** [generate_opensubtitles_hash], lines 54-89 *)

Definition generate_opensubtitles_hash (video_path : string) : M (option string) :=
  try_except
    (filesize ← os_path_getsize video_path;
     if filesize <? 65536 * 2 then
       logging WARNING File_too_small;;
       mret None
     else
       contents ← open_rb video_path;
       returnedhash ← lift (hash_of_contents contents filesize);
       mret (Some returnedhash))
    [(is_Exception, λ e, logging ERROR (Error_generating_hash e);; mret None)].

(** *** [search_subtitles], lines 92-102 *)

Definition requests_get_subtitles (params : list (string * string)) : M value :=
  λ w, (of_http (api_search env params), sent (GET_subtitles params) w).

Definition search_subtitles (params : list (string * string)) : M value :=
  try_except
    (data ← requests_get_subtitles params;
     lift (py_get data "data" (VList [])))
    [(is_RequestException, λ e, logging ERROR (API_request_failed e);; mret (VList []))].

(** *** [get_best_subtitle], lines 105-110 *)

(** [lambda s: s.get("attributes", {}).get("download_count", 0)]. *)
Definition download_count_key (s : value) : outcome value :=
  attributes ← py_get s "attributes" (VDict []);
  py_get attributes "download_count" (VInt 0).

(** The loop of the builtin [max]: an item replaces the current maximum
    only when its key is strictly greater. *)
Fixpoint max_loop (key : value → outcome value) (items : list value)
    (maxitem maxval : value) : outcome value :=
  match items with
  | [] => Ret maxitem
  | item :: rest =>
    val ← key item;
    greater ← py_gt val maxval;
    if greater : bool then max_loop key rest item val
    else max_loop key rest maxitem maxval
  end.

Definition py_max (iterable : value) (key : value → outcome value) : outcome value :=
  items ← py_iter iterable;
  match items with
  | [] => Raise ValueError
  | item :: rest => val ← key item; max_loop key rest item val
  end.

Definition get_best_subtitle (subtitles : value) : outcome value :=
  if negb (truthy subtitles) then Ret VNone
  else py_max subtitles download_count_key.

(** *** [download_and_save_subtitle], lines 113-153 *)

Definition requests_post_download (file_id : value) : M value :=
  λ w, (of_http (api_download env file_id), sent (POST_download file_id) w).

Definition requests_get_text (url : value) : M string :=
  λ w, (of_http (http_fetch env url), sent (GET_link url) w).

(** [with open(path, "w", encoding="utf-8") as f: f.write(content)]; a
    string stands for its UTF-8 octets. *)
Definition write_text (path : string) (content : string) : M unit :=
  λ w,
  match disk_write env path with
  | OpenFails => (Raise OSError, w)
  | WriteFails written =>
    (Raise OSError, stored path (take written (list_byte_of_string content)) w)
  | WriteOk => (Ret tt, stored path (list_byte_of_string content) w)
  end.

(** The test of line 116. *)
Definition no_valid_file_id (files : value) : outcome bool :=
  if negb (truthy files) then Ret true
  else if negb (py_isinstance_list files) then Ret true
  else
    first ← py_getitem_0 files;
    present ← py_contains_str first "file_id";
    Ret (negb present).

Definition subtitle_path_of (video_path : string) : string :=
  ((splitext video_path).1 +:+ ".srt")%string.

Definition download_and_save_subtitle (subtitle_data : value) (video_path : string) : M unit :=
  attributes ← lift (py_get subtitle_data "attributes" (VDict []));
  files ← lift (py_get attributes "files" VNone);
  invalid ← lift (no_valid_file_id files);
  if invalid : bool then logging ERROR No_valid_file_id
  else
    first ← lift (py_getitem_0 files);
    file_id ← lift (py_getitem_str first "file_id");
    try_except
      (logging INFO Requesting_download_link;;
       download_info ← requests_post_download file_id;
       download_link ← lift (py_get download_info "link" VNone);
       if negb (truthy download_link) then logging ERROR Failed_to_get_download_link
       else
         logging INFO Downloading_subtitle;;
         sub_content ← requests_get_text download_link;
         let subtitle_path := subtitle_path_of video_path in
         write_text subtitle_path sub_content;;
         logging INFO (Subtitle_saved (basename subtitle_path)))
      [(is_RequestException, λ e, logging ERROR (Failed_to_download e));
       (is_Exception, λ e, logging ERROR (Error_during_download_save e))].

(** *** [main], lines 156-212

    [main] is cut in two at line 175: [orchestrate] is the acquisition
    policy proper, lines 175-212, itself written as the succession of its
    four stages; [main] below puts the checks of lines 158-173 in front of
    it. *)

Definition hash_params (movie_hash : string) : list (string * string) :=
  [("moviehash", movie_hash); ("languages", "en")]%string.

Definition query_params (filename : string) : list (string * string) :=
  [("query", (splitext filename).1); ("languages", "en")]%string.

(** Lines 189-193 and 199-203: what a search leaves in [subtitle_data] and
    [search_method]. *)
Definition take_best (results : value) (found : nat → message) (method : string)
    (subtitle_data : value) (search_method : option string)
  : M (value * option string) :=
  if truthy results then
    best ← lift (get_best_subtitle results);
    n ← lift (py_len results);
    logging INFO (found n);;
    mret (best, Some method)
  else mret (subtitle_data, search_method).

(** Line 177. *)
Definition check_local (video_path : string) : M bool :=
  external ← has_external_subtitles video_path;
  if external : bool then mret true else has_embedded_subtitles video_path.

(** Lines 181-193, "1. Try searching by hash". *)
Definition search_by_hash (video_path : string) : M (value * option string) :=
  let subtitle_data := VNone in
  let search_method := None in
  movie_hash ← generate_opensubtitles_hash video_path;
  match movie_hash with
  | Some h =>
    if negb (String.eqb h "") then
      logging INFO (Generated_hash h);;
      results ← search_subtitles (hash_params h);
      take_best results Found_by_hash "hash" subtitle_data search_method
    else mret (subtitle_data, search_method)
  | None => mret (subtitle_data, search_method)
  end.

(** Lines 195-203, "2. If not found, try searching by filename". *)
Definition search_by_name (filename : string) (subtitle_data : value)
    (search_method : option string) : M (value * option string) :=
  if negb (truthy subtitle_data) then
    logging INFO No_subtitles_by_hash;;
    results ← search_subtitles (query_params filename);
    take_best results Found_by_filename "filename" subtitle_data search_method
  else mret (subtitle_data, search_method).

(** Lines 205-212. *)
Definition conclude (video_path : string) (subtitle_data : value)
    (search_method : option string) : M unit :=
  (if truthy subtitle_data then
     logging INFO (Best_match_via search_method);;
     download_and_save_subtitle subtitle_data video_path
   else logging INFO No_English_subtitles);;
  logging INFO Script_finished.

Definition orchestrate (video_path filename : string) : M unit :=
  logging INFO (Processing filename);;
  present ← check_local video_path;
  if present : bool then
    logging INFO Subtitles_already_exist;;
    sys_exit 0
  else
    '(subtitle_data, search_method) ← search_by_hash video_path;
    '(subtitle_data, search_method) ← search_by_name filename subtitle_data search_method;
    conclude video_path subtitle_data search_method.

(** [video_path] is what [parse_args] returns for a command line made of
    one positional argument.  [setup_logging] is passed in because, in the
    source, the two functions call each other (see below). *)
Definition main (setup_logging : M unit) (video_path : string) : M unit :=
  setup_logging;;
  (if negb (from_option (λ k, negb (String.eqb k "")) false (API_KEY env)) then
     logging ERROR API_key_not_found;;
     sys_exit 1
   else mret tt);;
  let filename := basename video_path in
  isfile ← os_path_isfile video_path;
  (if negb isfile then
     logging ERROR (File_not_found video_path);;
     sys_exit 1
   else mret tt);;
  orchestrate video_path filename.

(** *** [setup_logging], lines 21-216

    In the source every line from 30 on is indented by four columns: the
    definitions of lines 30-212, [main] included, and the
    [if __name__ == "__main__": main()] of lines 215-216 are statements of
    the body of [setup_logging].  A call of [setup_logging] configures the
    logging module (no record is emitted), binds the functions locally and
    then, in a process started from this file, calls [main], whose first
    statement calls [setup_logging] again.  [depth] is the number of frames
    left before [RecursionError]. *)
Fixpoint setup_logging (dunder_name : string) (video_path : string) (depth : nat) : M unit :=
  match depth with
  | O => raise RecursionError
  | S depth' =>
    if String.eqb dunder_name "__main__"
    then main (setup_logging dunder_name video_path depth') video_path
    else mret tt
  end.

(** *** The module, lines 1-216

    Executing the file runs its top-level statements in order.  An [import],
    an assignment of a constant and a [def] only bind a name; the body of a
    [def] runs when the function is called. *)
Inductive statement : Type :=
| Import (module : string)
| Assign (name : string)
| Def (name : string) (body : M unit)
| Call (body : M unit).

Definition exec_statement (s : statement) : M unit :=
  match s with
  | Call body => body
  | Import _ | Assign _ | Def _ _ => mret tt
  end.

Fixpoint exec_block (block : list statement) : M unit :=
  match block with
  | [] => mret tt
  | s :: block' => exec_statement s;; exec_block block'
  end.

(** The statements that start at column 0: lines 1-9, 16-18 and 21.  The
    process is started as [python pysubs.py video_path]; [depth] is the
    recursion limit of the interpreter. *)
Definition pysubs_module (dunder_name : string) (video_path : string) (depth : nat)
  : list statement :=
  [Import "argparse"; Import "hashlib"; Import "logging"; Import "os";
   Import "struct"; Import "sys"; Import "requests"; Import "ffmpeg";
   Assign "API_KEY"; Assign "API_URL"; Assign "USER_AGENT";
   Def "setup_logging" (setup_logging dunder_name video_path depth)]%string.

End pysubs.

(** Exit status of the interpreter for the way the module ended. *)
Definition exit_status (o : outcome unit) : Z :=
  match o with
  | Ret _ => 0
  | Raise (SystemExit code) => code
  | Raise _ => 1
  end.

(** ** Terminal states of the specification

    The script has no status value; how a run of [orchestrate] ended shows
    in the way it stopped and in the last records of the log. *)

Inductive terminal : Type :=
| DONE_SKIPPED
| DONE_DOWNLOADED
| DONE_NOT_FOUND
| DONE_ERROR.

(** What the record logged just before "Script finished." says. *)
Definition classify (lvl : level) (msg : message) : option terminal :=
  match lvl, msg with
  | INFO, Subtitle_saved _ => Some DONE_DOWNLOADED
  | INFO, No_English_subtitles => Some DONE_NOT_FOUND
  | ERROR, No_valid_file_id
  | ERROR, Failed_to_get_download_link
  | ERROR, Failed_to_download _
  | ERROR, Error_during_download_save _ => Some DONE_ERROR
  | _, _ => None
  end.

Definition terminal_state (r : outcome unit * World) : option terminal :=
  match r.1, rev (log r.2) with
  | Raise (SystemExit 0), (INFO, Subtitles_already_exist) :: _ => Some DONE_SKIPPED
  | Ret _, (INFO, Script_finished) :: (lvl, msg) :: _ => classify lvl msg
  | _, _ => None
  end.

(** ** Notions of the specification *)

(** The signed 64-bit integer whose eight little-endian octets start at
    offset [off] of the file. *)
Definition int64_at (contents : list byte) (off : nat) : Z :=
  to_signed64 (le_unsigned (take 8 (drop off contents))).

(** Sum of the [n] consecutive such integers starting at offset [off]. *)
Fixpoint sum_int64s (contents : list byte) (off : nat) (n : nat) : Z :=
  match n with
  | O => 0
  | S n' => int64_at contents off + sum_int64s contents (off + 8) n'
  end.

(** The fingerprint as the specification words it: length plus the 8192
    integers of the first 65536 octets plus the 8192 integers starting at
    [length - 65536], modulo [2^64]. *)
Definition fingerprint_number (contents : list byte) : Z :=
  let len := Z.of_nat (length contents) in
  (len + sum_int64s contents 0 (Z.to_nat 8192)
       + sum_int64s contents (Z.to_nat (len - 65536)) (Z.to_nat 8192)) mod 2 ^ 64.

Definition is_lower_hex (c : ascii) : bool :=
  existsb (Ascii.eqb c) (list_ascii_of_string "0123456789abcdef").

Definition hex_char_value (c : ascii) : Z :=
  let n := Z.of_N (N_of_ascii c) in
  if n <? 58 then n - 48 else n - 87.

(** The number a string of hexadecimal digits denotes. *)
Definition hex_value (s : string) : Z :=
  fold_left (λ acc c, 16 * acc + hex_char_value c) (list_ascii_of_string s) 0.

(** A 16-digit zero-padded lowercase hexadecimal rendering of [n]. *)
Definition is_hex16_of (s : string) (n : Z) : Prop :=
  String.length s = 16%nat ∧
  Forall (λ c, is_lower_hex c = true) (list_ascii_of_string s) ∧
  hex_value s = n.

(** The [i]-th hexadecimal digit of [n], counted from the least
    significant one. *)
Definition nth_hex_digit (n : Z) (i : nat) : ascii :=
  hex_digit ((n / 16 ^ Z.of_nat i) mod 16).

(** The download count of a record as the specification reads it: the
    integer under [attributes.download_count], zero when it is missing. *)
Definition download_count_of (r : value) : Z :=
  match r with
  | VDict members =>
    match dict_lookup "attributes" members with
    | Some (VDict attributes) =>
      match dict_lookup "download_count" attributes with
      | Some (VInt n) => n
      | _ => 0
      end
    | _ => 0
    end
  | _ => 0
  end.

(** A catalog record, complete or not: an object whose [attributes]
    member, when present, is an object, whose [download_count] member, when
    present, is an integer. *)
Definition is_record (r : value) : bool :=
  match r with
  | VDict members =>
    match dict_lookup "attributes" members with
    | None => true
    | Some (VDict attributes) =>
      match dict_lookup "download_count" attributes with
      | None | Some (VInt _) => true
      | Some _ => false
      end
    | Some _ => false
    end
  | _ => false
  end.

(** The weaker condition that only asks every [download_count] that is
    present to be an integer. *)
Definition present_count_is_integer (r : value) : bool :=
  match r with
  | VDict members =>
    match dict_lookup "attributes" members with
    | Some (VDict attributes) =>
      match dict_lookup "download_count" attributes with
      | None | Some (VInt _) => true
      | Some _ => false
      end
    | _ => true
    end
  | _ => true
  end.

(** The file descriptors of a record: the items of [attributes.files]. *)
Definition file_descriptors (r : value) : list value :=
  match r with
  | VDict members =>
    match dict_lookup "attributes" members with
    | Some (VDict attributes) =>
      match dict_lookup "files" attributes with
      | Some (VList files) => files
      | _ => []
      end
    | _ => []
    end
  | _ => []
  end.

(** The file identifier of the first descriptor. *)
Definition first_file_id (r : value) : option value :=
  match file_descriptors r with
  | VDict first :: _ => dict_lookup "file_id" first
  | _ => None
  end.

(** [resolve_download] of the specification (lines 128-135): the link of
    the answer to the download request, absent when the request fails or
    the answer carries no link. *)
Definition resolve_download (env : Env) (file_id : value) : option value :=
  match api_download env file_id with
  | HttpOk (VDict members) =>
    match dict_lookup "link" members with
    | Some link => if truthy link then Some link else None
    | None => None
    end
  | _ => None
  end.

(** The download step as a decision tree over the answers of the outside
    world: which requests go out, what is logged, what reaches the disk. *)
Definition download_steps (env : Env) (subtitle_data : value) (video_path : string)
    (w : World) : World :=
  match first_file_id subtitle_data with
  | None => logged ERROR No_valid_file_id w
  | Some file_id =>
    let w1 := sent (POST_download file_id) (logged INFO Requesting_download_link w) in
    match api_download env file_id with
    | HttpError => logged ERROR (Failed_to_download RequestException) w1
    | HttpOk download_info =>
      match py_get download_info "link" VNone with
      | Raise e => logged ERROR (Error_during_download_save e) w1
      | Ret download_link =>
        if truthy download_link then
          let w2 := sent (GET_link download_link) (logged INFO Downloading_subtitle w1) in
          match http_fetch env download_link with
          | HttpError => logged ERROR (Failed_to_download RequestException) w2
          | HttpOk sub_content =>
            let subtitle_path := subtitle_path_of video_path in
            match disk_write env subtitle_path with
            | WriteOk =>
              logged INFO (Subtitle_saved (basename subtitle_path))
                     (stored subtitle_path (list_byte_of_string sub_content) w2)
            | OpenFails => logged ERROR (Error_during_download_save OSError) w2
            | WriteFails written =>
              logged ERROR (Error_during_download_save OSError)
                     (stored subtitle_path (take written (list_byte_of_string sub_content)) w2)
            end
          end
        else logged ERROR Failed_to_get_download_link w1
      end
    end
  end.

(** A record as the download step can take it: an object whose
    [attributes], when present, is an object, and whose first file
    descriptor, when there is one, is an object. *)
Definition is_download_record (r : value) : bool :=
  match r with
  | VDict members =>
    match dict_lookup "attributes" members with
    | None => true
    | Some (VDict attributes) =>
      match dict_lookup "files" attributes with
      | Some (VList (VDict _ :: _)) => true
      | Some (VList (_ :: _)) => false
      | _ => true
      end
    | Some _ => false
    end
  | _ => false
  end.

(** ** Example data *)

Definition record_42 : value :=
  VDict [("id", VStr "9");
         ("attributes",
          VDict [("download_count", VInt 5);
                 ("files", VList [VDict [("file_id", VInt 42)]])])]%string.

Definition sample_text : string := "1
00:00:01,000 --> 00:00:02,000
Hi
".

(** A machine with [ffprobe], a catalog that knows the video by its
    fingerprint, and a disk that takes the write. *)
Definition env_found_by_hash : Env :=
  {| API_KEY := Some "key"%string;
     ffprobe := λ _, ProbeOk (VDict [("streams", VList [VDict [("codec_type", VStr "video")]])]%string);
     api_search := λ params,
       match params with
       | ("moviehash", _) :: _ => HttpOk (VDict [("data", VList [record_42])])
       | _ => HttpError
       end%string;
     api_download := λ _, HttpOk (VDict [("link", VStr "https://dl.example/42")]%string);
     http_fetch := λ _, HttpOk sample_text;
     disk_write := λ _, WriteOk |}.

(** The catalog knows the video by its name only. *)
Definition env_found_by_name : Env :=
  {| API_KEY := API_KEY env_found_by_hash;
     ffprobe := ffprobe env_found_by_hash;
     api_search := λ params,
       match params with
       | ("query", _) :: _ => HttpOk (VDict [("data", VList [record_42])])
       | _ => HttpOk (VDict [("data", VList [])])
       end%string;
     api_download := api_download env_found_by_hash;
     http_fetch := http_fetch env_found_by_hash;
     disk_write := disk_write env_found_by_hash |}.

(** The download request fails. *)
Definition env_no_link : Env :=
  {| API_KEY := API_KEY env_found_by_hash;
     ffprobe := ffprobe env_found_by_hash;
     api_search := api_search env_found_by_hash;
     api_download := λ _, HttpError;
     http_fetch := http_fetch env_found_by_hash;
     disk_write := disk_write env_found_by_hash |}.

(** The disk fails after three octets of the subtitle were written. *)
Definition env_disk_fails : Env :=
  {| API_KEY := API_KEY env_found_by_hash;
     ffprobe := ffprobe env_found_by_hash;
     api_search := api_search env_found_by_hash;
     api_download := api_download env_found_by_hash;
     http_fetch := http_fetch env_found_by_hash;
     disk_write := λ _, WriteFails 3 |}.

(** No [ffprobe] executable on the machine. *)
Definition env_no_ffprobe : Env :=
  {| API_KEY := API_KEY env_found_by_hash;
     ffprobe := λ _, ProbeRaises FileNotFoundError;
     api_search := api_search env_found_by_hash;
     api_download := api_download env_found_by_hash;
     http_fetch := http_fetch env_found_by_hash;
     disk_write := disk_write env_found_by_hash |}.

(** [OPENSUBTITLES_API_KEY] is not set. *)
Definition env_no_key : Env :=
  {| API_KEY := None;
     ffprobe := ffprobe env_found_by_hash;
     api_search := api_search env_found_by_hash;
     api_download := api_download env_found_by_hash;
     http_fetch := http_fetch env_found_by_hash;
     disk_write := disk_write env_found_by_hash |}.

(** A small video next to an older subtitle file. *)
Definition small_world : World :=
  {| fs := {[ "/videos/clip.mkv"%string := [ "001"%byte; "002"%byte ];
              "/videos/clip.srt"%string := list_byte_of_string "old subtitle" ]};
     net := []; log := [] |}.

(** A small video alone in its directory. *)
Definition lone_world : World :=
  {| fs := {[ "/videos/clip.mkv"%string := [ "001"%byte; "002"%byte ] ]};
     net := []; log := [] |}.

Definition record_with (id : string) (download_count : Z) : value :=
  VDict [("id", VStr id);
         ("attributes", VDict [("download_count", VInt download_count)])]%string.

(** A record whose [attributes] member is JSON [null]. *)
Definition record_null_attributes : value :=
  VDict [("id", VStr "n"); ("attributes", VNone)]%string.

Definition movie_path : string := "/videos/movie.mkv".

(** A video of 200000 octets, all equal to 1. *)
Definition movie_200000 : list byte := replicate (N.to_nat 200000) "001"%byte.

Definition movie_world : World :=
  {| fs := {[ movie_path := movie_200000 ]}; net := []; log := [] |}.

(** The same video with the octet at offset 100000 set to 2. *)
Definition movie_world_changed : World :=
  {| fs := {[ movie_path := <[N.to_nat 100000 := "002"%byte]> movie_200000 ]};
     net := []; log := [] |}.

(** ** Further notions *)

Definition is_dict (v : value) : bool :=
  match v with VDict _ => true | _ => false end.

(** [None], a boolean or an integer: a value that is not a container. *)
Definition is_scalar (v : value) : bool :=
  match v with VNone | VBool _ | VInt _ => true | _ => false end.

(** A stream descriptor of the probe report whose [codec_type] is
    ["subtitle"]. *)
Definition is_subtitle_stream (s : value) : bool :=
  match s with
  | VDict members => py_eq_str (default VNone (dict_lookup "codec_type" members)) "subtitle"
  | _ => false
  end.

(** The [n] consecutive little-endian signed 64-bit integers that start at
    offset [off], as a list. *)
Definition words_at (contents : list byte) (off n : nat) : list Z :=
  map (λ i, int64_at contents (off + 8 * i)) (seq 0 n).

(** A computation that leaves every file as it is. *)
Definition keeps_fs {A} (m : M A) : Prop :=
  ∀ w, fs (m w).2 = fs w.

(** A computation that leaves every file other than [path] as it is. *)
Definition writes_only (path : string) {A} (m : M A) : Prop :=
  ∀ w p, p ≠ path → fs (m w).2 !! p = fs w !! p.

(** A computation that sends no request. *)
Definition sends_nothing {A} (m : M A) : Prop :=
  ∀ w, net (m w).2 = net w.

(** A computation that adds at most [n] requests to those already sent. *)
Definition sends_at_most (n : nat) {A} (m : M A) : Prop :=
  ∀ w, ∃ calls, net (m w).2 = net w ++ calls ∧ (length calls ≤ n)%nat.

(** A record the whole pipeline can take: both shapes above. *)
Definition is_catalog_record (r : value) : bool :=
  is_record r && is_download_record r.

(** A probe that answers with a report whose [streams], when present, is a
    list of objects, or that fails with [ffmpeg.Error]. *)
Definition probe_behaves (env : Env) (video_path : string) : Prop :=
  ffprobe env video_path = ProbeRaises FfmpegError ∨
  ∃ members streams,
    ffprobe env video_path = ProbeOk (VDict members) ∧
    default (VList []) (dict_lookup "streams" members) = VList streams ∧
    Forall (λ s, is_dict s = true) streams.

(** A catalog whose searches fail or answer with an object whose [data],
    when present, is a list of records. *)
Definition catalog_behaves (env : Env) : Prop :=
  ∀ params,
    api_search env params = HttpError ∨
    ∃ members records,
      api_search env params = HttpOk (VDict members) ∧
      default (VList []) (dict_lookup "data" members) = VList records ∧
      Forall (λ r, is_catalog_record r = true) records.

(** ** Further example data *)

(** A video of exactly 131072 octets, all equal to 1. *)
Definition movie_131072 : list byte := replicate (N.to_nat 131072) "001"%byte.

Definition movie_world_131072 : World :=
  {| fs := {[ movie_path := movie_131072 ]}; net := []; log := [] |}.

(** [ffprobe] is there but rejects the file. *)
Definition env_probe_fails : Env :=
  {| API_KEY := API_KEY env_found_by_hash;
     ffprobe := λ _, ProbeRaises FfmpegError;
     api_search := api_search env_found_by_hash;
     api_download := api_download env_found_by_hash;
     http_fetch := http_fetch env_found_by_hash;
     disk_write := disk_write env_found_by_hash |}.

(** A catalog that answers every search with the same record. *)
Definition env_steady : Env :=
  {| API_KEY := API_KEY env_found_by_hash;
     ffprobe := ffprobe env_found_by_hash;
     api_search := λ _, HttpOk (VDict [("data", VList [record_42])]%string);
     api_download := api_download env_found_by_hash;
     http_fetch := http_fetch env_found_by_hash;
     disk_write := disk_write env_found_by_hash |}.

(** A catalog that answers with a JSON array instead of an object. *)
Definition env_array_answer : Env :=
  {| API_KEY := API_KEY env_found_by_hash;
     ffprobe := ffprobe env_found_by_hash;
     api_search := λ _, HttpOk (VList [record_42]);
     api_download := api_download env_found_by_hash;
     http_fetch := http_fetch env_found_by_hash;
     disk_write := disk_write env_found_by_hash |}.

(** Two videos of 131072 octets that differ by the order of their first
    two 64-bit integers. *)
Definition word_ones : list byte := replicate 8 "001"%byte.
Definition word_twos : list byte := replicate 8 "002"%byte.
Definition zeros_tail : list byte := replicate (N.to_nat 131056) "000"%byte.
Definition movie_ones_twos : list byte := word_ones ++ word_twos ++ zeros_tail.
Definition movie_twos_ones : list byte := word_twos ++ word_ones ++ zeros_tail.

Definition world_ones_twos : World :=
  {| fs := {[ movie_path := movie_ones_twos ]}; net := []; log := [] |}.

Definition world_twos_ones : World :=
  {| fs := {[ movie_path := movie_twos_ones ]}; net := []; log := [] |}.

(** A record whose [download_count] is JSON [null]. *)
Definition record_null_count : value :=
  VDict [("id", VStr "z"); ("attributes", VDict [("download_count", VNone)])]%string.

(** A record whose first file descriptor is a bare number. *)
Definition record_bare_descriptor : value :=
  VDict [("attributes", VDict [("files", VList [VInt 42])])]%string.

(** A catalog that answers a search by name with one record that has no
    member at all, and a search by fingerprint with nothing. *)
Definition env_empty_record : Env :=
  {| API_KEY := API_KEY env_found_by_hash;
     ffprobe := ffprobe env_found_by_hash;
     api_search := λ params,
       match params with
       | ("query", _) :: _ => HttpOk (VDict [("data", VList [VDict []])])
       | _ => HttpOk (VDict [("data", VList [])])
       end%string;
     api_download := api_download env_found_by_hash;
     http_fetch := http_fetch env_found_by_hash;
     disk_write := disk_write env_found_by_hash |}.

(** * Properties *)

(** ** The fingerprint *)

Section fingerprint.

Local Arguments Z.mul : simpl never.
Local Arguments Z.add : simpl never.
Local Arguments Z.pow : simpl never.
Local Arguments Z.to_nat : simpl never.

Lemma mask_is_mod (x : Z) : Z.land x 0xFFFFFFFFFFFFFFFF = x mod 2 ^ 64.
Proof. change 0xFFFFFFFFFFFFFFFF with (Z.ones 64). apply Z.land_ones. lia. Qed.

Lemma to_signed64_cong (u : Z) : ∃ t, to_signed64 u = u + 2 ^ 64 * t.
Proof.
  unfold to_signed64. destruct (u <? 2 ^ 63).
  - exists 0. lia.
  - exists (-1). lia.
Qed.

Lemma byte_val_range (b : byte) : 0 ≤ byte_val b ≤ 255.
Proof. unfold byte_val. pose proof (Byte.to_N_bounded b). lia. Qed.

Lemma byte_val_inj (b1 b2 : byte) : byte_val b1 = byte_val b2 → b1 = b2.
Proof.
  unfold byte_val. intros H.
  assert (E : Byte.to_N b1 = Byte.to_N b2) by lia.
  pose proof (Byte.of_to_N b1) as H1. pose proof (Byte.of_to_N b2) as H2.
  rewrite E in H1. congruence.
Qed.

(** One iteration count at a time: the loop returns the masked sum and
    leaves the file position after the octets it consumed. *)
Lemma sum_longlongs_spec (count : nat) :
  ∀ (f : BinFile) (hash_value : Z),
    (pos f + 8 * count ≤ length (data f))%nat →
    sum_longlongs count f hash_value =
    Ret ({| data := data f; pos := (pos f + 8 * count)%nat |},
         match count with
         | O => hash_value
         | S _ => (hash_value + sum_int64s (data f) (pos f) count) mod 2 ^ 64
         end).
Proof.
  induction count as [|count IH]; intros [contents p] hash_value Hlen; cbn [data pos] in *.
  - cbn [sum_longlongs]. do 2 f_equal. f_equal. lia.
  - cbn [sum_longlongs f_read data pos].
    change (Z.to_nat bytesize) with 8%nat.
    assert (Hbuf : length (take 8 (drop p contents)) = 8%nat).
    { rewrite length_take, length_drop. lia. }
    unfold struct_unpack_q. rewrite Hbuf.
    change (Z.to_nat bytesize) with 8%nat. cbn [Nat.eqb mbind outcome_bind].
    rewrite IH by (cbn [data pos]; lia).
    cbn [data pos sum_int64s]. fold (int64_at contents p).
    rewrite mask_is_mod. f_equal. f_equal; [f_equal; lia|].
    destruct count as [|count'].
    + cbn [sum_int64s]. f_equal. lia.
    + rewrite Z.add_mod_idemp_l by lia. f_equal. lia.
Qed.

Lemma window_count : Z.of_nat (Z.to_nat (65536 / bytesize)) = 8192.
Proof. reflexivity. Qed.

Lemma hash_of_contents_spec (contents : list byte) :
  131072 ≤ Z.of_nat (length contents) →
  hash_of_contents contents (Z.of_nat (length contents)) =
  Ret (format_016x (fingerprint_number contents)).
Proof.
  intros Hlen. unfold hash_of_contents, fingerprint_number.
  pose proof window_count as Hn.
  change (Z.to_nat 8192) with (Z.to_nat (65536 / bytesize)).
  generalize dependent (Z.to_nat (65536 / bytesize)). intros n Hn.
  rewrite sum_longlongs_spec by (cbn [data pos]; lia).
  cbn [mbind outcome_bind data pos]. unfold f_seek. cbn [data pos].
  rewrite sum_longlongs_spec by (cbn [data pos]; lia).
  cbn [mbind outcome_bind data pos].
  rewrite Z.max_r by lia.
  destruct n as [|n']; [lia|].
  rewrite Z.add_mod_idemp_l by lia. reflexivity.
Qed.

(** *** ["%016x"] of a 64-bit number *)

Lemma hex_digit_spec (d : Z) :
  0 ≤ d < 16 → is_lower_hex (hex_digit d) = true ∧ hex_char_value (hex_digit d) = d.
Proof.
  intros Hd.
  assert (H : d = 0 ∨ d = 1 ∨ d = 2 ∨ d = 3 ∨ d = 4 ∨ d = 5 ∨ d = 6 ∨ d = 7 ∨
              d = 8 ∨ d = 9 ∨ d = 10 ∨ d = 11 ∨ d = 12 ∨ d = 13 ∨ d = 14 ∨ d = 15) by lia.
  repeat (destruct H as [-> | H]; [split; reflexivity|]).
  subst d. split; reflexivity.
Qed.

Lemma rev_seq_S (k : nat) : rev (seq 0 (S k)) = k :: rev (seq 0 k).
Proof. rewrite seq_S, rev_app_distr. reflexivity. Qed.

Lemma hex_fold_digits (n : Z) (k : nat) :
  0 ≤ n →
  ∀ acc,
    fold_left (λ acc c, 16 * acc + hex_char_value c)
              (map (nth_hex_digit n) (rev (seq 0 k))) acc
    = acc * 16 ^ Z.of_nat k + n mod 16 ^ Z.of_nat k.
Proof.
  intros Hn. induction k as [|k IH]; intros acc.
  - cbn [seq rev map fold_left]. change (16 ^ Z.of_nat 0) with 1.
    rewrite Z.mod_1_r. lia.
  - rewrite rev_seq_S. cbn [map fold_left]. rewrite IH.
    unfold nth_hex_digit at 1.
    destruct (hex_digit_spec ((n / 16 ^ Z.of_nat k) mod 16)) as [_ ->].
    { apply Z.mod_pos_bound. lia. }
    rewrite Nat2Z.inj_succ, Z.pow_succ_r by lia.
    assert (Hp : 0 < 16 ^ Z.of_nat k) by (apply Z.pow_pos_nonneg; lia).
    rewrite (Z.mul_comm 16 (16 ^ Z.of_nat k)).
    rewrite (Z.rem_mul_r n (16 ^ Z.of_nat k) 16) by lia.
    ring.
Qed.

Lemma hex_fold_zeros (k : nat) (ds : list ascii) :
  fold_left (λ acc c, 16 * acc + hex_char_value c) (replicate k "0"%char ++ ds) 0
  = fold_left (λ acc c, 16 * acc + hex_char_value c) ds 0.
Proof.
  induction k as [|k IH]; [reflexivity|].
  cbn [replicate app fold_left]. exact IH.
Qed.

Lemma hex_ndigits_enough (n : Z) : 0 ≤ n → n < 16 ^ Z.of_nat (hex_ndigits n).
Proof.
  intros Hn. unfold hex_ndigits.
  destruct (Z.eq_dec n 0) as [->|Hnz].
  { reflexivity. }
  pose proof (Z.log2_nonneg n) as Hl.
  assert (Hq : 0 ≤ Z.log2 n / 4) by (apply Z.div_pos; lia).
  rewrite Nat2Z.inj_succ, Z2Nat.id by lia.
  change 16 with (2 ^ 4). rewrite <- Z.pow_mul_r by lia.
  apply Z.log2_lt_pow2; [lia|].
  pose proof (Z.mod_pos_bound (Z.log2 n) 4 ltac:(lia)).
  pose proof (Z.div_mod (Z.log2 n) 4 ltac:(lia)). lia.
Qed.

Lemma hex_ndigits_64 (n : Z) : 0 ≤ n < 2 ^ 64 → (hex_ndigits n ≤ 16)%nat.
Proof.
  intros [Hn Hlt]. unfold hex_ndigits.
  destruct (Z.eq_dec n 0) as [->|Hnz].
  { change (Z.to_nat (Z.log2 0 / 4)) with 0%nat. lia. }
  assert (Z.log2 n < 64) by (apply Z.log2_lt_pow2; lia).
  pose proof (Z.log2_nonneg n).
  assert (Z.log2 n / 4 < 16) by (apply Z.div_lt_upper_bound; lia).
  assert (0 ≤ Z.log2 n / 4) by (apply Z.div_pos; lia).
  lia.
Qed.

Lemma hex_digits_length (n : Z) : length (hex_digits n) = hex_ndigits n.
Proof. unfold hex_digits. rewrite length_map, length_rev, length_seq. reflexivity. Qed.

Lemma string_of_list_length (l : list ascii) :
  String.length (string_of_list_ascii l) = length l.
Proof. induction l as [|c l IH]; cbn; congruence. Qed.

Lemma format_016x_spec (n : Z) :
  0 ≤ n < 2 ^ 64 → is_hex16_of (format_016x n) n.
Proof.
  intros Hn. unfold format_016x.
  destruct (Z.ltb_spec n 0) as [?|_]; [lia|].
  pose proof (hex_ndigits_64 n Hn) as Hnd.
  pose proof (hex_digits_length n) as Hl.
  unfold is_hex16_of, hex_value.
  rewrite list_ascii_of_string_of_list_ascii.
  split; [|split].
  - rewrite string_of_list_length. unfold zero_pad.
    rewrite length_app, length_replicate. lia.
  - unfold zero_pad. apply Forall_app. split.
    + apply Forall_replicate. reflexivity.
    + unfold hex_digits. apply Forall_map, Forall_forall. intros i _.
      apply hex_digit_spec, Z.mod_pos_bound. lia.
  - unfold zero_pad. rewrite hex_fold_zeros.
    change (hex_digits n) with (map (nth_hex_digit n) (rev (seq 0 (hex_ndigits n)))).
    rewrite hex_fold_digits by lia.
    rewrite Z.mod_small; [lia|].
    split; [lia|]. apply hex_ndigits_enough. lia.
Qed.

(** *** The fingerprint reads two windows only *)

Lemma sum_int64s_slice (n : nat) :
  ∀ (c1 c2 : list byte) (off1 off2 : nat),
    take (8 * n) (drop off1 c1) = take (8 * n) (drop off2 c2) →
    sum_int64s c1 off1 n = sum_int64s c2 off2 n.
Proof.
  induction n as [|n IH]; intros c1 c2 off1 off2 Heq; [reflexivity|].
  cbn [sum_int64s]. f_equal.
  - unfold int64_at. do 2 f_equal.
    apply (f_equal (take 8)) in Heq.
    rewrite !take_take in Heq.
    replace (8 `min` (8 * S n))%nat with 8%nat in Heq by lia. exact Heq.
  - apply IH.
    apply (f_equal (drop 8)) in Heq.
    replace (8 * S n)%nat with (8 + 8 * n)%nat in Heq by lia.
    rewrite <- !take_drop_commute, !drop_drop in Heq. exact Heq.
Qed.

Lemma le_unsigned_cons (x : byte) (l : list byte) :
  le_unsigned (x :: l) = byte_val x + 256 * le_unsigned l.
Proof. reflexivity. Qed.

Lemma le_unsigned_insert (l : list byte) :
  ∀ (k : nat) (b0 b : byte),
    l !! k = Some b0 →
    le_unsigned (<[k:=b]> l) = le_unsigned l + (byte_val b - byte_val b0) * 256 ^ Z.of_nat k.
Proof.
  induction l as [|x l IH]; intros k b0 b Hk; [discriminate|].
  destruct k as [|k].
  - injection Hk as ->. change (256 ^ Z.of_nat 0) with 1.
    change (<[0%nat:=b]> (b0 :: l)) with (b :: l).
    rewrite !le_unsigned_cons. lia.
  - change (<[S k:=b]> (x :: l)) with (x :: <[k:=b]> l).
    rewrite !le_unsigned_cons, (IH k b0 b Hk).
    rewrite Nat2Z.inj_succ, Z.pow_succ_r by lia. ring.
Qed.

(** Changing the octet at [i] inside the window moves the sum by the
    change of that octet times a power of 256 below [2^64], up to a
    multiple of [2^64]. *)
Lemma sum_int64s_insert (n : nat) :
  ∀ (c : list byte) (off i : nat) (b0 b : byte),
    c !! i = Some b0 →
    (off ≤ i < off + 8 * n)%nat →
    ∃ (k : nat) (t : Z),
      (k < 8)%nat ∧
      sum_int64s (<[i:=b]> c) off n =
      sum_int64s c off n + (byte_val b - byte_val b0) * 256 ^ Z.of_nat k + 2 ^ 64 * t.
Proof.
  induction n as [|n IH]; intros c off i b0 b Hi Hrange; [lia|].
  cbn [sum_int64s].
  destruct (decide (i < off + 8)%nat) as [Hin|Hout].
  - assert (Hrest : sum_int64s (<[i:=b]> c) (off + 8) n = sum_int64s c (off + 8) n).
    { apply sum_int64s_slice. rewrite drop_insert_lt by lia. reflexivity. }
    rewrite Hrest. unfold int64_at.
    rewrite drop_insert_ge, take_insert_lt by lia.
    rewrite (le_unsigned_insert _ (i - off) b0 b).
    2:{ rewrite lookup_take. destruct (decide (i - off < 8)%nat); [|lia].
        rewrite lookup_drop. replace (off + (i - off))%nat with i by lia. exact Hi. }
    destruct (to_signed64_cong (le_unsigned (take 8 (drop off c)))) as [t1 ->].
    destruct (to_signed64_cong
      (le_unsigned (take 8 (drop off c))
       + (byte_val b - byte_val b0) * 256 ^ Z.of_nat (i - off))) as [t2 ->].
    exists (i - off)%nat, (t2 - t1). split; [lia|ring].
  - assert (Hfirst : int64_at (<[i:=b]> c) off = int64_at c off).
    { unfold int64_at. rewrite drop_insert_ge, take_insert_ge by lia. reflexivity. }
    rewrite Hfirst.
    destruct (IH c (off + 8)%nat i b0 b Hi ltac:(lia)) as (k & t & Hk & ->).
    exists k, t. split; [exact Hk|ring].
Qed.

Lemma sum_int64s_insert_outside (n : nat) (c : list byte) (off i : nat) (b : byte) :
  (i < off ∨ off + 8 * n ≤ i)%nat →
  sum_int64s (<[i:=b]> c) off n = sum_int64s c off n.
Proof.
  intros Hout. apply sum_int64s_slice.
  destruct (decide (i < off)%nat).
  - rewrite drop_insert_lt by lia. reflexivity.
  - rewrite drop_insert_ge, take_insert_ge by lia. reflexivity.
Qed.

(** A non-zero change of one octet, scaled by a power of 256 below [2^64],
    is not a multiple of [2^64]. *)
Lemma octet_change_visible (d : Z) (k : nat) (x t : Z) :
  d ≠ 0 → -255 ≤ d ≤ 255 → (k < 8)%nat →
  (x + d * 256 ^ Z.of_nat k + 2 ^ 64 * t) mod 2 ^ 64 ≠ x mod 2 ^ 64.
Proof.
  intros Hd Hr Hk Heq.
  assert (Hp : 256 ^ Z.of_nat k = 1 ∨ 256 ^ Z.of_nat k = 256 ∨ 256 ^ Z.of_nat k = 256 ^ 2 ∨
               256 ^ Z.of_nat k = 256 ^ 3 ∨ 256 ^ Z.of_nat k = 256 ^ 4 ∨
               256 ^ Z.of_nat k = 256 ^ 5 ∨ 256 ^ Z.of_nat k = 256 ^ 6 ∨
               256 ^ Z.of_nat k = 256 ^ 7).
  { do 8 (destruct k as [|k]; [tauto|]). lia. }
  pose proof (Z.div_mod (x + d * 256 ^ Z.of_nat k + 2 ^ 64 * t) (2 ^ 64) ltac:(lia)) as H1.
  pose proof (Z.div_mod x (2 ^ 64) ltac:(lia)) as H2.
  rewrite Heq in H1.
  set (q1 := (x + d * 256 ^ Z.of_nat k + 2 ^ 64 * t) / 2 ^ 64) in *.
  set (q2 := x / 2 ^ 64) in *.
  set (r := x mod 2 ^ 64) in *.
  clearbody q1 q2 r. clear Heq.
  destruct Hp as [E | [E | [E | [E | [E | [E | [E | E]]]]]]]; rewrite E in H1; lia.
Qed.

Lemma generate_hash_small (w : World) (video_path : string) (contents : list byte) :
  fs w !! video_path = Some contents →
  Z.of_nat (length contents) < 131072 →
  run (generate_opensubtitles_hash video_path) w =
  (Ret None, {| fs := fs w; net := net w; log := log w ++ [(WARNING, File_too_small)] |}).
Proof.
  intros Hfs Hlen.
  cbv [generate_opensubtitles_hash run try_except mbind M_bind os_path_getsize].
  rewrite Hfs.
  destruct (Z.ltb_spec (Z.of_nat (length contents)) (65536 * 2)) as [_|?]; [|lia].
  reflexivity.
Qed.

Lemma generate_hash_run (w : World) (video_path : string) (contents : list byte) :
  fs w !! video_path = Some contents →
  131072 ≤ Z.of_nat (length contents) →
  run (generate_opensubtitles_hash video_path) w =
  (Ret (Some (format_016x (fingerprint_number contents))), w).
Proof.
  intros Hfs Hlen.
  cbv [generate_opensubtitles_hash run try_except mbind M_bind os_path_getsize open_rb lift].
  rewrite Hfs.
  destruct (Z.ltb_spec (Z.of_nat (length contents)) (65536 * 2)) as [?|_]; [lia|].
  rewrite Hfs, hash_of_contents_spec by lia.
  reflexivity.
Qed.

Lemma fingerprint_number_range (contents : list byte) :
  0 ≤ fingerprint_number contents < 2 ^ 64.
Proof. unfold fingerprint_number. apply Z.mod_pos_bound. lia. Qed.

Lemma format_016x_inj (n m : Z) :
  0 ≤ n < 2 ^ 64 → 0 ≤ m < 2 ^ 64 → format_016x n = format_016x m → n = m.
Proof.
  intros Hn Hm Heq.
  destruct (format_016x_spec n Hn) as (_ & _ & <-).
  destruct (format_016x_spec m Hm) as (_ & _ & <-).
  rewrite Heq. reflexivity.
Qed.

(** C1: a file shorter than 131072 octets has no fingerprint; for a longer
    one the fingerprint is the 16-digit zero-padded lowercase hexadecimal
    rendering of (length + sum of the first 8192 little-endian signed
    64-bit integers + sum of the 8192 such integers starting at offset
    length - 65536) modulo 2^64. *)
Theorem C1_fingerprint (w : World) (video_path : string) (contents : list byte) :
  fs w !! video_path = Some contents →
  (Z.of_nat (length contents) < 131072 →
   (run (generate_opensubtitles_hash video_path) w).1 = Ret None) ∧
  (131072 ≤ Z.of_nat (length contents) →
   ∃ s, (run (generate_opensubtitles_hash video_path) w).1 = Ret (Some s) ∧
        is_hex16_of s (fingerprint_number contents)).
Proof.
  intros Hfs. split; intros Hlen.
  - rewrite (generate_hash_small w video_path contents Hfs Hlen). reflexivity.
  - rewrite (generate_hash_run w video_path contents Hfs Hlen).
    eexists. split; [reflexivity|].
    apply format_016x_spec, fingerprint_number_range.
Qed.

(** Changing one octet inside either window changes the number. *)
Lemma fingerprint_number_insert_inside (c : list byte) (i : nat) (b0 b : byte) :
  131072 ≤ Z.of_nat (length c) →
  c !! i = Some b0 → b ≠ b0 →
  (i < Z.to_nat 65536 ∨ length c - Z.to_nat 65536 ≤ i)%nat →
  fingerprint_number (<[i:=b]> c) ≠ fingerprint_number c.
Proof.
  intros Hlen Hb0 Hne Hi.
  assert (Hd : byte_val b - byte_val b0 ≠ 0).
  { intros Hz. apply Hne. apply byte_val_inj. lia. }
  pose proof (byte_val_range b) as Hb. pose proof (byte_val_range b0) as Hb0r.
  pose proof (lookup_lt_Some _ _ _ Hb0) as Hlt.
  unfold fingerprint_number. rewrite length_insert.
  assert (Hn : Z.of_nat (Z.to_nat 8192) = 8192) by reflexivity.
  assert (HW : Z.of_nat (Z.to_nat 65536) = 65536) by reflexivity.
  generalize dependent (Z.to_nat 8192). intros n Hn.
  generalize dependent (Z.to_nat 65536). intros W Hi HW.
  set (off := Z.to_nat (Z.of_nat (length c) - 65536)).
  assert (Hoff : off = (length c - W)%nat) by lia.
  clearbody off.
  destruct (decide (i < W)%nat) as [Hfirst|Hlast].
  - destruct (sum_int64s_insert n c 0 i b0 b Hb0 ltac:(lia)) as (k & t & Hk & E).
    rewrite E, (sum_int64s_insert_outside n c off i b) by lia.
    generalize (sum_int64s c 0 n) (sum_int64s c off n). intros S1 S2 Heq.
    apply (octet_change_visible _ k (Z.of_nat (length c) + S1 + S2) t Hd ltac:(lia) Hk).
    rewrite <- Heq. f_equal. ring.
  - destruct (sum_int64s_insert n c off i b0 b Hb0 ltac:(lia)) as (k & t & Hk & E).
    rewrite E, (sum_int64s_insert_outside n c 0 i b) by lia.
    generalize (sum_int64s c 0 n) (sum_int64s c off n). intros S1 S2 Heq.
    apply (octet_change_visible _ k (Z.of_nat (length c) + S1 + S2) t Hd ltac:(lia) Hk).
    rewrite <- Heq. f_equal. ring.
Qed.

(** The number depends on the length and the two windows only. *)
Lemma fingerprint_number_windows (c1 c2 : list byte) :
  length c1 = length c2 →
  take (Z.to_nat 65536) c1 = take (Z.to_nat 65536) c2 →
  drop (length c1 - Z.to_nat 65536) c1 = drop (length c2 - Z.to_nat 65536) c2 →
  fingerprint_number c1 = fingerprint_number c2.
Proof.
  intros Hl Htake Hdrop. unfold fingerprint_number. rewrite <- Hl in *.
  assert (Hn : Z.of_nat (Z.to_nat 8192) = 8192) by reflexivity.
  assert (HW : Z.of_nat (Z.to_nat 65536) = 65536) by reflexivity.
  generalize dependent (Z.to_nat 8192). intros n Hn.
  generalize dependent (Z.to_nat 65536). intros W Htake Hdrop HW.
  f_equal. f_equal; [f_equal|].
  - apply sum_int64s_slice. rewrite !drop_0.
    replace (8 * n)%nat with W by lia. exact Htake.
  - apply sum_int64s_slice.
    replace (Z.to_nat (Z.of_nat (length c1) - 65536)) with (length c1 - W)%nat by lia.
    rewrite Hdrop. reflexivity.
Qed.

(** C2: the fingerprint of a file of at least 131072 octets is determined
    by its length, its first 65536 octets and its last 65536 octets;
    changing one octet inside either window changes it; changing an octet
    between the two windows does not. *)
Theorem C2_fingerprint_windows (w1 w2 : World) (p1 p2 : string) (c1 c2 : list byte) :
  fs w1 !! p1 = Some c1 →
  fs w2 !! p2 = Some c2 →
  131072 ≤ Z.of_nat (length c1) →
  let W := Z.to_nat 65536 in
  let fp1 := (run (generate_opensubtitles_hash p1) w1).1 in
  let fp2 := (run (generate_opensubtitles_hash p2) w2).1 in
  (∃ s, fp1 = Ret (Some s) ∧ String.length s = 16%nat) ∧
  (length c1 = length c2 →
   take W c1 = take W c2 →
   drop (length c1 - W) c1 = drop (length c2 - W) c2 →
   fp1 = fp2) ∧
  (∀ (i : nat) (b : byte),
     c2 = <[i:=b]> c1 → c1 !! i ≠ Some b →
     (i < W ∨ length c1 - W ≤ i < length c1)%nat →
     fp1 ≠ fp2) ∧
  (∀ (i : nat) (b : byte),
     c2 = <[i:=b]> c1 →
     (W ≤ i < length c1 - W)%nat →
     fp1 = fp2).
Proof.
  intros Hfs1 Hfs2 Hlen W fp1 fp2.
  assert (HW : Z.of_nat W = 65536) by reflexivity.
  assert (Hfp1 : fp1 = Ret (Some (format_016x (fingerprint_number c1)))).
  { subst fp1. rewrite (generate_hash_run w1 p1 c1 Hfs1 Hlen). reflexivity. }
  assert (Hfp2 : length c2 = length c1 →
                 fp2 = Ret (Some (format_016x (fingerprint_number c2)))).
  { intros Hl. subst fp2. rewrite (generate_hash_run w2 p2 c2 Hfs2); [reflexivity|].
    rewrite Hl. exact Hlen. }
  pose proof (fingerprint_number_windows c1 c2) as Hsame.
  pose proof (λ i b0 b, fingerprint_number_insert_inside c1 i b0 b Hlen) as Hdiff.
  fold W in Hsame, Hdiff.
  clearbody W fp1 fp2.
  split; [|split; [|split]].
  - eexists. split; [exact Hfp1|].
    apply format_016x_spec, fingerprint_number_range.
  - intros Hl Htake Hdrop. rewrite Hfp1, Hfp2 by congruence.
    rewrite (Hsame Hl Htake Hdrop). reflexivity.
  - intros i b -> Hne Hi.
    rewrite Hfp1, Hfp2 by apply length_insert.
    intros Heq. injection Heq as Heq.
    apply format_016x_inj in Heq; try apply fingerprint_number_range.
    destruct (c1 !! i) as [b0|] eqn:Hb0.
    2:{ apply lookup_ge_None in Hb0. lia. }
    apply (Hdiff i b0 b); [exact Hb0|congruence|lia|congruence].
  - intros i b -> Hi.
    rewrite Hfp1, Hfp2 by apply length_insert.
    rewrite (Hsame (eq_sym (length_insert _ _ _))); [reflexivity| |].
    + rewrite take_insert_ge by lia. reflexivity.
    + rewrite length_insert, drop_insert_lt by lia. reflexivity.
Qed.

End fingerprint.

(** A 200000-octet video has a fingerprint. *)
Lemma C1_fingerprint_witness :
  ∃ s, (run (generate_opensubtitles_hash movie_path) movie_world).1 = Ret (Some s) ∧
       is_hex16_of s (fingerprint_number movie_200000).
Proof.
  apply (C1_fingerprint movie_world movie_path movie_200000).
  - apply lookup_singleton_eq.
  - apply Z.leb_le. vm_compute. reflexivity.
Defined.

(** Setting the octet at offset 100000 of that video to another value
    leaves the fingerprint as it is. *)
Lemma C2_fingerprint_windows_witness :
  (run (generate_opensubtitles_hash movie_path) movie_world).1
  = (run (generate_opensubtitles_hash movie_path) movie_world_changed).1.
Proof.
  refine (proj2 (proj2 (proj2
    (C2_fingerprint_windows movie_world movie_world_changed movie_path movie_path
       movie_200000 (<[N.to_nat 100000 := "002"%byte]> movie_200000) _ _ _)))
    (N.to_nat 100000) "002"%byte eq_refl _).
  - apply lookup_singleton_eq.
  - apply lookup_singleton_eq.
  - apply Z.leb_le. vm_compute. reflexivity.
  - split; [apply Nat.leb_le|apply Nat.ltb_lt]; vm_compute; reflexivity.
Defined.

(** ** The match selector *)

Section selector.

Lemma download_count_key_record (r : value) :
  is_record r = true →
  download_count_key r = Ret (VInt (download_count_of r)).
Proof.
  destruct r as [| | | |?|members]; try discriminate.
  unfold is_record, download_count_key, download_count_of, py_get.
  cbn [mbind outcome_bind].
  destruct (dict_lookup "attributes" members) as [[| | | |?|attributes]|]; try discriminate.
  - unfold default, from_option, id.
    destruct (dict_lookup "download_count" attributes) as [[| |n| | |]|]; try discriminate;
      reflexivity.
  - reflexivity.
Qed.

(** The loop of [max] keeps the first item among those of greatest count. *)
Lemma max_loop_first_max (rest : list value) :
  ∀ maxitem : value,
    Forall (λ r, is_record r = true) rest →
    ∃ (best : value) (i : nat),
      max_loop download_count_key rest maxitem (VInt (download_count_of maxitem)) = Ret best ∧
      (maxitem :: rest) !! i = Some best ∧
      (∀ r, r ∈ maxitem :: rest → download_count_of r ≤ download_count_of best) ∧
      (∀ j r, (j < i)%nat → (maxitem :: rest) !! j = Some r →
              download_count_of r < download_count_of best).
Proof.
  induction rest as [|item rest IH]; intros maxitem Hrec.
  - exists maxitem, 0%nat. cbn [max_loop]. split; [reflexivity|]. split; [reflexivity|].
    split.
    + intros r Hr. apply list_elem_of_singleton in Hr. subst r. lia.
    + intros j r Hj. lia.
  - apply Forall_cons in Hrec as [Hitem Hrest].
    cbn [max_loop]. rewrite (download_count_key_record item Hitem).
    cbn [mbind outcome_bind py_gt as_number].
    destruct (Z.ltb_spec (download_count_of maxitem) (download_count_of item)) as [Hgt|Hle].
    + destruct (IH item Hrest) as (best & i & Hrun & Hi & Hmax & Hfirst).
      exists best, (S i). split; [exact Hrun|]. split; [exact Hi|].
      assert (Hib : download_count_of item ≤ download_count_of best).
      { apply Hmax. apply list_elem_of_here. }
      split.
      * intros r Hr. apply elem_of_cons in Hr as [->|Hr]; [lia|]. apply Hmax, Hr.
      * intros j r Hj Hjr. destruct j as [|j].
        -- injection Hjr as <-. lia.
        -- apply (Hfirst j r); [lia|exact Hjr].
    + destruct (IH maxitem Hrest) as (best & i & Hrun & Hi & Hmax & Hfirst).
      assert (Hmb : download_count_of maxitem ≤ download_count_of best).
      { apply Hmax. apply list_elem_of_here. }
      destruct i as [|i].
      * exists best, 0%nat. split; [exact Hrun|]. split; [exact Hi|]. split.
        -- intros r Hr. apply elem_of_cons in Hr as [->|Hr]; [lia|].
           apply elem_of_cons in Hr as [->|Hr]; [lia|].
           apply Hmax. apply list_elem_of_further, Hr.
        -- intros j r Hj. lia.
      * exists best, (S (S i)). split; [exact Hrun|]. split; [exact Hi|]. split.
        -- intros r Hr. apply elem_of_cons in Hr as [->|Hr]; [lia|].
           apply elem_of_cons in Hr as [->|Hr]; [lia|].
           apply Hmax. apply list_elem_of_further, Hr.
        -- intros j r Hj Hjr.
           assert (Hm0 : download_count_of maxitem < download_count_of best).
           { apply (Hfirst 0%nat maxitem); [lia|reflexivity]. }
           destruct j as [|[|j]].
           ++ injection Hjr as <-. exact Hm0.
           ++ injection Hjr as <-. lia.
           ++ apply (Hfirst (S j) r); [lia|exact Hjr].
Qed.

Lemma get_best_subtitle_first_max (item : value) (rest : list value) :
  Forall (λ r, is_record r = true) (item :: rest) →
  ∃ (best : value) (i : nat),
    get_best_subtitle (VList (item :: rest)) = Ret best ∧
    (item :: rest) !! i = Some best ∧
    (∀ r, r ∈ item :: rest → download_count_of r ≤ download_count_of best) ∧
    (∀ j r, (j < i)%nat → (item :: rest) !! j = Some r →
            download_count_of r < download_count_of best).
Proof.
  intros Hrec. apply Forall_cons in Hrec as [Hitem Hrest].
  unfold get_best_subtitle, py_max. cbn [truthy negb py_iter mbind outcome_bind].
  rewrite (download_count_key_record item Hitem). cbn [mbind outcome_bind].
  apply max_loop_first_max, Hrest.
Qed.


(** C10, as far as the code goes: on records in the sense of [is_record]
    the selector always returns; a record without [attributes] gets the key
    0 and takes part in the selection with that count. *)
Theorem C10_select_best_total (records : list value) :
  Forall (λ r, is_record r = true) records →
  (∃ best, get_best_subtitle (VList records) = Ret best) ∧
  (∀ members, dict_lookup "attributes" members = None →
              VDict members ∈ records →
              download_count_key (VDict members) = Ret (VInt 0) ∧
              download_count_of (VDict members) = 0) ∧
  (∀ best, get_best_subtitle (VList records) = Ret best → records ≠ [] →
           best ∈ records ∧
           ∀ r, r ∈ records → download_count_of r ≤ download_count_of best).
Proof.
  intros Hrec. split; [|split].
  - destruct records as [|item rest]; [exists VNone; reflexivity|].
    destruct (get_best_subtitle_first_max item rest Hrec) as (best & i & Hrun & _).
    exists best. exact Hrun.
  - intros members Hnone _. unfold download_count_key, download_count_of, py_get.
    cbn [mbind outcome_bind]. rewrite Hnone. split; reflexivity.
  - intros best Hbest Hne. destruct records as [|item rest]; [congruence|].
    destruct (get_best_subtitle_first_max item rest Hrec) as (best' & i & Hrun & Hi & Hmax & _).
    rewrite Hrun in Hbest. injection Hbest as <-.
    split; [|exact Hmax]. apply list_elem_of_lookup_2 in Hi. exact Hi.
Qed.

End selector.


(** A record whose [attributes] is [null] has no [download_count] at all,
    yet the key function fails on it. *)
Lemma C10_counterexample :
  Forall (λ r, present_count_is_integer r = true)
         [record_with "a" 3; record_null_attributes] ∧
  get_best_subtitle (VList [record_with "a" 3; record_null_attributes])
  = Raise AttributeError.
Proof. split; [repeat constructor|reflexivity]. Qed.

Lemma C10_select_best_total_witness :
  ∃ best, get_best_subtitle (VList [VDict []; record_with "a" 3; VDict []]) = Ret best.
Proof.
  apply (C10_select_best_total [VDict []; record_with "a" 3; VDict []]).
  repeat constructor.
Defined.

(** ** The download step *)

Section download.
Context (env : Env).

Lemma download_run (subtitle_data : value) (video_path : string) (w : World) :
  is_download_record subtitle_data = true →
  run (download_and_save_subtitle env subtitle_data video_path) w
  = (Ret tt, download_steps env subtitle_data video_path w).
Proof.
  intros Hrec.
  destruct subtitle_data as [| | | |?|members]; try discriminate.
  unfold is_download_record in Hrec.
  unfold download_steps, first_file_id, file_descriptors.
  unfold download_and_save_subtitle, try_except, no_valid_file_id.
  cbv [run mbind M_bind mret M_ret lift outcome_bind outcome_ret py_get].
  destruct (dict_lookup "attributes" members) as [[| | | |?|attributes]|];
    try discriminate; unfold default, from_option, id.
  2:{ reflexivity. }
  destruct (dict_lookup "files" attributes) as [files|]; [|reflexivity].
  destruct files as [|[]|n|s|[|first rest]|[|? ?]]; try reflexivity.
  - cbn [truthy]. destruct (n =? 0); reflexivity.
  - cbn [truthy]. destruct (String.eqb s ""); reflexivity.
  - destruct first as [| | | | |descriptor]; try discriminate.
    cbn [truthy negb py_isinstance_list py_getitem_0 py_contains_str py_getitem_str].
    destruct (dict_lookup "file_id" descriptor) as [file_id|]; [|reflexivity].
    cbn. unfold write_text.
    destruct (api_download env file_id) as [|download_info]; [reflexivity|].
    cbn [of_http].
    destruct download_info as [| | | | |info]; try reflexivity.
    destruct (truthy (default VNone (dict_lookup "link" info))) eqn:Hlink;
      unfold default, from_option, id in *; rewrite Hlink; [|reflexivity].
    cbn [negb].
    destruct (http_fetch env _) as [|sub_content]; [reflexivity|].
    cbn [of_http].
    destruct (disk_write env (subtitle_path_of video_path)); reflexivity.
Qed.

Lemma terminal_state_finished (lvl : level) (msg : message) (w : World) :
  terminal_state (Ret tt, logged INFO Script_finished (logged lvl msg w)) = classify lvl msg.
Proof.
  unfold terminal_state. cbn [fst snd log logged]. rewrite !rev_app_distr. reflexivity.
Qed.

Lemma conclude_run (video_path : string) (subtitle_data : value)
    (search_method : option string) (w : World) :
  truthy subtitle_data = true →
  is_download_record subtitle_data = true →
  run (conclude env video_path subtitle_data search_method) w
  = (Ret tt,
     logged INFO Script_finished
       (download_steps env subtitle_data video_path
          (logged INFO (Best_match_via search_method) w))).
Proof.
  intros Htruthy Hrec. unfold conclude. rewrite Htruthy.
  cbv [run mbind M_bind logging].
  pose proof (download_run subtitle_data video_path
                (logged INFO (Best_match_via search_method) w) Hrec) as Hrun.
  unfold run in Hrun. rewrite Hrun. reflexivity.
Qed.

(** The last record of the download step, the requests it sent and what it
    did to the file system. *)
Lemma download_steps_cases (subtitle_data : value) (video_path : string) (w : World) :
  let w' := download_steps env subtitle_data video_path w in
  let path := subtitle_path_of video_path in
  (first_file_id subtitle_data = None ∧
   w' = logged ERROR No_valid_file_id w) ∨
  (∃ file_id,
     first_file_id subtitle_data = Some file_id ∧
     resolve_download env file_id = None ∧
     ∃ msg w1, w' = logged ERROR msg w1 ∧ classify ERROR msg = Some DONE_ERROR ∧
               fs w1 = fs w ∧ net w1 = net w ++ [POST_download file_id]) ∨
  (∃ file_id link,
     first_file_id subtitle_data = Some file_id ∧
     resolve_download env file_id = Some link ∧
     ∃ w2, net w2 = net w ++ [POST_download file_id; GET_link link] ∧
       fs w2 = fs w ∧
       ((http_fetch env link = HttpError ∧
         w' = logged ERROR (Failed_to_download RequestException) w2) ∨
        (∃ text, http_fetch env link = HttpOk text ∧
           ((disk_write env path = OpenFails ∧
             w' = logged ERROR (Error_during_download_save OSError) w2) ∨
            (∃ written, disk_write env path = WriteFails written ∧
               w' = logged ERROR (Error_during_download_save OSError)
                      (stored path (take written (list_byte_of_string text)) w2)) ∨
            (disk_write env path = WriteOk ∧
             w' = logged INFO (Subtitle_saved (basename path))
                    (stored path (list_byte_of_string text) w2)))))).
Proof.
  cbv zeta. unfold download_steps.
  destruct (first_file_id subtitle_data) as [file_id|]; [right|left; split; reflexivity].
  assert (Hfail : ∀ msg,
            classify ERROR msg = Some DONE_ERROR →
            ∃ msg' w1,
              logged ERROR msg
                (sent (POST_download file_id) (logged INFO Requesting_download_link w))
              = logged ERROR msg' w1 ∧
              classify ERROR msg' = Some DONE_ERROR ∧
              fs w1 = fs w ∧ net w1 = net w ++ [POST_download file_id]).
  { intros msg Hmsg. do 2 eexists. split; [reflexivity|]. split; [exact Hmsg|].
    split; reflexivity. }
  destruct (resolve_download env file_id) as [link|] eqn:Hresolve.
  - right. exists file_id, link. split; [reflexivity|]. split; [exact Hresolve|].
    unfold resolve_download in Hresolve.
    destruct (api_download env file_id) as [|[| | | | |info]]; try discriminate.
    cbn [py_get]. unfold default, from_option, id.
    destruct (dict_lookup "link" info) as [link'|]; [|discriminate].
    destruct (truthy link') eqn:Htruthy; [|discriminate].
    injection Hresolve as ->.
    exists (sent (GET_link link) (logged INFO Downloading_subtitle
              (sent (POST_download file_id) (logged INFO Requesting_download_link w)))).
    split.
    { cbn [net sent logged]. rewrite <- app_assoc. reflexivity. }
    split; [reflexivity|].
    destruct (http_fetch env link) as [|text].
    { left. split; reflexivity. }
    right. exists text. split; [reflexivity|].
    destruct (disk_write env (subtitle_path_of video_path)) as [| |written].
    + right. right. split; reflexivity.
    + left. split; reflexivity.
    + right. left. exists written. split; reflexivity.
  - left. exists file_id. split; [reflexivity|]. split; [exact Hresolve|].
    unfold resolve_download in Hresolve.
    destruct (api_download env file_id) as [|[| | | | |info]];
      cbn [py_get]; try (apply Hfail; reflexivity).
    unfold default, from_option, id.
    destruct (dict_lookup "link" info) as [link'|]; cbn [truthy];
      [|apply Hfail; reflexivity].
    destruct (truthy link'); [discriminate|apply Hfail; reflexivity].
Qed.


(** C8: the download request carries the identifier of the first file
    descriptor and nothing else is asked of the catalog; when the record
    has no file descriptor, or the link cannot be resolved, the run ends in
    DONE_ERROR and the file system is as it was. *)
Theorem C8_download_resolution (w : World) (video_path : string)
    (subtitle_data : value) (search_method : option string) :
  truthy subtitle_data = true →
  is_download_record subtitle_data = true →
  let r := run (conclude env video_path subtitle_data search_method) w in
  (∃ calls,
     net r.2 = net w ++ calls ∧
     (calls = [] ∨
      ∃ file_id,
        first_file_id subtitle_data = Some file_id ∧
        (calls = [POST_download file_id] ∨
         ∃ link, calls = [POST_download file_id; GET_link link]))) ∧
  ((file_descriptors subtitle_data = [] ∨
    first_file_id subtitle_data = None ∨
    ∃ file_id, first_file_id subtitle_data = Some file_id ∧
               resolve_download env file_id = None) →
   r.1 = Ret tt ∧ terminal_state r = Some DONE_ERROR ∧ fs r.2 = fs w).
Proof.
  intros Htruthy Hrec r. subst r.
  rewrite (conclude_run _ _ _ _ Htruthy Hrec). cbn [fst snd].
  pose proof (download_steps_cases subtitle_data video_path
                (logged INFO (Best_match_via search_method) w)) as Hcases.
  cbv zeta in Hcases.
  destruct Hcases as [(Hnone & ->) | [(file_id & Hid & Hres & msg & w1 & -> & Hmsg & Hfs & Hnet)
                     | (file_id & link & Hid & Hres & w2 & Hnet & Hfs & Hrest)]].
  - split.
    + exists []. split; [rewrite app_nil_r; reflexivity|left; reflexivity].
    + intros _. rewrite terminal_state_finished. repeat split.
  - split.
    + exists [POST_download file_id]. split; [exact Hnet|].
      right. exists file_id. split; [exact Hid|left; reflexivity].
    + intros _. rewrite terminal_state_finished. split; [reflexivity|].
      split; [exact Hmsg|exact Hfs].
  - split.
    + exists [POST_download file_id; GET_link link]. split.
      * destruct Hrest as [(_ & ->) | (text & _ & [(_ & ->) | [(written & _ & ->) | (_ & ->)]])];
          exact Hnet.
      * right. exists file_id. split; [exact Hid|]. right. exists link. reflexivity.
    + intros [Hempty | [Hnone | (file_id' & Hid' & Hres')]].
      * unfold first_file_id in Hid. rewrite Hempty in Hid. discriminate.
      * congruence.
      * congruence.
Qed.

(** C4, as far as the code goes: the run touches no path other than the
    subtitle path; a run that ends in DONE_DOWNLOADED leaves the complete
    fetched text there, and it ends so whenever resolution, fetch and write
    all succeed; a run in which resolution or fetch fails leaves the file
    system as it was and ends in DONE_ERROR. *)
Theorem C4_persist (w : World) (video_path : string)
    (subtitle_data : value) (search_method : option string) :
  truthy subtitle_data = true →
  is_download_record subtitle_data = true →
  let r := run (conclude env video_path subtitle_data search_method) w in
  let path := subtitle_path_of video_path in
  (∀ p, p ≠ path → fs r.2 !! p = fs w !! p) ∧
  (terminal_state r = Some DONE_DOWNLOADED →
   ∃ file_id link text,
     first_file_id subtitle_data = Some file_id ∧
     resolve_download env file_id = Some link ∧
     http_fetch env link = HttpOk text ∧
     fs r.2 = <[path := list_byte_of_string text]> (fs w)) ∧
  (∀ file_id link text,
     first_file_id subtitle_data = Some file_id →
     resolve_download env file_id = Some link →
     http_fetch env link = HttpOk text →
     disk_write env path = WriteOk →
     terminal_state r = Some DONE_DOWNLOADED ∧
     fs r.2 = <[path := list_byte_of_string text]> (fs w)) ∧
  ((first_file_id subtitle_data = None ∨
    ∃ file_id, first_file_id subtitle_data = Some file_id ∧
      (resolve_download env file_id = None ∨
       ∃ link, resolve_download env file_id = Some link ∧ http_fetch env link = HttpError)) →
   terminal_state r = Some DONE_ERROR ∧ fs r.2 = fs w).
Proof.
  intros Htruthy Hrec r path. subst r path.
  rewrite (conclude_run _ _ _ _ Htruthy Hrec). cbn [fst snd].
  pose proof (download_steps_cases subtitle_data video_path
                (logged INFO (Best_match_via search_method) w)) as Hcases.
  cbv zeta in Hcases.
  destruct Hcases as [(Hnone & ->) | [(file_id & Hid & Hres & msg & w1 & -> & Hmsg & Hfs & Hnet)
                     | (file_id & link & Hid & Hres & w2 & Hnet & Hfs & Hrest)]];
    rewrite ?terminal_state_finished.
  - split; [reflexivity|]. split; [discriminate|]. split; [congruence|].
    intros _. split; reflexivity.
  - cbn [fs logged]. split; [intros; rewrite Hfs; reflexivity|].
    split; [intros Hd; rewrite Hmsg in Hd; discriminate|]. split; [congruence|].
    intros _. split; [exact Hmsg|exact Hfs].
  - cbn [fs logged] in Hfs.
    destruct Hrest as [(Hfetch & ->) | (text & Hfetch & [(Hdisk & ->) | [(written & Hdisk & ->)
                      | (Hdisk & ->)]])];
      rewrite ?terminal_state_finished; cbn [fs logged stored classify]; rewrite ?Hfs.
    + split; [reflexivity|]. split; [discriminate|]. split; [congruence|].
      intros _. split; reflexivity.
    + split; [reflexivity|]. split; [discriminate|]. split; [congruence|].
      intros [?|(file_id' & Hid' & [?|(link' & ? & ?)])]; congruence.
    + split; [intros p Hp; apply lookup_insert_ne; congruence|].
      split; [discriminate|]. split; [congruence|].
      intros [?|(file_id' & Hid' & [?|(link' & ? & ?)])]; congruence.
    + split; [intros p Hp; apply lookup_insert_ne; congruence|].
      split; [intros _; exists file_id, link, text; repeat split; assumption|].
      split.
      * intros file_id' link' text' ? ? ? ?.
        assert (file_id' = file_id) by congruence. subst.
        assert (link' = link) by congruence. subst.
        assert (text' = text) by congruence. subst. split; reflexivity.
      * intros [?|(file_id' & Hid' & [?|(link' & ? & ?)])]; congruence.
Qed.

End download.

Lemma C8_download_resolution_witness :
  terminal_state (run (conclude env_no_link "/videos/clip.mkv" record_42 (Some "hash"%string))
                      small_world) = Some DONE_ERROR ∧
  fs (run (conclude env_no_link "/videos/clip.mkv" record_42 (Some "hash"%string))
          small_world).2 = fs small_world.
Proof.
  refine (proj2 (proj2 (C8_download_resolution env_no_link small_world "/videos/clip.mkv"
    record_42 (Some "hash"%string) _ _) _)).
  - reflexivity.
  - reflexivity.
  - right. right. exists (VInt 42). split; reflexivity.
Defined.

Lemma C4_persist_witness :
  terminal_state (run (conclude env_found_by_hash "/videos/clip.mkv" record_42
                         (Some "hash"%string)) lone_world) = Some DONE_DOWNLOADED ∧
  fs (run (conclude env_found_by_hash "/videos/clip.mkv" record_42
             (Some "hash"%string)) lone_world).2
  = <[subtitle_path_of "/videos/clip.mkv" := list_byte_of_string sample_text]> (fs lone_world).
Proof.
  refine (proj1 (proj2 (proj2 (C4_persist env_found_by_hash lone_world "/videos/clip.mkv"
    record_42 (Some "hash"%string) _ _))) (VInt 42) (VStr "https://dl.example/42") sample_text
    _ _ _ _); reflexivity.
Defined.

(** The disk fails after three octets: the old subtitle file is gone and
    the new one is incomplete. *)
Lemma C4_counterexample :
  let r := run (conclude env_disk_fails "/videos/clip.mkv" record_42 (Some "hash"%string))
               small_world in
  fs small_world !! "/videos/clip.srt"%string = Some (list_byte_of_string "old subtitle") ∧
  fs r.2 !! "/videos/clip.srt"%string = Some (take 3 (list_byte_of_string sample_text)) ∧
  fs r.2 !! "/videos/clip.srt"%string ≠ Some (list_byte_of_string sample_text) ∧
  fs r.2 !! "/videos/clip.srt"%string ≠ fs small_world !! "/videos/clip.srt"%string ∧
  terminal_state r = Some DONE_ERROR.
Proof.
  cbv zeta. repeat split; try (vm_compute; reflexivity); vm_compute; discriminate.
Qed.


(** ** The local subtitle detector *)

Section detector.
Context (env : Env).

Lemma has_external_subtitles_run (video_path : string) (w : World) :
  run (has_external_subtitles video_path) w =
  let base := (splitext video_path).1 in
  if bool_decide (is_Some (fs w !! (base +:+ ".srt")%string)) then
    (Ret true, logged INFO (Found_existing_subtitle_file (basename (base +:+ ".srt"))) w)
  else if bool_decide (is_Some (fs w !! (base +:+ ".sub")%string)) then
    (Ret true, logged INFO (Found_existing_subtitle_file (basename (base +:+ ".sub"))) w)
  else (Ret false, w).
Proof.
  unfold has_external_subtitles. destruct (splitext video_path) as [base ext].
  cbv [run has_external_subtitles_loop mbind M_bind mret M_ret os_path_isfile logging fst].
  cbv zeta.
  destruct (bool_decide (is_Some (fs w !! (base +:+ ".srt")%string))); [reflexivity|].
  destruct (bool_decide (is_Some (fs w !! (base +:+ ".sub")%string))); reflexivity.
Qed.

Lemma has_embedded_probe_raises (video_path : string) (w : World) (e : exn) :
  ffprobe env video_path = ProbeRaises e →
  run (has_embedded_subtitles env video_path) w =
  if is_FfmpegError e
  then (Ret false, logged WARNING (Could_not_probe e) w)
  else (Raise e, w).
Proof.
  intros Hprobe.
  cbv [run has_embedded_subtitles try_except ffmpeg_probe lift mbind M_bind pick_handler].
  rewrite Hprobe. destruct (is_FfmpegError e); reflexivity.
Qed.

(** C6: when a sibling [.srt] or [.sub] file exists the run stops in
    DONE_SKIPPED and sends no request. *)
Theorem C6_existing_subtitle_skips (w : World) (video_path filename : string) :
  is_Some (fs w !! ((splitext video_path).1 +:+ ".srt")%string) ∨
  is_Some (fs w !! ((splitext video_path).1 +:+ ".sub")%string) →
  let r := run (orchestrate env video_path filename) w in
  r.1 = Raise (SystemExit 0) ∧
  terminal_state r = Some DONE_SKIPPED ∧
  net r.2 = net w ∧
  fs r.2 = fs w.
Proof.
  intros Hsibling r. subst r.
  unfold orchestrate, check_local.
  cbv [run mbind M_bind logging].
  pose proof (has_external_subtitles_run video_path
                (logged INFO (Processing filename) w)) as Hext.
  cbv [run] in Hext. rewrite Hext. clear Hext. cbv zeta. cbn [fs logged].
  destruct (bool_decide_reflect
              (is_Some (fs w !! ((splitext video_path).1 +:+ ".srt")%string))) as [Hsrt|Hsrt].
  { unfold terminal_state. cbn. rewrite !rev_app_distr. repeat split. }
  destruct (bool_decide_reflect
              (is_Some (fs w !! ((splitext video_path).1 +:+ ".sub")%string))) as [Hsub|Hsub].
  { unfold terminal_state. cbn. rewrite !rev_app_distr. repeat split. }
  tauto.
Qed.

End detector.

Lemma C6_existing_subtitle_skips_witness :
  (run (orchestrate env_found_by_hash "/videos/clip.mkv" "clip.mkv") small_world).1
  = Raise (SystemExit 0) ∧
  terminal_state (run (orchestrate env_found_by_hash "/videos/clip.mkv" "clip.mkv") small_world)
  = Some DONE_SKIPPED ∧
  net (run (orchestrate env_found_by_hash "/videos/clip.mkv" "clip.mkv") small_world).2
  = net small_world ∧
  fs (run (orchestrate env_found_by_hash "/videos/clip.mkv" "clip.mkv") small_world).2
  = fs small_world.
Proof.
  apply (C6_existing_subtitle_skips env_found_by_hash small_world "/videos/clip.mkv" "clip.mkv").
  left. vm_compute. eexists. reflexivity.
Defined.

(** C5: without an [ffprobe] executable the probe raises
    [FileNotFoundError]; the detector does not handle it and the run dies
    with it, exit status 1. *)
Theorem C5_probe_tool_missing :
  run (has_embedded_subtitles env_no_ffprobe "/videos/clip.mkv") lone_world
  = (Raise FileNotFoundError, lone_world) ∧
  (run (orchestrate env_no_ffprobe "/videos/clip.mkv" "clip.mkv") lone_world).1
  = Raise FileNotFoundError ∧
  terminal_state (run (orchestrate env_no_ffprobe "/videos/clip.mkv" "clip.mkv") lone_world)
  = None ∧
  exit_status (run (orchestrate env_no_ffprobe "/videos/clip.mkv" "clip.mkv") lone_world).1 = 1.
Proof.
  split.
  { exact (has_embedded_probe_raises env_no_ffprobe "/videos/clip.mkv" lone_world
             FileNotFoundError eq_refl). }
  repeat split; vm_compute; reflexivity.
Qed.

(** ** The two searches *)

Section searches.
Context (env : Env).

Lemma format_016x_nonempty (n : Z) : format_016x n ≠ ""%string.
Proof.
  unfold format_016x. destruct (n <? 0); [discriminate|].
  intros Hempty. apply (f_equal String.length) in Hempty.
  rewrite string_of_list_length in Hempty. unfold zero_pad in Hempty.
  rewrite length_app, hex_digits_length in Hempty.
  unfold hex_ndigits in Hempty. cbn [String.length] in Hempty. lia.
Qed.

Lemma hash_of_contents_nonempty (contents : list byte) (filesize : Z) (s : string) :
  hash_of_contents contents filesize = Ret s → s ≠ ""%string.
Proof.
  unfold hash_of_contents. generalize (Z.to_nat (65536 / bytesize)). intros n.
  destruct (sum_longlongs n _ filesize) as [[f1 h1]|e1]; [|discriminate].
  cbn [mbind outcome_bind].
  destruct (sum_longlongs n _ h1) as [[f2 h2]|e2]; [|discriminate].
  cbn [mbind outcome_bind]. intros [= <-]. apply format_016x_nonempty.
Qed.

Lemma generate_hash_nonempty (video_path : string) (w w' : World) (h : string) :
  run (generate_opensubtitles_hash video_path) w = (Ret (Some h), w') → h ≠ ""%string.
Proof.
  cbv [generate_opensubtitles_hash run try_except mbind M_bind os_path_getsize open_rb lift
       mret M_ret pick_handler logging].
  destruct (fs w !! video_path) as [contents|] eqn:Hfs; [|discriminate].
  destruct (Z.of_nat (length contents) <? 65536 * 2); [discriminate|].
  rewrite Hfs.
  destruct (hash_of_contents contents (Z.of_nat (length contents))) as [s|e] eqn:Hhash.
  - intros Heq. inversion Heq; subst. exact (hash_of_contents_nonempty _ _ _ Hhash).
  - destruct (is_Exception e); intros Heq; inversion Heq.
Qed.

Lemma search_subtitles_run (params : list (string * string)) (w : World) :
  run (search_subtitles env params) w =
  match api_search env params with
  | HttpError =>
    (Ret (VList []), logged ERROR (API_request_failed RequestException)
                            (sent (GET_subtitles params) w))
  | HttpOk data => (py_get data "data" (VList []), sent (GET_subtitles params) w)
  end.
Proof.
  cbv [run search_subtitles try_except requests_get_subtitles mbind M_bind lift].
  destruct (api_search env params) as [|data]; [reflexivity|].
  cbn [of_http]. destruct (py_get data "data" (VList [])) as [results|e] eqn:Hget;
    [reflexivity|].
  destruct data; try discriminate Hget; injection Hget as <-; reflexivity.
Qed.

Lemma search_subtitles_sends (params : list (string * string)) (w : World) :
  net (run (search_subtitles env params) w).2 = net w ++ [GET_subtitles params] ∧
  fs (run (search_subtitles env params) w).2 = fs w.
Proof.
  rewrite search_subtitles_run.
  destruct (api_search env params); split; reflexivity.
Qed.

(** An absent fingerprint or an empty answer leaves [subtitle_data] at
    [None] after the first stage. *)
Lemma search_by_hash_nothing (video_path : string) (w w1 : World) :
  (run (generate_opensubtitles_hash video_path) w = (Ret None, w1) ∨
   ∃ h w',
     run (generate_opensubtitles_hash video_path) w = (Ret (Some h), w') ∧
     run (search_subtitles env (hash_params h)) (logged INFO (Generated_hash h) w')
     = (Ret (VList []), w1)) →
  run (search_by_hash env video_path) w = (Ret (VNone, None), w1).
Proof.
  intros [Hnone | (h & w' & Hsome & Hsearch)].
  - unfold search_by_hash. cbv [run mbind M_bind] in *. rewrite Hnone. reflexivity.
  - pose proof (generate_hash_nonempty _ _ _ _ Hsome) as Hne.
    apply String.eqb_neq in Hne.
    unfold search_by_hash. cbv [run mbind M_bind logging] in *.
    rewrite Hsome, Hne. cbn [negb]. rewrite Hsearch. reflexivity.
Qed.

End searches.

(** ** The command line *)

Section command_line.
Context (env : Env).

(** Nothing at the top level of the file calls a function. *)
Lemma module_binds_only (dunder_name video_path : string) (depth : nat) (w : World) :
  run (exec_block (pysubs_module env dunder_name video_path depth)) w = (Ret tt, w).
Proof. reflexivity. Qed.

(** Called in a process started from the file, [setup_logging] and [main]
    call each other until the interpreter gives up. *)
Lemma setup_logging_recursion (video_path : string) (depth : nat) :
  ∀ w, run (setup_logging env "__main__" video_path depth) w = (Raise RecursionError, w).
Proof.
  induction depth as [|depth IH]; intros w; [reflexivity|].
  cbn [setup_logging String.eqb Ascii.eqb Bool.eqb]. unfold main.
  cbv [run mbind M_bind] in *. rewrite IH. reflexivity.
Qed.

(** The checks of lines 160-173, had [main] been reached with the logging
    set up. *)
Lemma main_missing_credential (setup : M unit) (video_path : string) (w w' : World) :
  run setup w = (Ret tt, w') →
  API_KEY env = None →
  run (main env setup video_path) w = (Raise (SystemExit 1), logged ERROR API_key_not_found w').
Proof.
  intros Hsetup Hkey. unfold main. cbv [run mbind M_bind] in *.
  rewrite Hsetup, Hkey. reflexivity.
Qed.

Lemma main_missing_file (setup : M unit) (video_path key : string) (w w' : World) :
  run setup w = (Ret tt, w') →
  API_KEY env = Some key → key ≠ ""%string →
  fs w' !! video_path = None →
  run (main env setup video_path) w
  = (Raise (SystemExit 1), logged ERROR (File_not_found video_path) w').
Proof.
  intros Hsetup Hkey Hne Hfile. unfold main.
  cbv [run mbind M_bind mret M_ret os_path_isfile logging sys_exit raise] in *.
  rewrite Hsetup, Hkey. cbn [from_option]. apply String.eqb_neq in Hne. rewrite Hne.
  cbn [negb]. rewrite Hfile. reflexivity.
Qed.

End command_line.

(** C9: started without the credential, or on a video path that does not
    exist, the process runs the top-level statements of the file, none of
    which calls [main], and ends with exit status 0 and an empty log; the
    checks inside [main] would have ended it with status 1. *)
Theorem C9_module_never_calls_main :
  let no_key :=
    run (exec_block (pysubs_module env_no_key "__main__" "/videos/clip.mkv" 1000)) lone_world in
  let no_file :=
    run (exec_block (pysubs_module env_found_by_hash "__main__" "/videos/absent.mkv" 1000))
        lone_world in
  exit_status no_key.1 = 0 ∧ log no_key.2 = [] ∧
  exit_status no_file.1 = 0 ∧ log no_file.2 = [] ∧
  exit_status (run (main env_no_key (mret tt) "/videos/clip.mkv") lone_world).1 = 1 ∧
  exit_status (run (main env_found_by_hash (mret tt) "/videos/absent.mkv") lone_world).1 = 1.
Proof.
  cbv zeta. rewrite !module_binds_only.
  rewrite (main_missing_credential env_no_key (mret tt) _ lone_world lone_world eq_refl eq_refl).
  rewrite (main_missing_file env_found_by_hash (mret tt) "/videos/absent.mkv" "key"
             lone_world lone_world eq_refl eq_refl ltac:(discriminate) eq_refl).
  repeat split.
Qed.

(** * Further properties *)

(** ** The detector, case by case *)

Section detector_cases.
Context (env : Env).

(** X1: [has_external_subtitles] answers [True] exactly when a regular
    file sits at the base path with extension [.srt] or [.sub]; it only
    looks: files and requests are as before, and a [False] answer leaves
    no trace at all; when the [.srt] file exists it is the one reported. *)
Theorem X1_has_external_subtitles_spec (video_path : string) (w : World) :
  let base := (splitext video_path).1 in
  let r := run (has_external_subtitles video_path) w in
  (r.1 = Ret true ∨ r.1 = Ret false) ∧
  (r.1 = Ret true ↔
   is_Some (fs w !! (base +:+ ".srt")%string) ∨ is_Some (fs w !! (base +:+ ".sub")%string)) ∧
  fs r.2 = fs w ∧ net r.2 = net w ∧
  (r.1 = Ret false → r.2 = w) ∧
  (is_Some (fs w !! (base +:+ ".srt")%string) →
   log r.2 = log w ++ [(INFO, Found_existing_subtitle_file (basename (base +:+ ".srt")))]).
Proof.
  intros base r. subst r. rewrite has_external_subtitles_run. cbv zeta. fold base.
  destruct (bool_decide_reflect (is_Some (fs w !! (base +:+ ".srt")%string))) as [Hsrt|Hsrt].
  { cbn. repeat split; auto; try discriminate. }
  destruct (bool_decide_reflect (is_Some (fs w !! (base +:+ ".sub")%string))) as [Hsub|Hsub].
  { cbn. repeat split; auto; try discriminate. tauto. }
  cbn. repeat split; auto; try discriminate; tauto.
Qed.

Lemma subtitle_streams_of_dicts (streams : list value) :
  Forall (λ s, is_dict s = true) streams →
  subtitle_streams_of streams = Ret (filter (λ s, is_subtitle_stream s = true) streams).
Proof.
  induction 1 as [|s streams Hs _ IH]; [reflexivity|].
  destruct s as [| | | | |members]; try discriminate.
  cbn [subtitle_streams_of py_get mbind outcome_bind]. rewrite IH.
  cbn [mbind outcome_bind]. rewrite filter_cons.
  change (py_eq_str (default VNone (dict_lookup "codec_type" members)) "subtitle")
    with (is_subtitle_stream (VDict members)).
  destruct (is_subtitle_stream (VDict members));
    [rewrite decide_True by reflexivity|rewrite decide_False by discriminate]; reflexivity.
Qed.

Lemma filter_nonempty_existsb (streams : list value) :
  truthy (VList (filter (λ s, is_subtitle_stream s = true) streams))
  = existsb is_subtitle_stream streams.
Proof.
  induction streams as [|s streams IH]; [reflexivity|].
  rewrite filter_cons. cbn [existsb].
  destruct (is_subtitle_stream s); [rewrite decide_True by reflexivity; reflexivity|].
  rewrite decide_False by discriminate. exact IH.
Qed.

(** X2: on a report whose [streams] is a list of objects (or is missing),
    [has_embedded_subtitles] answers whether some stream has [codec_type]
    equal to ["subtitle"]; it sends nothing and writes nothing. *)
Theorem X2_has_embedded_subtitles_report (video_path : string) (w : World)
    (members : list (string * value)) (streams : list value) :
  ffprobe env video_path = ProbeOk (VDict members) →
  default (VList []) (dict_lookup "streams" members) = VList streams →
  Forall (λ s, is_dict s = true) streams →
  let r := run (has_embedded_subtitles env video_path) w in
  r.1 = Ret (existsb is_subtitle_stream streams) ∧
  fs r.2 = fs w ∧ net r.2 = net w ∧
  (existsb is_subtitle_stream streams = false → r.2 = w).
Proof.
  intros Hprobe Hstreams Hdicts r. subst r.
  cbv [run has_embedded_subtitles try_except ffmpeg_probe lift mbind M_bind mret M_ret
       py_get logging].
  rewrite Hprobe, Hstreams. cbn [py_iter].
  rewrite (subtitle_streams_of_dicts streams Hdicts), filter_nonempty_existsb.
  destruct (existsb is_subtitle_stream streams); cbn; repeat split; discriminate.
Qed.

Lemma check_local_run (video_path : string) (w : World) :
  fs w !! ((splitext video_path).1 +:+ ".srt")%string = None →
  fs w !! ((splitext video_path).1 +:+ ".sub")%string = None →
  run (check_local env video_path) w = run (has_embedded_subtitles env video_path) w.
Proof.
  intros Hsrt Hsub. unfold check_local.
  pose proof (has_external_subtitles_run video_path w) as Hext.
  cbv [run mbind M_bind] in *. rewrite Hext. cbv zeta. rewrite Hsrt, Hsub. reflexivity.
Qed.

(** X3: a probe that fails with [ffmpeg.Error] counts as "no embedded
    subtitle": with no sibling subtitle file the local check answers
    [False] and leaves one warning in the log, nothing else. *)
Theorem X3_probe_error_recovered (video_path : string) (w : World) :
  ffprobe env video_path = ProbeRaises FfmpegError →
  fs w !! ((splitext video_path).1 +:+ ".srt")%string = None →
  fs w !! ((splitext video_path).1 +:+ ".sub")%string = None →
  run (has_embedded_subtitles env video_path) w
  = (Ret false, logged WARNING (Could_not_probe FfmpegError) w) ∧
  run (check_local env video_path) w
  = (Ret false, logged WARNING (Could_not_probe FfmpegError) w).
Proof.
  intros Hprobe Hsrt Hsub.
  rewrite (check_local_run video_path w Hsrt Hsub).
  rewrite (has_embedded_probe_raises env video_path w FfmpegError Hprobe).
  split; reflexivity.
Qed.

End detector_cases.

Lemma X2_has_embedded_subtitles_report_witness :
  (run (has_embedded_subtitles env_found_by_hash "/videos/clip.mkv") lone_world).1
  = Ret (existsb is_subtitle_stream [VDict [("codec_type", VStr "video")]%string]).
Proof.
  refine (proj1 (X2_has_embedded_subtitles_report env_found_by_hash "/videos/clip.mkv"
    lone_world [("streams", VList [VDict [("codec_type", VStr "video")]])]%string
    [VDict [("codec_type", VStr "video")]%string] _ _ _)).
  - reflexivity.
  - reflexivity.
  - repeat constructor.
Defined.

Lemma X3_probe_error_recovered_witness :
  run (check_local env_probe_fails "/videos/clip.mkv") lone_world
  = (Ret false, logged WARNING (Could_not_probe FfmpegError) lone_world).
Proof.
  refine (proj2 (X3_probe_error_recovered env_probe_fails "/videos/clip.mkv" lone_world _ _ _)).
  - reflexivity.
  - vm_compute. reflexivity.
  - vm_compute. reflexivity.
Defined.

(** ** The fingerprinter, edge by edge *)

Section fingerprint_edges.

Local Arguments Z.mul : simpl never.
Local Arguments Z.add : simpl never.
Local Arguments Z.pow : simpl never.
Local Arguments Z.to_nat : simpl never.

(** X4: [generate_opensubtitles_hash] never raises, whatever the file
    system holds, and it only reads; it returns a hash exactly when the
    file exists and has at least 131072 octets; a missing file gives
    [None] and one error record. *)
Theorem X4_generate_hash_never_raises (video_path : string) (w : World) :
  ∃ (result : option string) (w' : World),
    run (generate_opensubtitles_hash video_path) w = (Ret result, w') ∧
    fs w' = fs w ∧ net w' = net w ∧
    (is_Some result ↔
     ∃ contents, fs w !! video_path = Some contents ∧
                 131072 ≤ Z.of_nat (length contents)) ∧
    (fs w !! video_path = None →
     result = None ∧
     log w' = log w ++ [(ERROR, Error_generating_hash FileNotFoundError)]).
Proof.
  destruct (fs w !! video_path) as [contents|] eqn:Hfs.
  - destruct (Z.lt_ge_cases (Z.of_nat (length contents)) 131072) as [Hsmall|Hbig].
    + rewrite (generate_hash_small w video_path contents Hfs Hsmall).
      do 2 eexists. split; [reflexivity|]. repeat split; try discriminate.
      * intros [? [=]].
      * intros (c & [= <-] & ?). lia.
    + rewrite (generate_hash_run w video_path contents Hfs Hbig).
      do 2 eexists. split; [reflexivity|]. repeat split; try discriminate.
      * intros _. exists contents. split; [reflexivity|exact Hbig].
      * intros _. eexists. reflexivity.
  - exists None, (logged ERROR (Error_generating_hash FileNotFoundError) w).
    split.
    { cbv [generate_opensubtitles_hash run try_except mbind M_bind os_path_getsize].
      rewrite Hfs. reflexivity. }
    repeat split; try reflexivity.
    + intros [? [=]].
    + intros (c & [=] & _).
Qed.

Lemma sum_longlongs_short (count : nat) :
  ∀ (f : BinFile) (hash_value : Z),
    (length (data f) - pos f < 8 * count)%nat →
    sum_longlongs count f hash_value = Raise StructError.
Proof.
  induction count as [|count IH]; intros [contents p] hash_value Hshort;
    cbn [data pos] in *; [lia|].
  cbn [sum_longlongs f_read data pos].
  change (Z.to_nat bytesize) with 8%nat.
  unfold struct_unpack_q. change (Z.to_nat bytesize) with 8%nat.
  destruct (Nat.eqb_spec (length (take 8 (drop p contents))) 8) as [Hlen|Hlen].
  - cbn [mbind outcome_bind]. apply IH. cbn [data pos].
    rewrite Hlen. rewrite length_take, length_drop in Hlen. lia.
  - reflexivity.
Qed.

(** X5: a file that ends before one of the two windows is complete makes
    the unpacking of a short buffer fail with [struct.error]. *)
Theorem X5_truncated_read (contents : list byte) (filesize : Z) :
  Z.of_nat (length contents) < 65536 ∨
  Z.of_nat (length contents) < Z.max 0 (filesize - 65536) + 65536 →
  hash_of_contents contents filesize = Raise StructError.
Proof.
  intros Hshort. unfold hash_of_contents.
  pose proof window_count as Hn.
  generalize dependent (Z.to_nat (65536 / bytesize)). intros n Hn.
  destruct (Z.lt_ge_cases (Z.of_nat (length contents)) 65536) as [Hfirst|Hfirst].
  - rewrite sum_longlongs_short by (cbn [data pos]; lia). reflexivity.
  - rewrite sum_longlongs_spec by (cbn [data pos]; lia).
    cbn [mbind outcome_bind]. unfold f_seek. cbn [data pos].
    rewrite sum_longlongs_short by (cbn [data pos]; lia). reflexivity.
Qed.

Lemma le_unsigned_range (bs : list byte) :
  0 ≤ le_unsigned bs < 256 ^ Z.of_nat (length bs).
Proof.
  induction bs as [|b bs IH].
  - cbn. lia.
  - rewrite le_unsigned_cons. cbn [length]. rewrite Nat2Z.inj_succ, Z.pow_succ_r by lia.
    pose proof (byte_val_range b). lia.
Qed.

Lemma le_unsigned_inj (bs1 : list byte) :
  ∀ bs2, length bs1 = length bs2 → le_unsigned bs1 = le_unsigned bs2 → bs1 = bs2.
Proof.
  induction bs1 as [|b1 bs1 IH]; intros [|b2 bs2] Hlen Heq; try discriminate; [reflexivity|].
  rewrite !le_unsigned_cons in Heq.
  pose proof (byte_val_range b1). pose proof (byte_val_range b2).
  assert (byte_val b1 = byte_val b2 ∧ le_unsigned bs1 = le_unsigned bs2) as [Hb Hrest] by lia.
  f_equal; [apply byte_val_inj, Hb|]. apply IH; [cbn in Hlen; lia|exact Hrest].
Qed.

(** X6: unpacking wants exactly eight octets; it then returns a number of
    the signed 64-bit range that is congruent to the unsigned little-endian
    reading, and different buffers give different numbers. *)
Theorem X6_struct_unpack_q_spec (buffer : list byte) :
  (length buffer ≠ 8%nat → struct_unpack_q buffer = Raise StructError) ∧
  (length buffer = 8%nat →
   ∃ v, struct_unpack_q buffer = Ret v ∧
        - 2 ^ 63 ≤ v < 2 ^ 63 ∧
        v mod 2 ^ 64 = le_unsigned buffer ∧
        ∀ buffer', struct_unpack_q buffer' = Ret v → buffer' = buffer).
Proof.
  unfold struct_unpack_q. change (Z.to_nat bytesize) with 8%nat. split; intros Hlen.
  - destruct (Nat.eqb_spec (length buffer) 8); [contradiction|reflexivity].
  - rewrite Hlen. cbn [Nat.eqb]. eexists. split; [reflexivity|].
    pose proof (le_unsigned_range buffer) as Hr. rewrite Hlen in Hr.
    change (256 ^ Z.of_nat 8) with (2 ^ 64) in Hr.
    assert (Hs : ∀ u, 0 ≤ u < 2 ^ 64 →
                 - 2 ^ 63 ≤ to_signed64 u < 2 ^ 63 ∧ to_signed64 u mod 2 ^ 64 = u).
    { intros u Hu. unfold to_signed64. destruct (Z.ltb_spec u (2 ^ 63)).
      - split; [lia|]. apply Z.mod_small. lia.
      - split; [lia|]. replace (u - 2 ^ 64) with (u + (-1) * 2 ^ 64) by ring.
        rewrite Z.mod_add by lia. apply Z.mod_small. lia. }
    destruct (Hs _ Hr) as [Hrange Hmod]. split; [exact Hrange|]. split; [exact Hmod|].
    intros buffer'. destruct (Nat.eqb_spec (length buffer') 8) as [Hlen'|]; [|discriminate].
    intros [= Heq]. apply le_unsigned_inj; [congruence|].
    pose proof (le_unsigned_range buffer') as Hr'. rewrite Hlen' in Hr'.
    change (256 ^ Z.of_nat 8) with (2 ^ 64) in Hr'.
    destruct (Hs _ Hr') as [_ Hmod']. rewrite <- Hmod', <- Hmod, Heq. reflexivity.
Qed.

Lemma sum_int64s_add (n : nat) :
  ∀ (contents : list byte) (off m : nat),
    sum_int64s contents off (n + m)
    = sum_int64s contents off n + sum_int64s contents (off + 8 * n) m.
Proof.
  induction n as [|n IH]; intros contents off m.
  - cbn [Nat.add sum_int64s]. replace (off + 8 * 0)%nat with off by lia. lia.
  - cbn [Nat.add sum_int64s]. rewrite IH.
    replace (off + 8 + 8 * n)%nat with (off + 8 * S n)%nat by lia. lia.
Qed.

(** X7: on a file of exactly 131072 octets the two windows are the two
    halves of the file: the fingerprint is the length plus the sum of all
    its 16384 integers, modulo [2^64]. *)
Theorem X7_smallest_file (w : World) (video_path : string) (contents : list byte) :
  fs w !! video_path = Some contents →
  Z.of_nat (length contents) = 131072 →
  run (generate_opensubtitles_hash video_path) w
  = (Ret (Some (format_016x
                  ((131072 + sum_int64s contents 0 (Z.to_nat 16384)) mod 2 ^ 64))), w).
Proof.
  intros Hfs Hlen.
  rewrite (generate_hash_run w video_path contents Hfs) by lia.
  do 3 f_equal. unfold fingerprint_number. rewrite Hlen.
  assert (Hn : Z.of_nat (Z.to_nat 8192) = 8192) by reflexivity.
  assert (Hm : Z.to_nat 16384 = (Z.to_nat 8192 + Z.to_nat 8192)%nat) by reflexivity.
  rewrite Hm. generalize dependent (Z.to_nat 8192). intros n Hn _.
  rewrite sum_int64s_add.
  replace (Z.to_nat (131072 - 65536)) with (0 + 8 * n)%nat by lia.
  f_equal. f_equal. ring.
Qed.

Lemma sum_int64s_words (n : nat) :
  ∀ (contents : list byte) (off : nat),
    sum_int64s contents off n = foldr Z.add 0 (words_at contents off n).
Proof.
  unfold words_at. induction n as [|n IH]; intros contents off; [reflexivity|].
  cbn [sum_int64s seq map foldr]. rewrite IH.
  replace (off + 8 * 0)%nat with off by lia. f_equal. f_equal.
  rewrite <- seq_shift, map_map. apply map_ext. intros i. f_equal. lia.
Qed.

Lemma sum_permutation (l1 l2 : list Z) :
  Permutation l1 l2 → foldr Z.add 0 l1 = foldr Z.add 0 l2.
Proof. induction 1; cbn [foldr]; lia. Qed.

(** X8: within each window only the sum of the integers counts: two files
    of the same length whose windows hold the same integers in a different
    order have the same fingerprint. *)
Theorem X8_word_order_ignored (w1 w2 : World) (p1 p2 : string) (c1 c2 : list byte) :
  fs w1 !! p1 = Some c1 →
  fs w2 !! p2 = Some c2 →
  131072 ≤ Z.of_nat (length c1) →
  length c1 = length c2 →
  Permutation (words_at c1 0 (Z.to_nat 8192)) (words_at c2 0 (Z.to_nat 8192)) →
  Permutation (words_at c1 (length c1 - Z.to_nat 65536) (Z.to_nat 8192))
              (words_at c2 (length c2 - Z.to_nat 65536) (Z.to_nat 8192)) →
  (run (generate_opensubtitles_hash p1) w1).1 = (run (generate_opensubtitles_hash p2) w2).1.
Proof.
  intros Hfs1 Hfs2 Hlen Heq Hfirst Hlast.
  rewrite (generate_hash_run w1 p1 c1 Hfs1 Hlen).
  rewrite (generate_hash_run w2 p2 c2 Hfs2) by (rewrite <- Heq; exact Hlen).
  cbn [fst]. do 3 f_equal. unfold fingerprint_number. rewrite <- Heq in *.
  assert (HW : Z.of_nat (Z.to_nat 65536) = 65536) by reflexivity.
  replace (Z.to_nat (Z.of_nat (length c1) - 65536))
    with (length c1 - Z.to_nat 65536)%nat by lia.
  generalize dependent (Z.to_nat 65536). intros W Hlast _.
  generalize dependent (Z.to_nat 8192). intros n Hfirst Hlast.
  rewrite !sum_int64s_words.
  rewrite (sum_permutation _ _ Hfirst), (sum_permutation _ _ Hlast). reflexivity.
Qed.

End fingerprint_edges.

Lemma X5_truncated_read_witness :
  hash_of_contents [ "001"%byte; "002"%byte ] 2 = Raise StructError.
Proof.
  apply X5_truncated_read. left. vm_compute. reflexivity.
Defined.

Lemma X7_smallest_file_witness :
  run (generate_opensubtitles_hash movie_path) movie_world_131072
  = (Ret (Some (format_016x
                  ((131072 + sum_int64s movie_131072 0 (Z.to_nat 16384)) mod 2 ^ 64))),
     movie_world_131072).
Proof.
  apply (X7_smallest_file movie_world_131072 movie_path movie_131072).
  - apply lookup_singleton_eq.
  - vm_compute. reflexivity.
Defined.

(** Words of two files that differ by the order of their first two words. *)
Lemma words_swap_first_two (u v rest : list byte) (k : nat) :
  length u = 8%nat → length v = 8%nat →
  words_at (u ++ v ++ rest) 0 (S (S k)) ≡ₚ words_at (v ++ u ++ rest) 0 (S (S k)).
Proof.
  intros Hu Hv. unfold words_at. cbn [seq map].
  rewrite <- !seq_shift, !map_map.
  assert (Hword : ∀ a b, length a = 8%nat → length b = 8%nat →
            int64_at (a ++ b ++ rest) (0 + 8 * 0) = to_signed64 (le_unsigned a) ∧
            int64_at (a ++ b ++ rest) (0 + 8 * 1) = to_signed64 (le_unsigned b) ∧
            ∀ i, int64_at (a ++ b ++ rest) (0 + 8 * S (S i))
                 = to_signed64 (le_unsigned (take 8 (drop (8 * i) rest)))).
  { intros a b Ha Hb. unfold int64_at. repeat split.
    - cbn [Nat.mul Nat.add]. rewrite drop_0, take_app_length' by (symmetry; exact Ha). reflexivity.
    - replace (0 + 8 * 1)%nat with (length a) by lia.
      rewrite drop_app_length, take_app_length' by (symmetry; exact Hb). reflexivity.
    - intros i. replace (0 + 8 * S (S i))%nat with (length a + (length b + 8 * i))%nat by lia.
      rewrite drop_app_add, drop_app_add. reflexivity. }
  destruct (Hword u v Hu Hv) as (-> & -> & Hrest1).
  destruct (Hword v u Hv Hu) as (-> & -> & Hrest2).
  rewrite (map_ext _ _ (λ i, eq_trans (Hrest1 i) (eq_sym (Hrest2 i)))).
  apply perm_swap.
Qed.

Lemma words_at_drop (contents : list byte) (off n : nat) :
  words_at contents off n = words_at (drop off contents) 0 n.
Proof.
  unfold words_at. apply map_ext. intros i. unfold int64_at.
  rewrite drop_drop. reflexivity.
Qed.

(** Two files of 131072 octets that differ by the order of their first
    two integers. *)
Lemma X8_word_order_ignored_witness :
  (run (generate_opensubtitles_hash movie_path) world_ones_twos).1
  = (run (generate_opensubtitles_hash movie_path) world_twos_ones).1.
Proof.
  assert (Hlen : ∀ u v, length u = 8%nat → length v = 8%nat →
                 length (u ++ v ++ zeros_tail) = N.to_nat 131072).
  { intros u v Hu Hv. rewrite !length_app, Hu, Hv. unfold zeros_tail.
    rewrite length_replicate. lia. }
  assert (Hlast : ∀ u v, length u = 8%nat → length v = 8%nat →
                  drop (N.to_nat 131072 - Z.to_nat 65536) (u ++ v ++ zeros_tail)
                  = drop (N.to_nat 65520) zeros_tail).
  { intros u v Hu Hv.
    replace (N.to_nat 131072 - Z.to_nat 65536)%nat
      with (length u + (length v + N.to_nat 65520))%nat by lia.
    rewrite !drop_app_add. reflexivity. }
  apply (X8_word_order_ignored world_ones_twos world_twos_ones movie_path movie_path
           movie_ones_twos movie_twos_ones).
  - apply lookup_singleton_eq.
  - apply lookup_singleton_eq.
  - unfold movie_ones_twos. rewrite Hlen by reflexivity. lia.
  - unfold movie_ones_twos, movie_twos_ones. rewrite !Hlen by reflexivity. reflexivity.
  - change (Z.to_nat 8192) with (S (S (Z.to_nat 8190))).
    apply words_swap_first_two; reflexivity.
  - unfold movie_ones_twos, movie_twos_ones. rewrite !Hlen by reflexivity.
    rewrite (words_at_drop (word_ones ++ _)), (words_at_drop (word_twos ++ _)).
    rewrite !Hlast by reflexivity. reflexivity.
Defined.

(** ** The length in the fingerprint *)

Section fingerprint_length.

Local Arguments Z.mul : simpl never.
Local Arguments Z.add : simpl never.
Local Arguments Z.pow : simpl never.
Local Arguments Z.to_nat : simpl never.

(** X24: the length counts: two files with the same first 65536 octets
    and the same last 65536 octets but different lengths (below [2^64])
    have different fingerprints. *)
Theorem X24_length_changes_fingerprint (w1 w2 : World) (p1 p2 : string) (c1 c2 : list byte) :
  fs w1 !! p1 = Some c1 →
  fs w2 !! p2 = Some c2 →
  131072 ≤ Z.of_nat (length c1) < 2 ^ 64 →
  131072 ≤ Z.of_nat (length c2) < 2 ^ 64 →
  take (Z.to_nat 65536) c1 = take (Z.to_nat 65536) c2 →
  drop (length c1 - Z.to_nat 65536) c1 = drop (length c2 - Z.to_nat 65536) c2 →
  length c1 ≠ length c2 →
  (run (generate_opensubtitles_hash p1) w1).1 ≠ (run (generate_opensubtitles_hash p2) w2).1.
Proof.
  intros Hfs1 Hfs2 Hlen1 Hlen2 Htake Hdrop Hne.
  rewrite (generate_hash_run w1 p1 c1 Hfs1) by lia.
  rewrite (generate_hash_run w2 p2 c2 Hfs2) by lia.
  cbn [fst]. intros [= Heq].
  apply format_016x_inj in Heq; try apply fingerprint_number_range.
  unfold fingerprint_number in Heq.
  assert (Hn : Z.of_nat (Z.to_nat 8192) = 8192) by reflexivity.
  assert (HW : Z.of_nat (Z.to_nat 65536) = 65536) by reflexivity.
  generalize dependent (Z.to_nat 8192). intros n Heq Hn.
  generalize dependent (Z.to_nat 65536). intros W Htake Hdrop HW.
  rewrite (sum_int64s_slice n c1 c2 0 0) in Heq.
  2:{ rewrite !drop_0. replace (8 * n)%nat with W by lia. exact Htake. }
  rewrite (sum_int64s_slice n c1 c2 (Z.to_nat (Z.of_nat (length c1) - 65536))
             (Z.to_nat (Z.of_nat (length c2) - 65536))) in Heq.
  2:{ replace (Z.to_nat (Z.of_nat (length c1) - 65536)) with (length c1 - W)%nat by lia.
      replace (Z.to_nat (Z.of_nat (length c2) - 65536)) with (length c2 - W)%nat by lia.
      rewrite Hdrop. reflexivity. }
  revert Heq.
  generalize (sum_int64s c2 0 n) (sum_int64s c2 (Z.to_nat (Z.of_nat (length c2) - 65536)) n).
  intros s1 s2 Heq.
  pose proof (Z.div_mod (Z.of_nat (length c1) + s1 + s2) (2 ^ 64) ltac:(lia)) as H1.
  pose proof (Z.div_mod (Z.of_nat (length c2) + s1 + s2) (2 ^ 64) ltac:(lia)) as H2.
  rewrite Heq in H1.
  set (q1 := (Z.of_nat (length c1) + s1 + s2) / 2 ^ 64) in *.
  set (q2 := (Z.of_nat (length c2) + s1 + s2) / 2 ^ 64) in *.
  set (r := (Z.of_nat (length c2) + s1 + s2) mod 2 ^ 64) in *.
  clearbody q1 q2 r. lia.
Qed.

End fingerprint_length.

(** Videos of 131072 and of 200000 octets, all octets equal. *)
Lemma X24_length_changes_fingerprint_witness :
  (run (generate_opensubtitles_hash movie_path) movie_world_131072).1
  ≠ (run (generate_opensubtitles_hash movie_path) movie_world).1.
Proof.
  assert (H1 : length movie_131072 = N.to_nat 131072) by apply length_replicate.
  assert (H2 : length movie_200000 = N.to_nat 200000) by apply length_replicate.
  apply (X24_length_changes_fingerprint movie_world_131072 movie_world movie_path movie_path
           movie_131072 movie_200000).
  - apply lookup_singleton_eq.
  - apply lookup_singleton_eq.
  - rewrite H1. lia.
  - rewrite H2. lia.
  - unfold movie_131072, movie_200000. rewrite !take_replicate.
    rewrite !Nat.min_l by lia. reflexivity.
  - rewrite H1, H2. unfold movie_131072, movie_200000. rewrite !drop_replicate.
    replace (N.to_nat 131072 - (N.to_nat 131072 - Z.to_nat 65536))%nat
      with (Z.to_nat 65536) by lia.
    replace (N.to_nat 200000 - (N.to_nat 200000 - Z.to_nat 65536))%nat
      with (Z.to_nat 65536) by lia.
    reflexivity.
  - rewrite H1, H2. lia.
Defined.

(** ** The catalog client and the selector, edge by edge *)

Section client_edges.
Context (env : Env).

(** X9: a search sends exactly one request and writes nothing; a failed
    request gives the empty list and one error record; an answer object
    gives its [data] member as it is, the empty list when it has none. *)
Theorem X9_search_subtitles_recovers (params : list (string * string)) (w : World) :
  let r := run (search_subtitles env params) w in
  net r.2 = net w ++ [GET_subtitles params] ∧
  fs r.2 = fs w ∧
  (api_search env params = HttpError →
   r.1 = Ret (VList []) ∧
   log r.2 = log w ++ [(ERROR, API_request_failed RequestException)]) ∧
  (∀ members,
     api_search env params = HttpOk (VDict members) →
     r.1 = Ret (default (VList []) (dict_lookup "data" members)) ∧ log r.2 = log w).
Proof.
  cbv zeta. rewrite search_subtitles_run.
  destruct (api_search env params) as [|data].
  - split; [reflexivity|]. split; [reflexivity|]. split; [split; reflexivity|].
    discriminate.
  - split; [reflexivity|]. split; [reflexivity|]. split; [discriminate|].
    intros members' [= ->]. split; reflexivity.
Qed.

(** X10: an answer that is valid JSON but not an object is not handled:
    [data.get] raises [AttributeError], which is not a
    [RequestException] and leaves [search_subtitles]. *)
Theorem X10_search_subtitles_non_object (params : list (string * string)) (w : World)
    (body : value) :
  api_search env params = HttpOk body →
  is_dict body = false →
  run (search_subtitles env params) w = (Raise AttributeError, sent (GET_subtitles params) w).
Proof.
  intros Hanswer Hshape. rewrite search_subtitles_run, Hanswer.
  destruct body; try discriminate; reflexivity.
Qed.

End client_edges.

Lemma X10_search_subtitles_non_object_witness :
  run (search_subtitles env_array_answer (query_params "clip.mkv")) lone_world
  = (Raise AttributeError, sent (GET_subtitles (query_params "clip.mkv")) lone_world).
Proof.
  apply (X10_search_subtitles_non_object env_array_answer (query_params "clip.mkv")
           lone_world (VList [record_42])); reflexivity.
Defined.

Section selector_edges.

(** The loop of [max] over a first part of the list, then over the rest. *)
Lemma max_loop_app (l1 l2 : list value) :
  ∀ maxitem : value,
    Forall (λ r, is_record r = true) l1 →
    ∃ best,
      max_loop download_count_key l1 maxitem (VInt (download_count_of maxitem)) = Ret best ∧
      best ∈ maxitem :: l1 ∧
      max_loop download_count_key (l1 ++ l2) maxitem (VInt (download_count_of maxitem))
      = max_loop download_count_key l2 best (VInt (download_count_of best)).
Proof.
  induction l1 as [|item l1 IH]; intros maxitem Hrec.
  - exists maxitem. split; [reflexivity|]. split; [apply list_elem_of_here|reflexivity].
  - apply Forall_cons in Hrec as [Hitem Hrest].
    cbn [max_loop app]. rewrite (download_count_key_record item Hitem).
    cbn [mbind outcome_bind py_gt as_number].
    destruct (download_count_of maxitem <? download_count_of item).
    + destruct (IH item Hrest) as (best & Hrun & Hin & Happ).
      exists best. split; [exact Hrun|]. split; [apply list_elem_of_further, Hin|exact Happ].
    + destruct (IH maxitem Hrest) as (best & Hrun & Hin & Happ).
      exists best. split; [exact Hrun|]. split; [|exact Happ].
      apply elem_of_cons in Hin as [->|Hin]; [apply list_elem_of_here|].
      apply list_elem_of_further, list_elem_of_further, Hin.
Qed.

(** X11: selecting from a concatenation is selecting from the best of the
    first part followed by the second part. *)
Theorem X11_select_best_concat (l1 l2 : list value) (best1 : value) :
  Forall (λ r, is_record r = true) l1 →
  l1 ≠ [] →
  get_best_subtitle (VList l1) = Ret best1 →
  get_best_subtitle (VList (l1 ++ l2)) = get_best_subtitle (VList (best1 :: l2)).
Proof.
  intros Hrec Hne Hbest. destruct l1 as [|item l1]; [congruence|].
  apply Forall_cons in Hrec as [Hitem Hrest].
  unfold get_best_subtitle, py_max in *.
  cbn [app truthy negb py_iter mbind outcome_bind] in *.
  rewrite (download_count_key_record item Hitem) in *. cbn [mbind outcome_bind] in *.
  destruct (max_loop_app l1 l2 item Hrest) as (best & Hrun & Hin & Happ).
  rewrite Hrun in Hbest. injection Hbest as <-.
  assert (Hbrec : is_record best = true).
  { apply elem_of_cons in Hin as [->|Hin]; [exact Hitem|].
    rewrite Forall_forall in Hrest. apply Hrest, Hin. }
  rewrite (download_count_key_record best Hbrec). cbn [mbind outcome_bind].
  exact Happ.
Qed.

(** X12: a [download_count] that is [null] cannot be compared: alone in
    the list the record is returned (no comparison takes place), next to
    any other record [max] raises [TypeError]. *)
Theorem X12_null_count_not_comparable (l1 l2 : list value) (bad : value) :
  Forall (λ r, is_record r = true) l1 →
  download_count_key bad = Ret VNone →
  get_best_subtitle (VList [bad]) = Ret bad ∧
  (l1 ≠ [] → get_best_subtitle (VList (l1 ++ bad :: l2)) = Raise TypeError) ∧
  (∀ r, is_record r = true → get_best_subtitle (VList (bad :: r :: l2)) = Raise TypeError).
Proof.
  intros Hrec Hbad. split; [|split].
  - unfold get_best_subtitle, py_max. cbn [truthy negb py_iter mbind outcome_bind].
    rewrite Hbad. reflexivity.
  - intros Hne. destruct l1 as [|item l1]; [congruence|].
    apply Forall_cons in Hrec as [Hitem Hrest].
    unfold get_best_subtitle, py_max.
    cbn [app truthy negb py_iter mbind outcome_bind].
    rewrite (download_count_key_record item Hitem). cbn [mbind outcome_bind].
    destruct (max_loop_app l1 (bad :: l2) item Hrest) as (best & _ & _ & ->).
    cbn [max_loop]. rewrite Hbad. reflexivity.
  - intros r Hr. unfold get_best_subtitle, py_max.
    cbn [truthy negb py_iter mbind outcome_bind]. rewrite Hbad.
    cbn [mbind outcome_bind max_loop]. rewrite (download_count_key_record r Hr).
    reflexivity.
Qed.

End selector_edges.

Lemma X11_select_best_concat_witness :
  get_best_subtitle (VList ([record_with "a" 3; record_with "b" 7] ++ [record_with "c" 7]))
  = get_best_subtitle (VList (record_with "b" 7 :: [record_with "c" 7])).
Proof.
  apply (X11_select_best_concat [record_with "a" 3; record_with "b" 7] [record_with "c" 7]
           (record_with "b" 7)).
  - repeat constructor.
  - discriminate.
  - reflexivity.
Defined.

Lemma X12_null_count_not_comparable_witness :
  get_best_subtitle (VList [record_null_count]) = Ret record_null_count ∧
  get_best_subtitle (VList ([record_with "a" 3] ++ record_null_count :: [])) = Raise TypeError.
Proof.
  destruct (X12_null_count_not_comparable [record_with "a" 3] [] record_null_count)
    as (Hone & Hafter & _).
  - repeat constructor.
  - reflexivity.
  - split; [exact Hone|]. apply Hafter. discriminate.
Defined.

(** ** The download step, edge by edge *)

Section download_edges.
Context (env : Env).

(** X13: on a record it can take, [download_and_save_subtitle] always
    returns: every failure ends as an error record, the last record of the
    log, and the success record appears only when the disk took the
    write. *)
Theorem X13_download_always_returns (subtitle_data : value) (video_path : string)
    (w : World) :
  is_download_record subtitle_data = true →
  let r := run (download_and_save_subtitle env subtitle_data video_path) w in
  r.1 = Ret tt ∧
  ∃ lvl msg w1,
    r.2 = logged lvl msg w1 ∧
    (classify lvl msg = Some DONE_DOWNLOADED ∨ classify lvl msg = Some DONE_ERROR) ∧
    (classify lvl msg = Some DONE_DOWNLOADED →
     disk_write env (subtitle_path_of video_path) = WriteOk).
Proof.
  intros Hrec r. subst r. rewrite (download_run env _ _ _ Hrec). cbn [fst snd].
  split; [reflexivity|].
  pose proof (download_steps_cases env subtitle_data video_path w) as Hcases.
  cbv zeta in Hcases.
  destruct Hcases as [(_ & ->) | [(fid & _ & _ & msg & w1 & -> & Hmsg & _)
                     | (fid & link & _ & _ & w2 & _ & _ & Hrest)]].
  - do 3 eexists. split; [reflexivity|]. split; [right; reflexivity|discriminate].
  - do 3 eexists. split; [reflexivity|]. split; [right; exact Hmsg|].
    rewrite Hmsg. discriminate.
  - destruct Hrest as [(_ & ->) | (text & _ & [(_ & ->) | [(written & _ & ->) | (Hdisk & ->)]])];
      do 3 eexists; (split; [reflexivity|]).
    + split; [right; reflexivity|discriminate].
    + split; [right; reflexivity|discriminate].
    + split; [right; reflexivity|discriminate].
    + split; [left; reflexivity|intros _; exact Hdisk].
Qed.

(** X14: when the first file descriptor is [null], a boolean or a number,
    the membership test of line 116 raises [TypeError]; the test stands
    before the [try], so the exception leaves the function, before any
    request is sent. *)
Theorem X14_bare_descriptor_raises (video_path : string) (w : World)
    (members attributes : list (string * value)) (descriptor : value) (rest : list value) :
  dict_lookup "attributes" members = Some (VDict attributes) →
  dict_lookup "files" attributes = Some (VList (descriptor :: rest)) →
  is_scalar descriptor = true →
  run (download_and_save_subtitle env (VDict members) video_path) w = (Raise TypeError, w).
Proof.
  intros Hattributes Hfiles Hscalar.
  unfold download_and_save_subtitle, no_valid_file_id.
  cbv [run mbind M_bind lift py_get outcome_bind]. rewrite Hattributes.
  unfold default, from_option, id. rewrite Hfiles.
  destruct descriptor; try discriminate; reflexivity.
Qed.

(** X15: when the disk fails, the run ends in DONE_ERROR; if the file
    could not be opened nothing changed, otherwise the subtitle path holds
    a prefix of the fetched text. *)
Theorem X15_disk_failure (w : World) (video_path : string) (subtitle_data : value)
    (search_method : option string) (file_id link : value) (text : string) :
  truthy subtitle_data = true →
  is_download_record subtitle_data = true →
  first_file_id subtitle_data = Some file_id →
  resolve_download env file_id = Some link →
  http_fetch env link = HttpOk text →
  disk_write env (subtitle_path_of video_path) ≠ WriteOk →
  let r := run (conclude env video_path subtitle_data search_method) w in
  terminal_state r = Some DONE_ERROR ∧
  (disk_write env (subtitle_path_of video_path) = OpenFails → fs r.2 = fs w) ∧
  (∀ written,
     disk_write env (subtitle_path_of video_path) = WriteFails written →
     ∃ octets,
       fs r.2 = <[subtitle_path_of video_path := octets]> (fs w) ∧
       octets `prefix_of` list_byte_of_string text ∧
       length octets = Nat.min written (length (list_byte_of_string text))).
Proof.
  intros Htruthy Hrec Hid Hres Hfetch Hdisk r. subst r.
  rewrite (conclude_run env _ _ _ _ Htruthy Hrec). cbn [fst snd].
  pose proof (download_steps_cases env subtitle_data video_path
                (logged INFO (Best_match_via search_method) w)) as Hcases.
  cbv zeta in Hcases.
  destruct Hcases as [(Hnone & _) | [(fid & Hid' & Hres' & _)
                     | (fid & link' & Hid' & Hres' & w2 & _ & Hfs & Hrest)]];
    [congruence|congruence|].
  assert (fid = file_id) by congruence. subst fid.
  assert (link' = link) by congruence. subst link'.
  cbn [fs logged] in Hfs.
  destruct Hrest as [(Hfetch' & _) | (text' & Hfetch' & Hwrite)]; [congruence|].
  assert (text' = text) by congruence. subst text'.
  destruct Hwrite as [(Hopen & ->) | [(written & Hfail & ->) | (Hok & _)]];
    [| |contradiction]; rewrite terminal_state_finished; cbn [fs logged stored].
  - split; [reflexivity|]. split; [intros _; exact Hfs|]. intros ?; congruence.
  - split; [reflexivity|]. split; [congruence|].
    intros written' Hfail'. assert (written' = written) by congruence. subst written'.
    eexists. split; [rewrite Hfs; reflexivity|]. split; [apply prefix_take|].
    apply length_take.
Qed.

(** Once a sibling subtitle exists, a run stops at the local check. *)
Lemma orchestrate_skips (w : World) (video_path filename : string) :
  is_Some (fs w !! ((splitext video_path).1 +:+ ".srt")%string) ∨
  is_Some (fs w !! ((splitext video_path).1 +:+ ".sub")%string) →
  ∃ w', run (orchestrate env video_path filename) w = (Raise (SystemExit 0), w') ∧
        terminal_state (Raise (SystemExit 0), w') = Some DONE_SKIPPED ∧
        net w' = net w ∧ fs w' = fs w.
Proof.
  intros Hsibling. unfold orchestrate, check_local.
  cbv [run mbind M_bind logging].
  pose proof (has_external_subtitles_run video_path
                (logged INFO (Processing filename) w)) as Hext.
  cbv [run] in Hext. rewrite Hext. clear Hext. cbv zeta. cbn [fs logged].
  destruct (bool_decide_reflect
              (is_Some (fs w !! ((splitext video_path).1 +:+ ".srt")%string))) as [Hsrt|Hsrt].
  { eexists. split; [reflexivity|]. unfold terminal_state. cbn.
    rewrite !rev_app_distr. repeat split. }
  destruct (bool_decide_reflect
              (is_Some (fs w !! ((splitext video_path).1 +:+ ".sub")%string))) as [Hsub|Hsub].
  { eexists. split; [reflexivity|]. unfold terminal_state. cbn.
    rewrite !rev_app_distr. repeat split. }
  tauto.
Qed.

End download_edges.

(** X16: what a successful download writes is what the local check looks
    for: the next run on the same video, against any catalog, stops in
    DONE_SKIPPED without a request and without touching the file system. *)
Theorem X16_second_run_skips (env env' : Env) (w : World) (video_path filename : string)
    (subtitle_data : value) (search_method : option string) :
  truthy subtitle_data = true →
  is_download_record subtitle_data = true →
  let r := run (conclude env video_path subtitle_data search_method) w in
  terminal_state r = Some DONE_DOWNLOADED →
  let r' := run (orchestrate env' video_path filename) r.2 in
  r'.1 = Raise (SystemExit 0) ∧
  terminal_state r' = Some DONE_SKIPPED ∧
  net r'.2 = net r.2 ∧
  fs r'.2 = fs r.2.
Proof.
  intros Htruthy Hrec r Hdone r'. subst r r'.
  rewrite (conclude_run env _ _ _ _ Htruthy Hrec) in *. cbn [fst snd] in *.
  pose proof (download_steps_cases env subtitle_data video_path
                (logged INFO (Best_match_via search_method) w)) as Hcases.
  cbv zeta in Hcases.
  assert (Hsrt : is_Some
            (fs (logged INFO Script_finished
                   (download_steps env subtitle_data video_path
                      (logged INFO (Best_match_via search_method) w)))
             !! ((splitext video_path).1 +:+ ".srt")%string)).
  { destruct Hcases as [(_ & Heq) | [(fid & _ & _ & msg & w1 & Heq & Hmsg & _)
                       | (fid & link & _ & _ & w2 & _ & _ & Hrest)]].
    - rewrite Heq, terminal_state_finished in Hdone. discriminate.
    - rewrite Heq, terminal_state_finished, Hmsg in Hdone. discriminate.
    - destruct Hrest as [(_ & Heq) | (text & _ & [(_ & Heq) | [(written & _ & Heq)
                        | (_ & Heq)]])];
        rewrite Heq in *; rewrite ?terminal_state_finished in Hdone; try discriminate.
      cbn [fs logged stored]. unfold subtitle_path_of.
      rewrite lookup_insert_eq. eexists. reflexivity. }
  destruct (orchestrate_skips env' _ video_path filename (or_introl Hsrt))
    as (w' & -> & Hstate & Hnet & Hfs).
  cbn [fst snd]. repeat split; assumption.
Qed.

Lemma X13_download_always_returns_witness :
  (run (download_and_save_subtitle env_no_link record_42 "/videos/clip.mkv") small_world).1
  = Ret tt.
Proof.
  refine (proj1 (X13_download_always_returns env_no_link record_42 "/videos/clip.mkv"
                   small_world _)).
  reflexivity.
Defined.

Lemma X14_bare_descriptor_raises_witness :
  run (download_and_save_subtitle env_found_by_hash record_bare_descriptor "/videos/clip.mkv")
      lone_world
  = (Raise TypeError, lone_world).
Proof.
  apply (X14_bare_descriptor_raises env_found_by_hash "/videos/clip.mkv" lone_world
           [("attributes", VDict [("files", VList [VInt 42])])]%string
           [("files", VList [VInt 42])]%string (VInt 42) []); reflexivity.
Defined.

Lemma X15_disk_failure_witness :
  terminal_state (run (conclude env_disk_fails "/videos/clip.mkv" record_42 (Some "hash"%string))
                      small_world) = Some DONE_ERROR.
Proof.
  refine (proj1 (X15_disk_failure env_disk_fails small_world "/videos/clip.mkv" record_42
    (Some "hash"%string) (VInt 42) (VStr "https://dl.example/42") sample_text _ _ _ _ _ _));
    try reflexivity.
  discriminate.
Defined.

Lemma X16_second_run_skips_witness :
  terminal_state
    (run (orchestrate env_no_link "/videos/clip.mkv" "clip.mkv")
       (run (conclude env_found_by_hash "/videos/clip.mkv" record_42 (Some "hash"%string))
            lone_world).2)
  = Some DONE_SKIPPED.
Proof.
  refine (proj1 (proj2 (X16_second_run_skips env_found_by_hash env_no_link lone_world
    "/videos/clip.mkv" "clip.mkv" record_42 (Some "hash"%string) _ _ _))).
  - reflexivity.
  - reflexivity.
  - vm_compute. reflexivity.
Defined.

(** ** What a run writes *)

Section frame.
Context (env : Env).

Lemma writes_only_keeps (path : string) {A} (m : M A) :
  keeps_fs m → writes_only path m.
Proof. intros Hm w p _. rewrite Hm. reflexivity. Qed.

Lemma writes_only_bind (path : string) {A B} (m : M A) (k : A → M B) :
  writes_only path m → (∀ a, writes_only path (k a)) → writes_only path (m ≫= k).
Proof.
  intros Hm Hk w p Hp. cbv [mbind M_bind]. specialize (Hm w p Hp).
  destruct (m w) as [[a|e] w']; cbn [snd] in *.
  - rewrite (Hk a w' p Hp). exact Hm.
  - exact Hm.
Qed.

Lemma writes_only_try (path : string) {A} (body : M A)
    (handlers : list ((exn → bool) * (exn → M A))) :
  writes_only path body →
  Forall (λ handler, ∀ e, writes_only path (handler.2 e)) handlers →
  writes_only path (try_except body handlers).
Proof.
  intros Hbody Hhandlers w p Hp. unfold try_except. specialize (Hbody w p Hp).
  destruct (body w) as [[a|e] w']; cbn [snd] in *; [exact Hbody|].
  induction Hhandlers as [|[matches h] handlers Hh _ IH]; cbn [pick_handler].
  - exact Hbody.
  - destruct (matches e); [|exact IH].
    cbn [snd] in Hh. rewrite (Hh e w' p Hp). exact Hbody.
Qed.

Lemma keeps_fs_ret {A} (a : A) : keeps_fs (mret a).
Proof. intros w. reflexivity. Qed.

Lemma keeps_fs_raise {A} (e : exn) : keeps_fs (@raise A e).
Proof. intros w. reflexivity. Qed.

Lemma keeps_fs_lift {A} (o : outcome A) : keeps_fs (lift o).
Proof. intros w. reflexivity. Qed.

Lemma keeps_fs_logging (lvl : level) (msg : message) : keeps_fs (logging lvl msg).
Proof. intros w. reflexivity. Qed.

Lemma keeps_fs_isfile (path : string) : keeps_fs (os_path_isfile path).
Proof. intros w. reflexivity. Qed.

Lemma keeps_fs_getsize (path : string) : keeps_fs (os_path_getsize path).
Proof. intros w. unfold os_path_getsize. destruct (fs w !! path); reflexivity. Qed.

Lemma keeps_fs_open_rb (path : string) : keeps_fs (open_rb path).
Proof. intros w. unfold open_rb. destruct (fs w !! path); reflexivity. Qed.

Lemma keeps_fs_probe (video_path : string) : keeps_fs (ffmpeg_probe env video_path).
Proof. intros w. reflexivity. Qed.

Lemma keeps_fs_get_subtitles (params : list (string * string)) :
  keeps_fs (requests_get_subtitles env params).
Proof. intros w. reflexivity. Qed.

Lemma keeps_fs_post_download (file_id : value) : keeps_fs (requests_post_download env file_id).
Proof. intros w. reflexivity. Qed.

Lemma keeps_fs_get_text (url : value) : keeps_fs (requests_get_text env url).
Proof. intros w. reflexivity. Qed.

Lemma writes_only_write_text (path : string) (content : string) :
  writes_only path (write_text env path content).
Proof.
  intros w p Hp. unfold write_text.
  destruct (disk_write env path); cbn [snd fs stored]; [|reflexivity|];
    apply lookup_insert_ne; congruence.
Qed.

Local Ltac frame_step :=
  first
    [ apply writes_only_bind; [|intros ?]
    | apply writes_only_try; [|repeat constructor; intros ?; cbn [snd]]
    | apply writes_only_write_text
    | apply writes_only_keeps;
      first [ apply keeps_fs_ret | apply keeps_fs_raise | apply keeps_fs_lift
            | apply keeps_fs_logging | apply keeps_fs_isfile | apply keeps_fs_getsize
            | apply keeps_fs_open_rb | apply keeps_fs_probe | apply keeps_fs_get_subtitles
            | apply keeps_fs_post_download | apply keeps_fs_get_text ]
    | match goal with
      | |- writes_only _ (if ?b then _ else _) => destruct b
      | |- writes_only _ (match ?x with _ => _ end) => destruct x
      end ].

Local Ltac frame := repeat frame_step.

Lemma frame_has_external (path video_path : string) :
  writes_only path (has_external_subtitles video_path).
Proof.
  unfold has_external_subtitles. destruct (splitext video_path) as [base ext].
  generalize [".srt"; ".sub"]%string. intros exts.
  induction exts as [|e exts IH]; cbn [has_external_subtitles_loop]; frame. exact IH.
Qed.

Lemma frame_has_embedded (path video_path : string) :
  writes_only path (has_embedded_subtitles env video_path).
Proof. unfold has_embedded_subtitles. frame. Qed.

Lemma frame_generate_hash (path video_path : string) :
  writes_only path (generate_opensubtitles_hash video_path).
Proof. unfold generate_opensubtitles_hash. frame. Qed.

Lemma frame_search (path : string) (params : list (string * string)) :
  writes_only path (search_subtitles env params).
Proof. unfold search_subtitles. frame. Qed.

Lemma frame_take_best (path : string) (results : value) (found : nat → message)
    (method : string) (subtitle_data : value) (search_method : option string) :
  writes_only path (take_best results found method subtitle_data search_method).
Proof. unfold take_best. frame. Qed.

Lemma frame_download (subtitle_data : value) (video_path : string) :
  writes_only (subtitle_path_of video_path)
              (download_and_save_subtitle env subtitle_data video_path).
Proof. unfold download_and_save_subtitle. frame. Qed.

Lemma frame_orchestrate (video_path filename : string) :
  writes_only (subtitle_path_of video_path) (orchestrate env video_path filename).
Proof.
  unfold orchestrate, check_local, search_by_hash, search_by_name, conclude, sys_exit.
  repeat first
    [ frame_step | apply frame_has_external | apply frame_has_embedded
    | apply frame_generate_hash | apply frame_search | apply frame_take_best
    | apply frame_download ].
Qed.

(** X18: whatever the probe and the catalog answer, well formed or not,
    and however the run ends, it changes no file other than the subtitle
    path; the video itself, when it exists, is left as it is. *)
Theorem X18_only_subtitle_path_written (video_path filename : string) (w : World) :
  let r := run (orchestrate env video_path filename) w in
  (∀ p, p ≠ subtitle_path_of video_path → fs r.2 !! p = fs w !! p) ∧
  (∀ contents, fs w !! video_path = Some contents → fs r.2 !! video_path = Some contents).
Proof.
  cbv zeta. split.
  - intros p Hp. exact (frame_orchestrate video_path filename w p Hp).
  - intros contents Hvideo.
    destruct (decide (video_path = subtitle_path_of video_path)) as [Hsame|Hother].
    + destruct (orchestrate_skips env w video_path filename) as (w' & Hrun & _ & _ & Hfs).
      { left. unfold subtitle_path_of in Hsame. rewrite <- Hsame, Hvideo. eexists. reflexivity. }
      rewrite Hrun. cbn [snd]. rewrite Hfs. exact Hvideo.
    + unfold run. rewrite (frame_orchestrate video_path filename w video_path Hother).
      exact Hvideo.
Qed.

End frame.

(** ** What a run sends *)

Section traffic.
Context (env : Env).

Lemma sends_at_most_nothing (n : nat) {A} (m : M A) :
  sends_nothing m → sends_at_most n m.
Proof.
  intros Hm w. exists []. rewrite Hm, app_nil_r. split; [reflexivity|cbn; lia].
Qed.

Lemma sends_at_most_bind (a n : nat) {A B} (m : M A) (k : A → M B) :
  sends_at_most a m →
  (∀ x, sends_at_most (n - a) (k x)) →
  (a ≤ n)%nat →
  sends_at_most n (m ≫= k).
Proof.
  intros Hm Hk Hle w. cbv [mbind M_bind].
  destruct (Hm w) as (calls & Hcalls & Hlen).
  destruct (m w) as [[x|e] w']; cbn [snd] in *.
  - destruct (Hk x w') as (calls' & Hcalls' & Hlen').
    exists (calls ++ calls'). rewrite Hcalls', Hcalls, app_assoc.
    split; [reflexivity|]. rewrite length_app. lia.
  - exists calls. split; [exact Hcalls|lia].
Qed.

Lemma sends_at_most_bind_quiet (n : nat) {A B} (m : M A) (k : A → M B) :
  sends_nothing m → (∀ x, sends_at_most n (k x)) → sends_at_most n (m ≫= k).
Proof.
  intros Hm Hk. apply (sends_at_most_bind 0); [apply sends_at_most_nothing, Hm| |lia].
  intros x. rewrite Nat.sub_0_r. apply Hk.
Qed.

Lemma sends_at_most_bind_one (n : nat) {A B} (m : M A) (k : A → M B) :
  sends_at_most 1 m → (∀ x, sends_at_most n (k x)) → sends_at_most (S n) (m ≫= k).
Proof.
  intros Hm Hk. apply (sends_at_most_bind 1); [exact Hm| |lia].
  intros x. replace (S n - 1)%nat with n by lia. apply Hk.
Qed.

Lemma sends_at_most_try (n : nat) {A} (body : M A)
    (handlers : list ((exn → bool) * (exn → M A))) :
  sends_at_most n body →
  Forall (λ handler, ∀ e, sends_nothing (handler.2 e)) handlers →
  sends_at_most n (try_except body handlers).
Proof.
  intros Hbody Hhandlers w. unfold try_except.
  destruct (Hbody w) as (calls & Hcalls & Hlen).
  destruct (body w) as [[x|e] w']; cbn [snd] in *; [exists calls; split; assumption|].
  induction Hhandlers as [|[matches h] handlers Hh _ IH]; cbn [pick_handler].
  - exists calls. split; assumption.
  - destruct (matches e); [|exact IH].
    cbn [snd] in Hh. exists calls. rewrite (Hh e w'). split; assumption.
Qed.

Lemma sends_nothing_ret {A} (a : A) : sends_nothing (mret a).
Proof. intros w. reflexivity. Qed.

Lemma sends_nothing_raise {A} (e : exn) : sends_nothing (@raise A e).
Proof. intros w. reflexivity. Qed.

Lemma sends_nothing_lift {A} (o : outcome A) : sends_nothing (lift o).
Proof. intros w. reflexivity. Qed.

Lemma sends_nothing_logging (lvl : level) (msg : message) : sends_nothing (logging lvl msg).
Proof. intros w. reflexivity. Qed.

Lemma sends_nothing_isfile (path : string) : sends_nothing (os_path_isfile path).
Proof. intros w. reflexivity. Qed.

Lemma sends_nothing_getsize (path : string) : sends_nothing (os_path_getsize path).
Proof. intros w. unfold os_path_getsize. destruct (fs w !! path); reflexivity. Qed.

Lemma sends_nothing_open_rb (path : string) : sends_nothing (open_rb path).
Proof. intros w. unfold open_rb. destruct (fs w !! path); reflexivity. Qed.

Lemma sends_nothing_probe (video_path : string) : sends_nothing (ffmpeg_probe env video_path).
Proof. intros w. reflexivity. Qed.

Lemma sends_nothing_write_text (path content : string) :
  sends_nothing (write_text env path content).
Proof. intros w. unfold write_text. destruct (disk_write env path); reflexivity. Qed.

Lemma sends_one_get_subtitles (params : list (string * string)) :
  sends_at_most 1 (requests_get_subtitles env params).
Proof. intros w. exists [GET_subtitles params]. split; [reflexivity|cbn; lia]. Qed.

Lemma sends_one_post_download (file_id : value) :
  sends_at_most 1 (requests_post_download env file_id).
Proof. intros w. exists [POST_download file_id]. split; [reflexivity|cbn; lia]. Qed.

Lemma sends_one_get_text (url : value) :
  sends_at_most 1 (requests_get_text env url).
Proof. intros w. exists [GET_link url]. split; [reflexivity|cbn; lia]. Qed.

Local Ltac quiet :=
  first [ apply sends_nothing_ret | apply sends_nothing_raise | apply sends_nothing_lift
        | apply sends_nothing_logging | apply sends_nothing_isfile
        | apply sends_nothing_getsize | apply sends_nothing_open_rb
        | apply sends_nothing_probe | apply sends_nothing_write_text ].

Local Ltac traffic_step :=
  first
    [ apply sends_at_most_bind_quiet; [quiet|intros ?]
    | apply sends_at_most_bind_one;
      [first [ apply sends_one_get_subtitles | apply sends_one_post_download
             | apply sends_one_get_text ]
      |intros ?]
    | apply sends_at_most_try; [|repeat constructor; intros ?; cbn [snd]]
    | apply sends_at_most_nothing; quiet
    | quiet
    | match goal with
      | |- sends_at_most _ (if ?b then _ else _) => destruct b
      | |- sends_at_most _ (match ?x with _ => _ end) => destruct x
      | |- sends_nothing (_ ≫= _) =>
          let w := fresh "w" in
          intros w; cbv [mbind M_bind logging mret M_ret]; reflexivity
      end ].

Local Ltac traffic := repeat traffic_step.

Lemma traffic_has_external (n : nat) (video_path : string) :
  sends_at_most n (has_external_subtitles video_path).
Proof.
  unfold has_external_subtitles. destruct (splitext video_path) as [base ext].
  generalize [".srt"; ".sub"]%string. intros exts.
  induction exts as [|e exts IH]; cbn [has_external_subtitles_loop]; traffic. exact IH.
Qed.

Lemma traffic_has_embedded (n : nat) (video_path : string) :
  sends_at_most n (has_embedded_subtitles env video_path).
Proof. unfold has_embedded_subtitles. traffic. Qed.

Lemma traffic_generate_hash (n : nat) (video_path : string) :
  sends_at_most n (generate_opensubtitles_hash video_path).
Proof. unfold generate_opensubtitles_hash. traffic. Qed.

Lemma traffic_search (n : nat) (params : list (string * string)) :
  sends_at_most (S n) (search_subtitles env params).
Proof. unfold search_subtitles. traffic. Qed.

Lemma traffic_take_best (n : nat) (results : value) (found : nat → message)
    (method : string) (subtitle_data : value) (search_method : option string) :
  sends_at_most n (take_best results found method subtitle_data search_method).
Proof. unfold take_best. traffic. Qed.

Lemma traffic_download (n : nat) (subtitle_data : value) (video_path : string) :
  sends_at_most (S (S n)) (download_and_save_subtitle env subtitle_data video_path).
Proof. unfold download_and_save_subtitle. traffic. Qed.

Lemma traffic_check_local (n : nat) (video_path : string) :
  sends_at_most n (check_local env video_path).
Proof.
  unfold check_local.
  apply (sends_at_most_bind n); [apply traffic_has_external| |lia].
  intros [|]; [traffic|apply traffic_has_embedded].
Qed.

Lemma traffic_search_by_hash (n : nat) (video_path : string) :
  sends_at_most (S n) (search_by_hash env video_path).
Proof.
  unfold search_by_hash.
  apply (sends_at_most_bind 0); [apply traffic_generate_hash| |lia].
  intros [h|]; [|traffic]. destruct (negb (String.eqb h "")); [|traffic].
  apply sends_at_most_bind_quiet; [quiet|intros _].
  apply (sends_at_most_bind 1); [apply traffic_search| |lia].
  intros results. apply traffic_take_best.
Qed.

Lemma traffic_search_by_name (n : nat) (filename : string) (subtitle_data : value)
    (search_method : option string) :
  sends_at_most (S n) (search_by_name env filename subtitle_data search_method).
Proof.
  unfold search_by_name. destruct (negb (truthy subtitle_data)); [|traffic].
  apply sends_at_most_bind_quiet; [quiet|intros _].
  apply (sends_at_most_bind 1); [apply traffic_search| |lia].
  intros results. apply traffic_take_best.
Qed.

Lemma traffic_conclude (n : nat) (video_path : string) (subtitle_data : value)
    (search_method : option string) :
  sends_at_most (S (S n)) (conclude env video_path subtitle_data search_method).
Proof.
  unfold conclude.
  apply (sends_at_most_bind (S (S n))); [| intros _; traffic | lia].
  destruct (truthy subtitle_data); [|traffic].
  apply sends_at_most_bind_quiet; [quiet|intros _]. apply traffic_download.
Qed.

(** X22: a run never retries: whatever the answers, it adds at most four
    requests to those already sent (two searches, one download request,
    one fetch), and keeps the earlier ones in place. *)
Theorem X22_at_most_four_requests (video_path filename : string) (w : World) :
  ∃ calls,
    net (run (orchestrate env video_path filename) w).2 = net w ++ calls ∧
    (length calls ≤ 4)%nat.
Proof.
  revert w. change (sends_at_most 4 (orchestrate env video_path filename)).
  unfold orchestrate.
  apply sends_at_most_bind_quiet; [quiet|intros _].
  apply (sends_at_most_bind 0); [apply traffic_check_local| |lia].
  intros [|]; cbn [Nat.sub].
  { unfold sys_exit. traffic. }
  apply (sends_at_most_bind 1); [apply traffic_search_by_hash| |lia].
  intros [subtitle_data search_method]. cbn [Nat.sub].
  apply (sends_at_most_bind 1); [apply traffic_search_by_name| |lia].
  intros [subtitle_data' search_method']. cbn [Nat.sub].
  apply traffic_conclude.
Qed.

(** X23: [search_subtitles] and the download step are the only places
    that send: the local check and the fingerprinter send nothing. *)
Theorem X23_local_steps_send_nothing (video_path : string) (w : World) :
  net (run (check_local env video_path) w).2 = net w ∧
  net (run (generate_opensubtitles_hash video_path) w).2 = net w.
Proof.
  split.
  - destruct (traffic_check_local 0 video_path w) as (calls & Hcalls & Hlen).
    destruct calls; [|cbn in Hlen; lia]. rewrite app_nil_r in Hcalls. exact Hcalls.
  - destruct (traffic_generate_hash 0 video_path w) as (calls & Hcalls & Hlen).
    destruct calls; [|cbn in Hlen; lia]. rewrite app_nil_r in Hcalls. exact Hcalls.
Qed.

End traffic.

(** ** Whole runs *)

Section runs.
Context (env : Env).

Lemma generate_hash_missing (w : World) (video_path : string) :
  fs w !! video_path = None →
  run (generate_opensubtitles_hash video_path) w
  = (Ret None, logged ERROR (Error_generating_hash FileNotFoundError) w).
Proof.
  intros Hfs.
  cbv [generate_opensubtitles_hash run try_except mbind M_bind os_path_getsize].
  rewrite Hfs. reflexivity.
Qed.

(** The fingerprinter returns and leaves files and requests alone. *)
Lemma generate_hash_returns (w : World) (video_path : string) :
  ∃ result w',
    run (generate_opensubtitles_hash video_path) w = (Ret result, w') ∧
    fs w' = fs w ∧ net w' = net w.
Proof.
  destruct (fs w !! video_path) as [contents|] eqn:Hfs.
  - destruct (Z.lt_ge_cases (Z.of_nat (length contents)) 131072) as [Hsmall|Hbig].
    + rewrite (generate_hash_small w video_path contents Hfs Hsmall).
      do 2 eexists. repeat split.
    + rewrite (generate_hash_run w video_path contents Hfs Hbig).
      do 2 eexists. repeat split.
  - rewrite (generate_hash_missing w video_path Hfs). do 2 eexists. repeat split.
Qed.

Lemma get_best_subtitle_truthy_nonempty (records : list value) (best : value) :
  get_best_subtitle (VList records) = Ret best → truthy best = true → records ≠ [].
Proof. intros Hbest Htruthy ->. cbv in Hbest. injection Hbest as <-. discriminate. Qed.

(** X17: when the search by fingerprint yields a record, that record goes
    to the download step and the catalog is not searched by name: the only
    search request of the run is the one by fingerprint. *)
Theorem X17_hash_match_no_name_search (w0 w w' w1 : World) (video_path filename h : string)
    (records : list value) (best : value) :
  run (check_local env video_path) (logged INFO (Processing filename) w0) = (Ret false, w) →
  run (generate_opensubtitles_hash video_path) w = (Ret (Some h), w') →
  run (search_subtitles env (hash_params h)) (logged INFO (Generated_hash h) w')
  = (Ret (VList records), w1) →
  get_best_subtitle (VList records) = Ret best →
  truthy best = true →
  is_download_record best = true →
  let r := run (orchestrate env video_path filename) w0 in
  r = (Ret tt,
       logged INFO Script_finished
         (download_steps env best video_path
            (logged INFO (Best_match_via (Some "hash"%string))
               (logged INFO (Found_by_hash (length records)) w1)))) ∧
  ∃ calls,
    net r.2 = net w ++ GET_subtitles (hash_params h) :: calls ∧
    ∀ params, GET_subtitles params ∉ calls.
Proof.
  intros Hcheck Hgen Hsearch Hbest Htruthy Hrec r.
  pose proof (get_best_subtitle_truthy_nonempty records best Hbest Htruthy) as Hne.
  pose proof (generate_hash_nonempty _ _ _ _ Hgen) as Hh. apply String.eqb_neq in Hh.
  assert (Hr : r = (Ret tt,
       logged INFO Script_finished
         (download_steps env best video_path
            (logged INFO (Best_match_via (Some "hash"%string))
               (logged INFO (Found_by_hash (length records)) w1))))).
  { subst r. unfold orchestrate, search_by_hash, search_by_name, take_best.
    pose proof (conclude_run env video_path best (Some "hash"%string)
                  (logged INFO (Found_by_hash (length records)) w1) Htruthy Hrec) as Hconclude.
    cbv [run mbind M_bind logging lift mret M_ret] in *.
    rewrite Hcheck, Hgen, Hh. cbn [negb]. rewrite Hsearch.
    destruct records as [|item rest]; [congruence|]. cbn [truthy].
    rewrite Hbest. cbn [py_len]. rewrite Htruthy. cbn [negb]. exact Hconclude. }
  split; [exact Hr|]. rewrite Hr. cbn [snd net logged].
  destruct (generate_hash_returns w video_path) as (result & w'' & Hgen' & _ & Hnet').
  rewrite Hgen in Hgen'. injection Hgen' as <- <-.
  pose proof (search_subtitles_sends env (hash_params h) (logged INFO (Generated_hash h) w'))
    as [Hnet1 _].
  rewrite Hsearch in Hnet1. cbn [snd net logged] in Hnet1. rewrite Hnet' in Hnet1.
  pose proof (download_steps_cases env best video_path
                (logged INFO (Best_match_via (Some "hash"%string))
                   (logged INFO (Found_by_hash (length records)) w1))) as Hcases.
  cbv zeta in Hcases. cbn [net logged] in Hcases.
  destruct Hcases as [(_ & ->) | [(fid & _ & _ & msg & w2 & -> & _ & _ & Hnet2)
                     | (fid & link & _ & _ & w2 & Hnet2 & _ & Hrest)]].
  - exists []. cbn [net logged]. split; [exact Hnet1|]. intros params Hin. inversion Hin.
  - exists [POST_download fid]. cbn [net logged]. rewrite Hnet2, Hnet1, <- app_assoc.
    split; [reflexivity|]. intros params Hin.
    apply list_elem_of_singleton in Hin. discriminate.
  - exists [POST_download fid; GET_link link].
    assert (Hnet3 : net (download_steps env best video_path
                           (logged INFO (Best_match_via (Some "hash"%string))
                              (logged INFO (Found_by_hash (length records)) w1))) = net w2).
    { destruct Hrest as [(_ & ->) | (text & _ & [(_ & ->) | [(written & _ & ->) | (_ & ->)]])];
        reflexivity. }
    rewrite Hnet3, Hnet2, Hnet1, <- app_assoc. split; [reflexivity|].
    intros params Hin. apply elem_of_cons in Hin as [Hin|Hin]; [discriminate|].
    apply list_elem_of_singleton in Hin. discriminate.
Qed.

End runs.

Section well_behaved.
Context (env : Env).

Lemma has_embedded_returns (video_path : string) (w : World) :
  probe_behaves env video_path →
  ∃ found w', run (has_embedded_subtitles env video_path) w = (Ret found, w').
Proof.
  intros [Hfail | (members & streams & Hprobe & Hstreams & Hdicts)].
  - rewrite (has_embedded_probe_raises env video_path w FfmpegError Hfail).
    do 2 eexists. reflexivity.
  - cbv [run has_embedded_subtitles try_except ffmpeg_probe lift mbind M_bind mret M_ret
         py_get logging].
    rewrite Hprobe, Hstreams. cbn [py_iter].
    rewrite (subtitle_streams_of_dicts streams Hdicts).
    destruct (truthy _); do 2 eexists; reflexivity.
Qed.

Lemma search_returns_records (params : list (string * string)) (w : World) :
  catalog_behaves env →
  ∃ records w',
    run (search_subtitles env params) w = (Ret (VList records), w') ∧
    Forall (λ r, is_catalog_record r = true) records.
Proof.
  intros Hcatalog. rewrite search_subtitles_run.
  destruct (Hcatalog params) as [-> | (members & records & -> & Hdata & Hrecords)].
  - do 2 eexists. split; [reflexivity|constructor].
  - cbn [py_get]. rewrite Hdata. do 2 eexists. split; [reflexivity|exact Hrecords].
Qed.

Lemma catalog_record_shapes (r : value) :
  is_catalog_record r = true → is_record r = true ∧ is_download_record r = true.
Proof. unfold is_catalog_record. intros H. apply andb_prop in H. exact H. Qed.

Lemma take_best_returns (records : list value) (found : nat → message) (method : string)
    (subtitle_data : value) (search_method : option string) (w : World) :
  Forall (λ r, is_catalog_record r = true) records →
  ∃ subtitle_data' search_method' w',
    run (take_best (VList records) found method subtitle_data search_method) w
    = (Ret (subtitle_data', search_method'), w') ∧
    (subtitle_data' = subtitle_data ∨ is_catalog_record subtitle_data' = true).
Proof.
  intros Hrecords. unfold take_best. destruct records as [|item rest].
  - cbn [truthy]. do 3 eexists. split; [reflexivity|left; reflexivity].
  - cbn [truthy].
    assert (Hrec : Forall (λ r, is_record r = true) (item :: rest)).
    { eapply Forall_impl; [exact Hrecords|]. intros r Hr. apply catalog_record_shapes, Hr. }
    destruct (get_best_subtitle_first_max item rest Hrec) as (best & i & Hbest & Hi & _).
    cbv [run mbind M_bind lift logging mret M_ret]. rewrite Hbest. cbn [py_len].
    do 3 eexists. split; [reflexivity|]. right.
    apply list_elem_of_lookup_2 in Hi. rewrite Forall_forall in Hrecords.
    apply Hrecords, Hi.
Qed.

Lemma conclude_reaches_terminal (video_path : string) (subtitle_data : value)
    (search_method : option string) (w : World) :
  subtitle_data = VNone ∨ is_catalog_record subtitle_data = true →
  ∃ w' t,
    run (conclude env video_path subtitle_data search_method) w = (Ret tt, w') ∧
    terminal_state (Ret tt, w') = Some t.
Proof.
  intros Hshape. destruct (truthy subtitle_data) eqn:Htruthy.
  - destruct Hshape as [-> | Hrecord]; [discriminate|].
    apply catalog_record_shapes in Hrecord as [_ Hrec].
    rewrite (conclude_run env _ _ _ _ Htruthy Hrec).
    pose proof (download_steps_cases env subtitle_data video_path
                  (logged INFO (Best_match_via search_method) w)) as Hcases.
    cbv zeta in Hcases.
    destruct Hcases as [(_ & ->) | [(fid & _ & _ & msg & w1 & -> & Hmsg & _)
                       | (fid & link & _ & _ & w2 & _ & _ & Hrest)]].
    + do 2 eexists. split; [reflexivity|]. rewrite terminal_state_finished. reflexivity.
    + do 2 eexists. split; [reflexivity|]. rewrite terminal_state_finished. exact Hmsg.
    + destruct Hrest as [(_ & ->) | (text & _ & [(_ & ->) | [(written & _ & ->) | (_ & ->)]])];
        do 2 eexists; (split; [reflexivity|]); rewrite terminal_state_finished; reflexivity.
  - unfold conclude. rewrite Htruthy. cbv [run mbind M_bind logging].
    do 2 eexists. split; [reflexivity|]. rewrite terminal_state_finished. reflexivity.
Qed.

(** X19: when the probe and the catalog keep to their contracts, a run
    raises nothing but the [SystemExit(0)] of the skip, ends in exactly one
    of the four terminal states and gives exit status 0. *)
Theorem X19_run_reaches_terminal_state (video_path filename : string) (w : World) :
  probe_behaves env video_path →
  catalog_behaves env →
  let r := run (orchestrate env video_path filename) w in
  (r.1 = Ret tt ∨ r.1 = Raise (SystemExit 0)) ∧
  is_Some (terminal_state r) ∧
  exit_status r.1 = 0.
Proof.
  intros Hprobe Hcatalog r. subst r.
  assert (Hskip : ∀ w', ∃ t,
            terminal_state (Raise (SystemExit 0), logged INFO Subtitles_already_exist w')
            = Some t).
  { intros w'. exists DONE_SKIPPED. unfold terminal_state. cbn [fst snd log logged].
    rewrite rev_app_distr. reflexivity. }
  unfold orchestrate, check_local.
  pose proof (has_external_subtitles_run video_path (logged INFO (Processing filename) w))
    as Hext.
  cbv [run mbind M_bind mret M_ret logging sys_exit raise] in *. rewrite Hext. clear Hext. cbv zeta.
  destruct (bool_decide _).
  { cbn [fst snd]. destruct (Hskip (logged INFO (Found_existing_subtitle_file
               (basename ((splitext video_path).1 +:+ ".srt")))
               (logged INFO (Processing filename) w))) as [t Ht].
    split; [right; reflexivity|]. split; [rewrite Ht; eexists; reflexivity|reflexivity]. }
  destruct (bool_decide _).
  { cbn [fst snd]. destruct (Hskip (logged INFO (Found_existing_subtitle_file
               (basename ((splitext video_path).1 +:+ ".sub")))
               (logged INFO (Processing filename) w))) as [t Ht].
    split; [right; reflexivity|]. split; [rewrite Ht; eexists; reflexivity|reflexivity]. }
  destruct (has_embedded_returns video_path (logged INFO (Processing filename) w) Hprobe)
    as (found & w1 & Hembedded).
  cbv [run] in Hembedded. rewrite Hembedded.
  destruct found.
  { cbn [fst snd]. destruct (Hskip w1) as [t Ht].
    split; [right; reflexivity|]. split; [rewrite Ht; eexists; reflexivity|reflexivity]. }
  (* the two searches *)
  assert (Hhash : ∃ subtitle_data search_method w2,
            search_by_hash env video_path w1 = (Ret (subtitle_data, search_method), w2) ∧
            (subtitle_data = VNone ∨ is_catalog_record subtitle_data = true)).
  { unfold search_by_hash.
    destruct (generate_hash_returns w1 video_path) as (result & w' & Hgen & _).
    cbv [run mbind M_bind logging mret M_ret] in *. rewrite Hgen.
    destruct result as [h|]; [|do 3 eexists; split; [reflexivity|left; reflexivity]].
    destruct (negb (String.eqb h ""));
      [|do 3 eexists; split; [reflexivity|left; reflexivity]].
    destruct (search_returns_records (hash_params h) (logged INFO (Generated_hash h) w')
                Hcatalog) as (records & w'' & Hsearch & Hrecords).
    cbv [run] in Hsearch. rewrite Hsearch.
    exact (take_best_returns records Found_by_hash "hash" VNone None w'' Hrecords). }
  destruct Hhash as (subtitle_data & search_method & w2 & Hhash & Hshape).
  rewrite Hhash.
  assert (Hname : ∃ subtitle_data' search_method' w3,
            search_by_name env filename subtitle_data search_method w2
            = (Ret (subtitle_data', search_method'), w3) ∧
            (subtitle_data' = VNone ∨ is_catalog_record subtitle_data' = true)).
  { unfold search_by_name.
    destruct (truthy subtitle_data); cbn [negb];
      [do 3 eexists; split; [reflexivity|exact Hshape]|].
    cbv [run mbind M_bind logging mret M_ret] in *.
    destruct (search_returns_records (query_params filename)
                (logged INFO No_subtitles_by_hash w2) Hcatalog)
      as (records & w'' & Hsearch & Hrecords).
    cbv [run] in Hsearch. rewrite Hsearch.
    destruct (take_best_returns records Found_by_filename "filename" subtitle_data
                search_method w'' Hrecords) as (sd' & sm' & w3 & Hbest & Hsd').
    cbv [run] in Hbest. rewrite Hbest. do 3 eexists. split; [reflexivity|].
    destruct Hsd' as [-> | Hsd']; [exact Hshape|right; exact Hsd']. }
  destruct Hname as (subtitle_data' & search_method' & w3 & Hname & Hshape').
  rewrite Hname.
  destruct (conclude_reaches_terminal video_path subtitle_data' search_method' w3 Hshape')
    as (w4 & t & Hconclude & Ht).
  cbv [run] in Hconclude. rewrite Hconclude. cbn [fst].
  split; [left; reflexivity|]. split; [rewrite Ht; eexists; reflexivity|reflexivity].
Qed.

End well_behaved.

Lemma X17_hash_match_no_name_search_witness :
  (run (orchestrate env_found_by_hash movie_path "movie.mkv") movie_world).1 = Ret tt.
Proof.
  pose (w := logged INFO (Processing "movie.mkv") movie_world).
  pose (h := format_016x (fingerprint_number movie_200000)).
  assert (Hfs : fs w !! movie_path = Some movie_200000) by apply lookup_singleton_eq.
  destruct (X17_hash_match_no_name_search env_found_by_hash movie_world w w
              (sent (GET_subtitles (hash_params h)) (logged INFO (Generated_hash h) w))
              movie_path "movie.mkv" h [record_42] record_42) as [Hrun _].
  - rewrite check_local_run by (apply lookup_singleton_ne; discriminate). reflexivity.
  - apply (generate_hash_run w movie_path movie_200000 Hfs).
    apply Z.leb_le. vm_compute. reflexivity.
  - rewrite search_subtitles_run. reflexivity.
  - reflexivity.
  - reflexivity.
  - reflexivity.
  - rewrite Hrun. reflexivity.
Defined.

Lemma X19_run_reaches_terminal_state_witness :
  is_Some (terminal_state (run (orchestrate env_steady "/videos/clip.mkv" "clip.mkv") lone_world)).
Proof.
  refine (proj1 (proj2 (X19_run_reaches_terminal_state env_steady "/videos/clip.mkv" "clip.mkv"
                          lone_world _ _))).
  - right. exists [("streams", VList [VDict [("codec_type", VStr "video")]])]%string,
             [VDict [("codec_type", VStr "video")]%string].
    split; [reflexivity|]. split; [reflexivity|]. repeat constructor.
  - intros params. right. exists [("data", VList [record_42])]%string, [record_42].
    split; [reflexivity|]. split; [reflexivity|]. repeat constructor.
Defined.

(** ** The entry points *)

Section entry_points.
Context (env : Env).

(** X20: [main] checks the credential first, then the video path: with
    the credential unset or empty it exits with status 1 whatever the path
    is; with a credential and no file at the path it exits with status 1;
    in both cases nothing was sent or written.  Otherwise it goes on with
    the acquisition for the base name of the path. *)
Theorem X20_main_checks_in_order (setup : M unit) (video_path : string) (w w' : World) :
  run setup w = (Ret tt, w') →
  let r := run (main env setup video_path) w in
  (API_KEY env = None ∨ API_KEY env = Some ""%string →
   r = (Raise (SystemExit 1), logged ERROR API_key_not_found w')) ∧
  (∀ key, API_KEY env = Some key → key ≠ ""%string →
     fs w' !! video_path = None →
     r = (Raise (SystemExit 1), logged ERROR (File_not_found video_path) w')) ∧
  (∀ key, API_KEY env = Some key → key ≠ ""%string →
     is_Some (fs w' !! video_path) →
     r = run (orchestrate env video_path (basename video_path)) w').
Proof.
  intros Hsetup r. subst r. split; [|split].
  - intros [Hkey|Hkey].
    + exact (main_missing_credential env setup video_path w w' Hsetup Hkey).
    + unfold main. cbv [run mbind M_bind] in *. rewrite Hsetup, Hkey. reflexivity.
  - intros key Hkey Hne Hfile.
    exact (main_missing_file env setup video_path key w w' Hsetup Hkey Hne Hfile).
  - intros key Hkey Hne [contents Hfile]. unfold main.
    cbv [run mbind M_bind mret M_ret os_path_isfile] in *.
    rewrite Hsetup, Hkey. cbn [from_option]. apply String.eqb_neq in Hne. rewrite Hne.
    cbn [negb]. rewrite Hfile. reflexivity.
Qed.

(** X21: a call of [setup_logging] in a process started from the file
    never returns: it calls [main], which calls it back, until the
    recursion limit; in a module imported under another name the call
    configures logging and returns. *)
Theorem X21_setup_logging_calls_main (video_path : string) (depth : nat) (w : World) :
  run (setup_logging env "__main__" video_path depth) w = (Raise RecursionError, w) ∧
  (∀ name, name ≠ "__main__"%string →
           run (setup_logging env name video_path (S depth)) w = (Ret tt, w)).
Proof.
  split; [apply setup_logging_recursion|].
  intros name Hname. cbn [setup_logging]. apply String.eqb_neq in Hname. rewrite Hname.
  reflexivity.
Qed.

End entry_points.

Lemma X20_main_checks_in_order_witness :
  run (main env_found_by_hash (mret tt) "/videos/clip.mkv") small_world
  = run (orchestrate env_found_by_hash "/videos/clip.mkv" (basename "/videos/clip.mkv"))
        small_world.
Proof.
  refine (proj2 (proj2 (X20_main_checks_in_order env_found_by_hash (mret tt) "/videos/clip.mkv"
                          small_world small_world _)) "key"%string _ _ _).
  - reflexivity.
  - reflexivity.
  - discriminate.
  - vm_compute. eexists. reflexivity.
Defined.

(** ** The fallback to the search by name *)

Section fallback.
Context (env : Env).

(** After the search by name the run sends at most the two requests of
    the download step. *)
Lemma fallback_traffic (video_path filename : string) (w1 : World) :
  ∃ calls,
    net (run (search_by_name env filename VNone None
              ≫= λ '(subtitle_data, search_method),
                    conclude env video_path subtitle_data search_method) w1).2
    = net w1 ++ GET_subtitles (query_params filename) :: calls ∧
    (length calls ≤ 2)%nat.
Proof.
  pose proof (search_subtitles_sends env (query_params filename)
                (logged INFO No_subtitles_by_hash w1)) as [Hsent _].
  unfold search_by_name. cbn [truthy negb].
  cbv [run mbind M_bind logging] in *.
  destruct (search_subtitles env (query_params filename)
              (logged INFO No_subtitles_by_hash w1)) as [[results|e] w2];
    cbn [fst snd net logged] in *.
  - destruct (traffic_take_best 0 results Found_by_filename "filename" VNone None w2)
      as (quiet & Hquiet & Hlen).
    destruct quiet; [|cbn in Hlen; lia]. rewrite app_nil_r in Hquiet.
    destruct (take_best results Found_by_filename "filename" VNone None w2)
      as [[[subtitle_data search_method]|e] w3]; cbn [snd] in *.
    + destruct (traffic_conclude env 0 video_path subtitle_data search_method w3)
        as (calls & Hcalls & Hcount).
      exists calls. rewrite Hcalls, Hquiet, Hsent, <- app_assoc. split; [reflexivity|exact Hcount].
    + exists []. rewrite Hquiet, Hsent. split; [reflexivity|cbn; lia].
  - exists []. rewrite Hsent. split; [reflexivity|cbn; lia].
Qed.

(** A record is an object: it is falsy exactly when it has no member. *)
Lemma record_truthy (r : value) :
  is_record r = true →
  (truthy r = true ↔ ∃ member members, r = VDict (member :: members)) ∧
  (truthy r = false ↔ r = VDict []).
Proof.
  destruct r as [| | | | |members]; try discriminate. intros _.
  destruct members as [|member members]; cbn [truthy]; split; split;
    try discriminate; try reflexivity.
  - intros (m & ms & [=]).
  - intros _. do 2 eexists. reflexivity.
Qed.

(** C7, as far as the code goes: when the fingerprint is absent or the
    search by fingerprint comes back empty, the run asks the catalog for
    the base file name without its extension, language "en", and sends at
    most two requests after it; a selected record that has at least one
    member goes to the download step; when the answer is empty, or the
    selected record is the empty object (line 205 tests its truth value),
    the run ends in DONE_NOT_FOUND, having sent the search by name and
    nothing more; on an answer made of records the selector returns, so
    one of the two cases applies. *)
Theorem C7_filename_fallback (w0 w w1 : World) (video_path : string) :
  let filename := basename video_path in
  let criteria := [("query", (splitext (basename video_path)).1); ("languages", "en")]%string in
  run (check_local env video_path) (logged INFO (Processing filename) w0) = (Ret false, w) →
  (run (generate_opensubtitles_hash video_path) w = (Ret None, w1) ∨
   ∃ h w',
     run (generate_opensubtitles_hash video_path) w = (Ret (Some h), w') ∧
     run (search_subtitles env (hash_params h)) (logged INFO (Generated_hash h) w')
     = (Ret (VList []), w1)) →
  let name_search :=
    run (search_subtitles env criteria) (logged INFO No_subtitles_by_hash w1) in
  let r := run (orchestrate env video_path filename) w0 in
  (∃ calls, net r.2 = net w1 ++ GET_subtitles criteria :: calls ∧ (length calls ≤ 2)%nat) ∧
  (∀ records best,
     name_search.1 = Ret (VList records) →
     get_best_subtitle (VList records) = Ret best →
     truthy best = true →
     r = run (download_and_save_subtitle env best video_path;; logging INFO Script_finished)
             (logged INFO (Best_match_via (Some "filename"%string))
                (logged INFO (Found_by_filename (length records)) name_search.2))) ∧
  (∀ records best,
     name_search.1 = Ret (VList records) →
     records ≠ [] →
     get_best_subtitle (VList records) = Ret best →
     truthy best = false →
     r = (Ret tt, logged INFO Script_finished
                    (logged INFO No_English_subtitles
                       (logged INFO (Found_by_filename (length records)) name_search.2))) ∧
     terminal_state r = Some DONE_NOT_FOUND ∧
     net r.2 = net w1 ++ [GET_subtitles criteria]) ∧
  (∀ results,
     name_search.1 = Ret results →
     truthy results = false →
     r = (Ret tt, logged INFO Script_finished (logged INFO No_English_subtitles name_search.2)) ∧
     terminal_state r = Some DONE_NOT_FOUND ∧
     net r.2 = net w1 ++ [GET_subtitles criteria]) ∧
  (∀ records,
     name_search.1 = Ret (VList records) →
     Forall (λ record, is_record record = true) records →
     ∃ best,
       get_best_subtitle (VList records) = Ret best ∧
       (truthy best = true ↔ ∃ member members, best = VDict (member :: members)) ∧
       (truthy best = false → terminal_state r = Some DONE_NOT_FOUND)).
Proof.
  intros filename criteria Hcheck Hhash name_search r.
  change criteria with (query_params filename) in *. clear criteria.
  assert (Hr : r = run (search_by_name env filename VNone None
                          ≫= λ '(subtitle_data, search_method),
                                conclude env video_path subtitle_data search_method) w1).
  { subst r. unfold orchestrate.
    pose proof (search_by_hash_nothing env video_path w w1 Hhash) as Hstage.
    cbv [run mbind M_bind logging] in *. rewrite Hcheck, Hstage. reflexivity. }
  pose proof (search_subtitles_sends env (query_params filename)
                (logged INFO No_subtitles_by_hash w1)) as [Hsent _].
  fold name_search in Hsent. cbn [net logged] in Hsent.
  split.
  { rewrite Hr. apply fallback_traffic. }
  assert (Hfound : ∀ records best,
     name_search.1 = Ret (VList records) →
     get_best_subtitle (VList records) = Ret best →
     truthy best = true →
     r = run (download_and_save_subtitle env best video_path;; logging INFO Script_finished)
             (logged INFO (Best_match_via (Some "filename"%string))
                (logged INFO (Found_by_filename (length records)) name_search.2))).
  { intros records best Hanswer Hbest Htruthy. rewrite Hr.
    unfold search_by_name, take_best, conclude. cbn [truthy negb].
    subst name_search. cbv [run mbind M_bind logging lift mret M_ret] in *.
    destruct (search_subtitles env (query_params filename)
                (logged INFO No_subtitles_by_hash w1)) as [o w2].
    cbn [fst snd] in *. subst o.
    destruct records as [|item rest].
    { cbv in Hbest. injection Hbest as <-. discriminate Htruthy. }
    cbn [truthy]. rewrite Hbest. cbn [py_len]. rewrite Htruthy. reflexivity. }
  assert (Hempty : ∀ records best,
     name_search.1 = Ret (VList records) →
     records ≠ [] →
     get_best_subtitle (VList records) = Ret best →
     truthy best = false →
     r = (Ret tt, logged INFO Script_finished
                    (logged INFO No_English_subtitles
                       (logged INFO (Found_by_filename (length records)) name_search.2))) ∧
     terminal_state r = Some DONE_NOT_FOUND ∧
     net r.2 = net w1 ++ [GET_subtitles (query_params filename)]).
  { intros records best Hanswer Hne Hbest Hfalsy.
    assert (Hrun : r = (Ret tt, logged INFO Script_finished
                    (logged INFO No_English_subtitles
                       (logged INFO (Found_by_filename (length records)) name_search.2)))).
    { rewrite Hr. unfold search_by_name, take_best, conclude. cbn [truthy negb].
      subst name_search. cbv [run mbind M_bind logging lift mret M_ret] in *.
      destruct (search_subtitles env (query_params filename)
                  (logged INFO No_subtitles_by_hash w1)) as [o w2].
      cbn [fst snd] in *. subst o.
      destruct records as [|item rest]; [congruence|].
      cbn [truthy]. rewrite Hbest. cbn [py_len]. rewrite Hfalsy. reflexivity. }
    split; [exact Hrun|]. rewrite Hrun. split.
    - apply terminal_state_finished.
    - cbn [snd net logged]. exact Hsent. }
  assert (Hnothing : ∀ results,
     name_search.1 = Ret results →
     truthy results = false →
     r = (Ret tt, logged INFO Script_finished (logged INFO No_English_subtitles name_search.2)) ∧
     terminal_state r = Some DONE_NOT_FOUND ∧
     net r.2 = net w1 ++ [GET_subtitles (query_params filename)]).
  { intros results Hanswer Hfalsy.
    assert (Hrun : r = (Ret tt, logged INFO Script_finished
                                  (logged INFO No_English_subtitles name_search.2))).
    { rewrite Hr. unfold search_by_name, take_best, conclude. cbn [truthy negb].
      subst name_search. cbv [run mbind M_bind logging lift mret M_ret] in *.
      destruct (search_subtitles env (query_params filename)
                  (logged INFO No_subtitles_by_hash w1)) as [o w2].
      cbn [fst snd] in *. subst o. rewrite Hfalsy. reflexivity. }
    split; [exact Hrun|]. rewrite Hrun. split.
    - apply terminal_state_finished.
    - cbn [snd net logged]. exact Hsent. }
  split; [exact Hfound|]. split; [exact Hempty|]. split; [exact Hnothing|].
  intros records Hanswer Hrecords.
  destruct records as [|item rest].
  - exists VNone. split; [reflexivity|]. split.
    + split; [discriminate|]. intros (m & ms & [=]).
    + intros _. exact (proj1 (proj2 (Hnothing (VList []) Hanswer eq_refl))).
  - destruct (get_best_subtitle_first_max item rest Hrecords) as (best & i & Hbest & Hi & _).
    exists best. split; [exact Hbest|].
    apply list_elem_of_lookup_2 in Hi. rewrite Forall_forall in Hrecords.
    pose proof (record_truthy best (Hrecords best Hi)) as [Htrue _].
    split; [exact Htrue|]. intros Hfalsy.
    exact (proj1 (proj2 (Hempty (item :: rest) best Hanswer ltac:(discriminate) Hbest Hfalsy))).
Qed.

End fallback.

Lemma C7_filename_fallback_witness :
  run (orchestrate env_found_by_name "/videos/clip.mkv" (basename "/videos/clip.mkv")) lone_world
  = run (download_and_save_subtitle env_found_by_name record_42 "/videos/clip.mkv";;
         logging INFO Script_finished)
        (logged INFO (Best_match_via (Some "filename"%string))
           (logged INFO (Found_by_filename 1)
              (run (search_subtitles env_found_by_name (query_params (basename "/videos/clip.mkv")))
                   (logged INFO No_subtitles_by_hash
                      (logged WARNING File_too_small
                         (logged INFO (Processing (basename "/videos/clip.mkv")) lone_world)))).2)).
Proof.
  refine (proj1 (proj2 (C7_filename_fallback env_found_by_name lone_world
    (logged INFO (Processing (basename "/videos/clip.mkv")) lone_world)
    (logged WARNING File_too_small
       (logged INFO (Processing (basename "/videos/clip.mkv")) lone_world))
    "/videos/clip.mkv" _ _)) [record_42] record_42 _ _ _).
  - vm_compute. reflexivity.
  - left. vm_compute. reflexivity.
  - vm_compute. reflexivity.
  - vm_compute. reflexivity.
  - reflexivity.
Defined.

(** The claim as first written fails on a catalog that answers the search
    by name with one empty record: the fingerprint is absent (the file is
    too small), the search by name yields one record, the selector returns
    it, and the run ends in DONE_NOT_FOUND without any download request. *)
Lemma C7_counterexample :
  let video_path := "/videos/clip.mkv"%string in
  let w := logged INFO (Processing "clip.mkv") lone_world in
  let r := run (orchestrate env_empty_record video_path (basename video_path)) lone_world in
  run (check_local env_empty_record video_path) w = (Ret false, w) ∧
  run (generate_opensubtitles_hash video_path) w = (Ret None, logged WARNING File_too_small w) ∧
  (run (search_subtitles env_empty_record [("query", "clip"); ("languages", "en")]%string)
       (logged INFO No_subtitles_by_hash (logged WARNING File_too_small w))).1
  = Ret (VList [VDict []]) ∧
  is_record (VDict []) = true ∧
  get_best_subtitle (VList [VDict []]) = Ret (VDict []) ∧
  r.1 = Ret tt ∧
  terminal_state r = Some DONE_NOT_FOUND ∧
  log r.2 = [(INFO, Processing "clip.mkv"); (WARNING, File_too_small);
             (INFO, No_subtitles_by_hash); (INFO, Found_by_filename 1);
             (INFO, No_English_subtitles); (INFO, Script_finished)] ∧
  net r.2 = [GET_subtitles [("query", "clip"); ("languages", "en")]%string] ∧
  fs r.2 = fs lone_world.
Proof. repeat split; vm_compute; reflexivity. Qed.
